(** * Configuration normalisation of dca-bot-go (package [internal/config])

    A shallow embedding of [payload.go]: the nested "v2" payload parser
    [ParseDCAPayload], the unifier [ToUnified] with its helper
    [populateUnifiedCredentials], and the legacy adapter [ParseUnifiedV2],
    followed by the properties of the normalisation layer.

    Go values are embedded as follows.
    - [string] is a sequence of bytes: Rocq's [string] (a list of 8-bit
      [ascii]).
    - a pointer to a struct is an [option]; [None] is [nil].
    - [map[string]interface{}] is a [gmap string JValue]; reading a key that
      is not there yields the nil interface value, as Go does (also on a nil
      map, which is the empty [gmap]).
    - [(T, error)] results are a [result T].
    - [fmt.Errorf] is kept symbolic: the format with its operands.

    The functions of imported packages are written out as far as the
    package relies on them ([strings], [strconv], [math/big], [decimal]).
    What depends on the Unicode tables and the JSON decoder is taken as a
    parameter (classes [Unicode] and [JSON]).

    The development then goes on to the code around the normalisation
    layer: the package [exchange] with its mock, the handler of package
    [main] ([handleRequest], [runDCAStrategy], [checkBalanceAndNotify],
    [sendLowBalanceNotification], [extractQuoteCurrency]) and the package
    [env] with its test.  A function that logs or calls the exchange is a
    step on a world made of the account behind the exchange and the log
    written so far; the environment of the process is the table package
    [syscall] keeps.  [decimal.NewFromFloat] and [Decimal.Div] are taken as
    parameters (class [DecimalFloat]). *)

From Stdlib Require Import ZArith NArith Ascii String List Bool Lia.
From stdpp Require Import base option gmap strings.

#[local] Set Warnings "-register-all".
#[local] Open Scope string_scope.

(** ** Errors *)

(** [fmt.Errorf(format, args...)]; an operand is a string ([%s], [%q]) or a
    wrapped error ([%w]). *)
Inductive error : Type :=
| Errorf (format : string) (args : list operand)
with operand : Type :=
| Str (s : string)
| Err (e : error).

Inductive result (A : Type) : Type :=
| ok (v : A)
| err (e : error).
Arguments ok {A} v.
Arguments err {A} e.

Definition succeeds {A : Type} (r : result A) : bool :=
  match r with ok _ => true | err _ => false end.

(** The double quote character, for formats that contain one. *)
Definition dquote : string := String (ascii_of_nat 34) EmptyString.

(** ** Package [strings] *)

(** The Unicode-aware slow paths of [strings], which depend on the
    case and white-space tables of package [unicode]:
    [strings.Map(unicode.ToLower, s)], [strings.Map(unicode.ToUpper, s)],
    [strings.TrimFunc(s, unicode.IsSpace)] and
    [strings.TrimRightFunc(s, unicode.IsSpace)]. *)
Class Unicode : Type := {
  Map_ToLower : string -> string;
  Map_ToUpper : string -> string;
  TrimFunc_IsSpace : string -> string;
  TrimRightFunc_IsSpace : string -> string
}.

Module strings.

(** [utf8.RuneSelf]: bytes below it are single-byte runes. *)
Definition RuneSelf : N := 128.

Definition byte_in (lo hi : ascii) (c : ascii) : bool :=
  (N_of_ascii lo <=? N_of_ascii c)%N && (N_of_ascii c <=? N_of_ascii hi)%N.

Definition isUpperByte (c : ascii) : bool := byte_in "A" "Z" c.
Definition isLowerByte (c : ascii) : bool := byte_in "a" "z" c.

(** [c += 'a' - 'A'] and [c -= 'a' - 'A'] on a byte. *)
Definition lowerByte (c : ascii) : ascii :=
  if isUpperByte c then ascii_of_N (N_of_ascii c + 32) else c.
Definition upperByte (c : ascii) : ascii :=
  if isLowerByte c then ascii_of_N (N_of_ascii c - 32) else c.

Fixpoint all_bytes (p : ascii -> bool) (s : string) : bool :=
  match s with
  | EmptyString => true
  | String c s' => p c && all_bytes p s'
  end.

Fixpoint any_byte (p : ascii -> bool) (s : string) : bool :=
  match s with
  | EmptyString => false
  | String c s' => p c || any_byte p s'
  end.

Fixpoint map_bytes (f : ascii -> ascii) (s : string) : string :=
  match s with
  | EmptyString => EmptyString
  | String c s' => String (f c) (map_bytes f s')
  end.

Definition isASCII (s : string) : bool :=
  all_bytes (fun c => (N_of_ascii c <? RuneSelf)%N) s.

(** [strings.ToLower]: the ASCII-only path rewrites the bytes in place,
    anything else goes through [Map(unicode.ToLower, s)]. *)
Definition ToLower `{Unicode} (s : string) : string :=
  if isASCII s then
    if negb (any_byte isUpperByte s) then s else map_bytes lowerByte s
  else Map_ToLower s.

(** [strings.ToUpper]. *)
Definition ToUpper `{Unicode} (s : string) : string :=
  if isASCII s then
    if negb (any_byte isLowerByte s) then s else map_bytes upperByte s
  else Map_ToUpper s.

(** The table [asciiSpace]: tab, line feed, vertical tab, form feed,
    carriage return and space. *)
Definition asciiSpace (c : ascii) : bool :=
  let n := N_of_ascii c in
  ((9 <=? n) && (n <=? 13) || (n =? 32))%N.

(** First loop of [strings.TrimSpace]: skip leading ASCII spaces.  The
    result is [s[start:]] and whether the loop stopped on a byte
    [>= utf8.RuneSelf]. *)
Fixpoint trim_start (s : string) : bool * string :=
  match s with
  | EmptyString => (false, EmptyString)
  | String c s' =>
      if (RuneSelf <=? N_of_ascii c)%N then (true, s)
      else if asciiSpace c then trim_start s'
      else (false, s)
  end.

Definition reverse (s : string) : string :=
  string_of_list_ascii (rev (list_ascii_of_string s)).

(** Second loop of [strings.TrimSpace]: the same scan from the end of
    [s[start:]]; the result is [s[start:stop]]. *)
Definition trim_stop (s : string) : bool * string :=
  let '(nonASCII, r) := trim_start (reverse s) in (nonASCII, reverse r).

(** [strings.TrimSpace]. *)
Definition TrimSpace `{Unicode} (s : string) : string :=
  let '(nonASCII, s1) := trim_start s in
  if nonASCII then TrimFunc_IsSpace s1
  else
    let '(nonASCII', s2) := trim_stop s1 in
    if nonASCII' then TrimRightFunc_IsSpace s2 else s2.

(** [strings.IndexAny(s, chars)] as a split: the bytes before the first
    byte satisfying [p] and the bytes after it (all of [chars] are ASCII
    where the package calls it). *)
Fixpoint cut (p : ascii -> bool) (s : string) : option (string * string) :=
  match s with
  | EmptyString => None
  | String c s' =>
      if p c then Some (EmptyString, s')
      else match cut p s' with
           | Some (before, after) => Some (String c before, after)
           | None => None
           end
  end.

Fixpoint count (p : ascii -> bool) (s : string) : nat :=
  match s with
  | EmptyString => 0
  | String c s' => (if p c then 1 else 0) + count p s'
  end.

(** [strings.HasPrefix(s, prefix)]. *)
Fixpoint HasPrefix (s prefix : string) : bool :=
  match prefix, s with
  | EmptyString, _ => true
  | String p prefix', String c s' => Ascii.eqb c p && HasPrefix s' prefix'
  | String _ _, EmptyString => false
  end.

(** [strings.HasSuffix(s, suffix)]:
    [len(s) >= len(suffix) && s[len(s)-len(suffix):] == suffix]. *)
Definition HasSuffix (s suffix : string) : bool :=
  (String.length suffix <=? String.length s)%nat
  && (substring (String.length s - String.length suffix)
        (String.length suffix) s =? suffix).

(** [strings.Contains(s, substr)]: [substr] occurs at some offset of [s]. *)
Fixpoint Contains (s substr : string) : bool :=
  HasPrefix s substr
  || match s with
     | EmptyString => false
     | String _ s' => Contains s' substr
     end.

(** [strings.Split(s, sep)] for a separator of one byte, which is how the
    program calls it: the pieces of [s] between the occurrences of [sep],
    one more than there are occurrences. *)
Fixpoint Split (s : string) (sep : ascii) : list string :=
  match s with
  | EmptyString => [EmptyString]
  | String c s' =>
      if Ascii.eqb c sep then EmptyString :: Split s' sep
      else match Split s' sep with
           | piece :: pieces => String c piece :: pieces
           | [] => [String c EmptyString]
           end
  end.

End strings.

(** ** Package [strconv] *)

Module strconv.

Inductive NumError : Type := ErrSyntax | ErrRange.

Definition isDigit (c : ascii) : bool := strings.byte_in "0" "9" c.
Definition digit (c : ascii) : Z := Z.of_N (N_of_ascii c) - 48.

(** The digit loop of [ParseUint(s, 10, bitSize)] on 64-bit unsigned
    arithmetic: [n] is the value so far, [cutoff = maxUint64/10 + 1],
    [maxVal = 1<<bitSize - 1].  On overflow the loop returns [maxVal]
    with [ErrRange]. *)
Fixpoint ParseUint_loop (maxVal : Z) (s : string) (n : Z)
  : Z * option NumError :=
  match s with
  | EmptyString => (n, None)
  | String c s' =>
      if negb (isDigit c) then (0, Some ErrSyntax)
      else
        let cutoff := (2 ^ 64 - 1) / 10 + 1 in
        if n >=? cutoff then (maxVal, Some ErrRange)
        else
          let n10 := (n * 10) mod 2 ^ 64 in
          let n1 := (n10 + digit c) mod 2 ^ 64 in
          if (n1 <? n10) || (n1 >? maxVal) then (maxVal, Some ErrRange)
          else ParseUint_loop maxVal s' n1
  end%Z.

Definition ParseUint (s : string) (bitSize : Z) : Z * option NumError :=
  match s with
  | EmptyString => (0%Z, Some ErrSyntax)
  | _ => ParseUint_loop (2 ^ bitSize - 1)%Z s 0%Z
  end.

(** [strconv.ParseInt(s, 10, bitSize)]. *)
Definition ParseInt (s : string) (bitSize : Z) : Z + NumError :=
  match s with
  | EmptyString => inr ErrSyntax
  | String c s' =>
      let '(neg, digits) :=
        if Ascii.eqb c "+" then (false, s')
        else if Ascii.eqb c "-" then (true, s')
        else (false, s) in
      match ParseUint digits bitSize with
      | (_, Some ErrSyntax) => inr ErrSyntax
      | (un, _) =>
          let cutoff := (2 ^ (bitSize - 1))%Z in
          if negb neg && (un >=? cutoff)%Z then inr ErrRange
          else if neg && (un >? cutoff)%Z then inr ErrRange
          else inl (if neg then - un else un)%Z
      end
  end.

End strconv.

(** ** Package [math/big] *)

Module big.

Fixpoint digits_value (s : string) (n : Z) : option Z :=
  match s with
  | EmptyString => Some n
  | String c s' =>
      if strconv.isDigit c then digits_value s' (n * 10 + strconv.digit c)%Z
      else None
  end.

(** [new(big.Int).SetString(s, 10)]: an optional sign, at least one
    digit, nothing else; [None] is [ok == false]. *)
Definition SetString (s : string) : option Z :=
  match s with
  | EmptyString => None
  | String c s' =>
      let '(neg, digits) :=
        if Ascii.eqb c "+" then (false, s')
        else if Ascii.eqb c "-" then (true, s')
        else (false, s) in
      match digits with
      | EmptyString => None
      | _ => (fun n => if neg then - n else n)%Z <$> digits_value digits 0%Z
      end
  end.

End big.

(** ** Package [github.com/shopspring/decimal] *)

Module decimal.

(** [Decimal{value *big.Int, exp int32}] denotes [value * 10^exp]. *)
Record Decimal : Type := { value : Z; exp : Z }.

(** [decimal.Zero = New(0, 1)]. *)
Definition Zero : Decimal := {| value := 0; exp := 1 |}.

Definition isDot (c : ascii) : bool := Ascii.eqb c ".".
Definition isE (c : ascii) : bool := Ascii.eqb c "E" || Ascii.eqb c "e".

(** [decimal.NewFromString]: an optional exponent after the first [E] or
    [e] (a 32-bit integer), at most one decimal point, and the remaining
    digits read as one signed integer ([strconv.ParseInt] up to 18 bytes,
    [big.Int.SetString] beyond). *)
Definition NewFromString (value : string) : result Decimal :=
  let originalInput := value in
  let scientific :=
    match strings.cut isE value with
    | Some (mantissa, exponent) =>
        match strconv.ParseInt exponent 32 with
        | inr strconv.ErrRange =>
            err (Errorf "can't convert %s to decimal: fractional part too long"
                   [Str value])
        | inr strconv.ErrSyntax =>
            err (Errorf "can't convert %s to decimal: exponent is not numeric"
                   [Str value])
        | inl expInt => ok (mantissa, expInt)
        end
    | None => ok (value, 0%Z)
    end in
  match scientific with
  | err e => err e
  | ok (value, exp) =>
      if (2 <=? strings.count isDot value)%nat then
        err (Errorf "can't convert %s to decimal: too many .s" [Str value])
      else
        let '(intString, exp) :=
          match strings.cut isDot value with
          | None => (value, exp)
          | Some (before, after) =>
              (before ++ after, (exp + - Z.of_nat (String.length after))%Z)
          end in
        let dValue :=
          if (String.length intString <=? 18)%nat then
            match strconv.ParseInt intString 64 with
            | inl parsed64 => Some parsed64
            | inr _ => None
            end
          else big.SetString intString in
        match dValue with
        | None => err (Errorf "can't convert %s to decimal" [Str value])
        | Some dValue =>
            if ((exp <? - 2 ^ 31) || (exp >? 2 ^ 31 - 1))%Z then
              err (Errorf
                     "can't convert %s to decimal: fractional part too long"
                     [Str originalInput])
            else ok {| value := dValue; exp := exp |}
        end
  end.

(** [d.Sign()] and [d.IsPositive()]. *)
Definition Sign (d : Decimal) : Z := Z.sgn (value d).
Definition IsPositive (d : Decimal) : bool := (Sign d =? 1)%Z.
Definition IsNegative (d : Decimal) : bool := (Sign d =? -1)%Z.

(** [d.Cmp(d2)]: equal exponents compare the values; otherwise both are
    rescaled to the smaller exponent, which multiplies the value of the
    other by a power of ten, and the values are compared.  The result is
    [-1], [0] or [1], as [big.Int.Cmp] gives it. *)
Definition Cmp (d d2 : Decimal) : Z :=
  let sign (a b : Z) : Z :=
    match Z.compare a b with Lt => -1 | Eq => 0 | Gt => 1 end%Z in
  if (exp d =? exp d2)%Z then sign (value d) (value d2)
  else
    let e := Z.min (exp d) (exp d2) in
    sign (value d * 10 ^ (exp d - e))%Z (value d2 * 10 ^ (exp d2 - e))%Z.

(** [d.LessThan(d2)]. *)
Definition LessThan (d d2 : Decimal) : bool := (Cmp d d2 =? -1)%Z.

End decimal.

(** ** Dynamically typed JSON values *)

(** What [encoding/json] stores in an [interface{}]: nil (also for JSON
    null), bool, float64 (kept as its IEEE-754 bit pattern), string,
    [[]interface{}] and [map[string]interface{}]. *)
Inductive JValue : Type :=
| JNil
| JBool (b : bool)
| JFloat64 (bits : N)
| JString (s : string)
| JSlice (l : list JValue)
| JMap (m : gmap string JValue).

(** [m[k]] on a [map[string]interface{}]. *)
Definition index (m : gmap string JValue) (k : string) : JValue :=
  default JNil (m !! k).

(** The type assertion [v.(string)] in its comma-ok form; [None] is
    [ok == false]. *)
Definition assert_string (v : JValue) : option string :=
  match v with
  | JString s => Some s
  | _ => None
  end.

(** ** The structs of [payload.go] *)

Module CredentialSource.
Record t : Type := { Type_ : string; Config : gmap string JValue }.
End CredentialSource.
Abbreviation CredentialSource := CredentialSource.t.

Module ExchangeConfig.
Record t : Type := {
  Name : string;
  Credentials : CredentialSource;
  Region : string
}.
End ExchangeConfig.
Abbreviation ExchangeConfig := ExchangeConfig.t.

Module DCAStrategy.
Record t : Type := {
  Symbol : string;
  QuoteAmount : string;
  BalanceThreshold : string;
  OrderType : string
}.
Definition set_OrderType (v : string) (s : t) : t :=
  {| Symbol := Symbol s; QuoteAmount := QuoteAmount s;
     BalanceThreshold := BalanceThreshold s; OrderType := v |}.
End DCAStrategy.
Abbreviation DCAStrategy := DCAStrategy.t.

Module TelegramConfig.
Record t : Type := { Type_ : string; Config : gmap string JValue }.
End TelegramConfig.
Abbreviation TelegramConfig := TelegramConfig.t.

Module NotificationConfig.
Record t : Type := { Telegram : option TelegramConfig }.
End NotificationConfig.
Abbreviation NotificationConfig := NotificationConfig.t.

Module RuntimeFlags.
Record t : Type := { DryRun : bool }.
End RuntimeFlags.
Abbreviation RuntimeFlags := RuntimeFlags.t.

Module DCAPayload.
Record t : Type := {
  Version : string;
  Exchange : ExchangeConfig;
  Strategy : DCAStrategy;
  Notifications : NotificationConfig;
  Flags : RuntimeFlags
}.
Definition set_Strategy (v : DCAStrategy) (p : t) : t :=
  {| Version := Version p; Exchange := Exchange p; Strategy := v;
     Notifications := Notifications p; Flags := Flags p |}.
End DCAPayload.
Abbreviation DCAPayload := DCAPayload.t.

(** The legacy [PayloadV2]; its anonymous structs are named after the
    fields that hold them. *)
Module PayloadV2.

Module DCA.
Record t : Type := {
  Symbol : string;
  TargetAsset : string;
  OrderCurrency : string;
  QuoteAmount : string;
  BalanceThreshold : string
}.
End DCA.

Module OKXInline.
Record t : Type := { APIKey : string; APISecret : string; Passphrase : string }.
End OKXInline.

Module OKXEnv.
Record t : Type := {
  APIKeyEnv : string; APISecretEnv : string; PassphraseEnv : string
}.
End OKXEnv.

Module OKX.
Record t : Type := {
  APIKeyPath : string;
  APISecretPath : string;
  PassphrasePath : string;
  Inline : option OKXInline.t;
  Env : option OKXEnv.t
}.
End OKX.

Module BinanceInline.
Record t : Type := { APIKey : string; APISecret : string }.
End BinanceInline.

Module BinanceEnv.
Record t : Type := { APIKeyEnv : string; APISecretEnv : string }.
End BinanceEnv.

Module Binance.
Record t : Type := {
  APIKeyPath : string;
  APISecretPath : string;
  Inline : option BinanceInline.t;
  Env : option BinanceEnv.t
}.
End Binance.

Module Credentials.
Record t : Type := { OKX : option OKX.t; Binance : option Binance.t }.
End Credentials.

Module TelegramInline.
Record t : Type := { BotToken : string }.
End TelegramInline.

Module TelegramEnv.
Record t : Type := { BotTokenEnv : string }.
End TelegramEnv.

Module Telegram.
Record t : Type := {
  BotTokenPath : string;
  ChatID : string;
  Sink : string;
  Inline : option TelegramInline.t;
  Env : option TelegramEnv.t
}.
End Telegram.

Module Notifications.
Record t : Type := { Telegram : option Telegram.t }.
End Notifications.

Module Flags.
Record t : Type := { DryRun : bool }.
End Flags.

Record t : Type := {
  Version : string;
  Exchange : string;
  DCA : DCA.t;
  Credentials : Credentials.t;
  Notifications : Notifications.t;
  Flags : Flags.t
}.

End PayloadV2.
Abbreviation PayloadV2 := PayloadV2.t.

Module Unified.

Module OKX.
Record t : Type := {
  APIKeyPath : string; APISecretPath : string; PassphrasePath : string
}.
Definition set_APIKeyPath (v : string) (r : t) : t :=
  {| APIKeyPath := v; APISecretPath := APISecretPath r;
     PassphrasePath := PassphrasePath r |}.
Definition set_APISecretPath (v : string) (r : t) : t :=
  {| APIKeyPath := APIKeyPath r; APISecretPath := v;
     PassphrasePath := PassphrasePath r |}.
Definition set_PassphrasePath (v : string) (r : t) : t :=
  {| APIKeyPath := APIKeyPath r; APISecretPath := APISecretPath r;
     PassphrasePath := v |}.
End OKX.

Module OKXInline.
Record t : Type := { APIKey : string; APISecret : string; Passphrase : string }.
Definition set_APIKey (v : string) (r : t) : t :=
  {| APIKey := v; APISecret := APISecret r; Passphrase := Passphrase r |}.
Definition set_APISecret (v : string) (r : t) : t :=
  {| APIKey := APIKey r; APISecret := v; Passphrase := Passphrase r |}.
Definition set_Passphrase (v : string) (r : t) : t :=
  {| APIKey := APIKey r; APISecret := APISecret r; Passphrase := v |}.
End OKXInline.

Module Binance.
Record t : Type := { APIKeyPath : string; APISecretPath : string }.
Definition set_APIKeyPath (v : string) (r : t) : t :=
  {| APIKeyPath := v; APISecretPath := APISecretPath r |}.
Definition set_APISecretPath (v : string) (r : t) : t :=
  {| APIKeyPath := APIKeyPath r; APISecretPath := v |}.
End Binance.

Module Telegram.
Record t : Type := { BotTokenPath : string; ChatID : string; Sink : string }.
Definition set_BotTokenPath (v : string) (r : t) : t :=
  {| BotTokenPath := v; ChatID := ChatID r; Sink := Sink r |}.
Definition set_ChatID (v : string) (r : t) : t :=
  {| BotTokenPath := BotTokenPath r; ChatID := v; Sink := Sink r |}.
End Telegram.

Record t : Type := {
  Exchange : string;
  Symbol : string;
  QuoteAmount : decimal.Decimal;
  BalanceThreshold : decimal.Decimal;
  DryRun : bool;
  OKX : option OKX.t;
  OKXInline : option OKXInline.t;
  Binance : option Binance.t;
  Telegram : option Telegram.t
}.

Definition set_OKX (v : option OKX.t) (u : t) : t :=
  {| Exchange := Exchange u; Symbol := Symbol u; QuoteAmount := QuoteAmount u;
     BalanceThreshold := BalanceThreshold u; DryRun := DryRun u;
     OKX := v; OKXInline := OKXInline u; Binance := Binance u;
     Telegram := Telegram u |}.
Definition set_OKXInline (v : option OKXInline.t) (u : t) : t :=
  {| Exchange := Exchange u; Symbol := Symbol u; QuoteAmount := QuoteAmount u;
     BalanceThreshold := BalanceThreshold u; DryRun := DryRun u;
     OKX := OKX u; OKXInline := v; Binance := Binance u;
     Telegram := Telegram u |}.
Definition set_Binance (v : option Binance.t) (u : t) : t :=
  {| Exchange := Exchange u; Symbol := Symbol u; QuoteAmount := QuoteAmount u;
     BalanceThreshold := BalanceThreshold u; DryRun := DryRun u;
     OKX := OKX u; OKXInline := OKXInline u; Binance := v;
     Telegram := Telegram u |}.
Definition set_Telegram (v : option Telegram.t) (u : t) : t :=
  {| Exchange := Exchange u; Symbol := Symbol u; QuoteAmount := QuoteAmount u;
     BalanceThreshold := BalanceThreshold u; DryRun := DryRun u;
     OKX := OKX u; OKXInline := OKXInline u; Binance := Binance u;
     Telegram := v |}.

End Unified.
Abbreviation Unified := Unified.t.

(** [json.Unmarshal(raw, &v)] at the two struct types the package decodes
    into; a failure carries the decoder's error. *)
Class JSON : Type := {
  Unmarshal_DCAPayload : list Byte.byte -> result DCAPayload;
  Unmarshal_PayloadV2 : list Byte.byte -> result PayloadV2
}.

(** ** The functions of [payload.go] *)

Section Config.

Context `{Unicode} `{JSON}.

(** [ParseDCAPayload]: decode, then validate in the order of the source. *)
Definition ParseDCAPayload (raw : list Byte.byte) : result DCAPayload :=
  match Unmarshal_DCAPayload raw with
  | err e => err (Errorf "invalid JSON: %w" [Err e])
  | ok payload =>
      let strategy := payload.(DCAPayload.Strategy) in
      if negb (strings.ToLower payload.(DCAPayload.Version) =? "v2") then
        err (Errorf ("version must be " ++ dquote ++ "v2" ++ dquote) [])
      else if payload.(DCAPayload.Exchange).(ExchangeConfig.Name) =? "" then
        err (Errorf "exchange name is required" [])
      else if strategy.(DCAStrategy.Symbol) =? "" then
        err (Errorf "strategy symbol is required" [])
      else if strategy.(DCAStrategy.QuoteAmount) =? "" then
        err (Errorf "strategy quoteAmount is required" [])
      else
        match decimal.NewFromString strategy.(DCAStrategy.QuoteAmount) with
        | err e => err (Errorf "invalid quoteAmount: %w" [Err e])
        | ok _ =>
            let threshold :=
              if negb (strategy.(DCAStrategy.BalanceThreshold) =? "") then
                match decimal.NewFromString
                        strategy.(DCAStrategy.BalanceThreshold) with
                | err e => err (Errorf "invalid balanceThreshold: %w" [Err e])
                | ok _ => ok tt
                end
              else ok tt in
            match threshold with
            | err e => err e
            | ok _ =>
                if strategy.(DCAStrategy.OrderType) =? "" then
                  ok (DCAPayload.set_Strategy
                        (DCAStrategy.set_OrderType "market" strategy) payload)
                else ok payload
            end
        end
  end.

(** [v, ok := m[k].(string); if ok { field = v }] on a record [r]. *)
Definition copy_string {R : Type} (m : gmap string JValue) (k : string)
    (set : string -> R -> R) (r : R) : R :=
  match assert_string (index m k) with
  | Some v => set v r
  | None => r
  end.

(** [populateUnifiedCredentials]; its error result is always nil. *)
Definition populateUnifiedCredentials (p : DCAPayload) (unified : Unified)
  : result Unified :=
  let credentials := p.(DCAPayload.Exchange).(ExchangeConfig.Credentials) in
  let type := credentials.(CredentialSource.Type_) in
  let config := credentials.(CredentialSource.Config) in
  let name := strings.ToLower p.(DCAPayload.Exchange).(ExchangeConfig.Name) in
  if name =? "binance" then
    let binance :=
      {| Unified.Binance.APIKeyPath := ""; Unified.Binance.APISecretPath := "" |} in
    let binance :=
      if type =? "ssm" then
        copy_string config "apiSecretPath" Unified.Binance.set_APISecretPath
          (copy_string config "apiKeyPath" Unified.Binance.set_APIKeyPath
             binance)
      else binance in
    ok (Unified.set_Binance (Some binance) unified)
  else if name =? "okx" then
    let okx :=
      {| Unified.OKX.APIKeyPath := ""; Unified.OKX.APISecretPath := "";
         Unified.OKX.PassphrasePath := "" |} in
    let okx :=
      if type =? "ssm" then
        copy_string config "passphrasePath" Unified.OKX.set_PassphrasePath
          (copy_string config "apiSecretPath" Unified.OKX.set_APISecretPath
             (copy_string config "apiKeyPath" Unified.OKX.set_APIKeyPath okx))
      else okx in
    let unified := Unified.set_OKX (Some okx) unified in
    if type =? "inline" then
      let inline :=
        {| Unified.OKXInline.APIKey := ""; Unified.OKXInline.APISecret := "";
           Unified.OKXInline.Passphrase := "" |} in
      let inline :=
        copy_string config "passphrase" Unified.OKXInline.set_Passphrase
          (copy_string config "apiSecret" Unified.OKXInline.set_APISecret
             (copy_string config "apiKey" Unified.OKXInline.set_APIKey inline)) in
      ok (Unified.set_OKXInline (Some inline) unified)
    else ok unified
  else ok unified.

(** The telegram block of [ToUnified]; the cases ["inline"] and ["env"]
    of its switch are empty. *)
Definition unifiedTelegram (telegram : TelegramConfig) : Unified.Telegram.t :=
  let type := telegram.(TelegramConfig.Type_) in
  let config := telegram.(TelegramConfig.Config) in
  let record :=
    {| Unified.Telegram.BotTokenPath := ""; Unified.Telegram.ChatID := "";
       Unified.Telegram.Sink := "" |} in
  let record := copy_string config "chatId" Unified.Telegram.set_ChatID record in
  if type =? "ssm" then
    copy_string config "botTokenPath" Unified.Telegram.set_BotTokenPath record
  else if type =? "inline" then record
  else if type =? "env" then record
  else record.

(** The method [ToUnified] of [DCAPayload]. *)
Definition ToUnified (p : DCAPayload) : result Unified :=
  let strategy := p.(DCAPayload.Strategy) in
  match decimal.NewFromString strategy.(DCAStrategy.QuoteAmount) with
  | err e => err (Errorf "invalid quoteAmount: %w" [Err e])
  | ok qa =>
      let threshold :=
        if negb (strategy.(DCAStrategy.BalanceThreshold) =? "") then
          match decimal.NewFromString strategy.(DCAStrategy.BalanceThreshold) with
          | err e => err (Errorf "invalid balanceThreshold: %w" [Err e])
          | ok bt => ok bt
          end
        else ok decimal.Zero in
      match threshold with
      | err e => err e
      | ok bt =>
          let unified :=
            {| Unified.Exchange :=
                 strings.ToLower p.(DCAPayload.Exchange).(ExchangeConfig.Name);
               Unified.Symbol := strings.ToUpper strategy.(DCAStrategy.Symbol);
               Unified.QuoteAmount := qa;
               Unified.BalanceThreshold := bt;
               Unified.DryRun := p.(DCAPayload.Flags).(RuntimeFlags.DryRun);
               Unified.OKX := None; Unified.OKXInline := None;
               Unified.Binance := None; Unified.Telegram := None |} in
          match populateUnifiedCredentials p unified with
          | err e => err e
          | ok unified =>
              match p.(DCAPayload.Notifications).(NotificationConfig.Telegram) with
              | Some telegram =>
                  ok (Unified.set_Telegram (Some (unifiedTelegram telegram))
                        unified)
              | None => ok unified
              end
          end
      end
  end.

(** Symbol resolution of [ParseUnifiedV2]. *)
Definition legacySymbol (dca : PayloadV2.DCA.t) : result string :=
  let symbol := strings.ToUpper (strings.TrimSpace dca.(PayloadV2.DCA.Symbol)) in
  if symbol =? "" then
    if (dca.(PayloadV2.DCA.TargetAsset) =? "")
       || (dca.(PayloadV2.DCA.OrderCurrency) =? "") then
      err (Errorf "dca.symbol or (dca.targetAsset+orderCurrency) required" [])
    else
      ok (strings.ToUpper dca.(PayloadV2.DCA.TargetAsset) ++ "-"
          ++ strings.ToUpper dca.(PayloadV2.DCA.OrderCurrency))
  else ok symbol.

(** The credential blocks of [ParseUnifiedV2]: the okx block, with its
    inline sub-block, and the binance block, each copied when it is not
    nil. *)
Definition legacyCredentials (credentials : PayloadV2.Credentials.t)
    (u : Unified) : Unified :=
  let u :=
    match credentials.(PayloadV2.Credentials.OKX) with
    | Some okx =>
        let u :=
          Unified.set_OKX
            (Some {| Unified.OKX.APIKeyPath := okx.(PayloadV2.OKX.APIKeyPath);
                     Unified.OKX.APISecretPath :=
                       okx.(PayloadV2.OKX.APISecretPath);
                     Unified.OKX.PassphrasePath :=
                       okx.(PayloadV2.OKX.PassphrasePath) |}) u in
        match okx.(PayloadV2.OKX.Inline) with
        | Some inline =>
            Unified.set_OKXInline
              (Some {| Unified.OKXInline.APIKey :=
                         inline.(PayloadV2.OKXInline.APIKey);
                       Unified.OKXInline.APISecret :=
                         inline.(PayloadV2.OKXInline.APISecret);
                       Unified.OKXInline.Passphrase :=
                         inline.(PayloadV2.OKXInline.Passphrase) |}) u
        | None => u
        end
    | None => u
    end in
  match credentials.(PayloadV2.Credentials.Binance) with
  | Some binance =>
      Unified.set_Binance
        (Some {| Unified.Binance.APIKeyPath :=
                   binance.(PayloadV2.Binance.APIKeyPath);
                 Unified.Binance.APISecretPath :=
                   binance.(PayloadV2.Binance.APISecretPath) |}) u
  | None => u
  end.

(** The telegram block of [ParseUnifiedV2]. *)
Definition legacyTelegram (notifications : PayloadV2.Notifications.t)
    (u : Unified) : Unified :=
  match notifications.(PayloadV2.Notifications.Telegram) with
  | Some telegram =>
      Unified.set_Telegram
        (Some {| Unified.Telegram.BotTokenPath :=
                   telegram.(PayloadV2.Telegram.BotTokenPath);
                 Unified.Telegram.ChatID := telegram.(PayloadV2.Telegram.ChatID);
                 Unified.Telegram.Sink :=
                   strings.ToLower
                     (strings.TrimSpace telegram.(PayloadV2.Telegram.Sink)) |})
        u
  | None => u
  end.

(** [ParseUnifiedV2], the legacy adapter. *)
Definition ParseUnifiedV2 (raw : list Byte.byte) : result Unified :=
  match Unmarshal_PayloadV2 raw with
  | err e => err (Errorf "invalid JSON: %w" [Err e])
  | ok v2 =>
      let dca := v2.(PayloadV2.DCA) in
      if negb (strings.ToLower v2.(PayloadV2.Version) =? "v2") then
        err (Errorf ("version must be " ++ dquote ++ "v2" ++ dquote) [])
      else
        let ex := strings.ToLower (strings.TrimSpace v2.(PayloadV2.Exchange)) in
        if ex =? "" then err (Errorf "exchange is required" [])
        else
          match legacySymbol dca with
          | err e => err e
          | ok symbol =>
              let invalid :=
                Errorf "dca.quoteAmount invalid: %q"
                  [Str dca.(PayloadV2.DCA.QuoteAmount)] in
              match decimal.NewFromString dca.(PayloadV2.DCA.QuoteAmount) with
              | err _ => err invalid
              | ok qa =>
                  if negb (decimal.IsPositive qa) then err invalid
                  else
                    let s :=
                      strings.TrimSpace dca.(PayloadV2.DCA.BalanceThreshold) in
                    let threshold :=
                      if negb (s =? "") then
                        match decimal.NewFromString s with
                        | err _ =>
                            err (Errorf "dca.balanceThreshold invalid: %q"
                                   [Str s])
                        | ok bt => ok bt
                        end
                      else ok decimal.Zero in
                    match threshold with
                    | err e => err e
                    | ok bt =>
                        let u :=
                          {| Unified.Exchange := ex;
                             Unified.Symbol := symbol;
                             Unified.QuoteAmount := qa;
                             Unified.BalanceThreshold := bt;
                             Unified.DryRun :=
                               v2.(PayloadV2.Flags).(PayloadV2.Flags.DryRun);
                             Unified.OKX := None;
                             Unified.OKXInline := None;
                             Unified.Binance := None;
                             Unified.Telegram := None |} in
                        ok (legacyTelegram v2.(PayloadV2.Notifications)
                              (legacyCredentials v2.(PayloadV2.Credentials) u))
                    end
              end
          end
  end.

End Config.

(** ** Package [decimal], floating point *)

(** A [float64] is kept as its IEEE-754 bit pattern. *)
Definition float64 : Type := N.

(** [decimal.NewFromFloat] and [Decimal.Div], which the mock exchange calls
    on constants only, are taken as parameters.  ([Div] panics on a zero
    divisor; the divisor of the mock is the constant 50000.) *)
Class DecimalFloat : Type := {
  NewFromFloat : float64 -> decimal.Decimal;
  Div : decimal.Decimal -> decimal.Decimal -> decimal.Decimal
}.

(** The constants [10000] and [50000] as [float64]. *)
Definition float_10000 : float64 := 0x40C3880000000000%N.
Definition float_50000 : float64 := 0x40E86A0000000000%N.

(** ** Package [os], the environment *)

Module os.

(** The environment as package [syscall] keeps it on Unix: the slice [envs]
    of the entries ["key=value"], where an entry that was unset is empty,
    and the map [env] from a key to the index of its entry. *)
Record table : Type := { envs : list string; env : gmap string nat }.

(** [os.Environ]: a copy of the entries that are not empty. *)
Definition Environ (t : table) : list string :=
  List.filter (fun entry => negb (entry =? "")) t.(envs).

(** [os.Clearenv]. *)
Definition Clearenv (t : table) : table := {| envs := []; env := ∅ |}.

(** [os.Setenv]: [EINVAL], wrapped as a [SyscallError], for an empty key, a
    key with ['='] or a NUL byte and a value with a NUL byte; otherwise the
    entry of the key is replaced where it is, or appended.  (An index kept
    in [env] is always one of [envs].) *)
Definition Setenv (key value : string) (t : table) : option error * table :=
  if (key =? "")
     || strings.any_byte (fun c => Ascii.eqb c "=" || Ascii.eqb c Ascii.zero) key
     || strings.any_byte (fun c => Ascii.eqb c Ascii.zero) value
  then (Some (Errorf "setenv: invalid argument" []), t)
  else
    let kv := key ++ "=" ++ value in
    match t.(env) !! key with
    | Some i =>
        (None, {| envs := <[i := kv]> t.(envs); env := <[key := i]> t.(env) |})
    | None =>
        (None, {| envs := (t.(envs) ++ [kv])%list;
                  env := <[key := length t.(envs)]> t.(env) |})
    end.

End os.

(** ** Package [env] *)

Module env.

(** [IsLambdaEnvironment], on the result of [os.Environ()]. *)
Definition IsLambdaEnvironment (environ : list string) : bool :=
  existsb
    (fun env =>
       (11 <? String.length env)%nat && (substring 0 11 env =? "AWS_LAMBDA_"))
    environ.

(** [splitOnce] of [env_test.go]. *)
Fixpoint splitOnce (s : string) (sep : ascii) : list string :=
  match s with
  | EmptyString => [EmptyString]
  | String c s' =>
      if Ascii.eqb c sep then [EmptyString; s']
      else match splitOnce s' sep with
           | [before; after] => [String c before; after]
           | _ => [s]
           end
  end.

(** [restoreEnv] of [env_test.go]; the errors of [os.Setenv] are dropped. *)
Definition restoreEnv (environ : list string) (t : os.table) : os.table :=
  fold_left
    (fun t kv =>
       match splitOnce kv "=" with
       | [key; value] => snd (os.Setenv key value t)
       | _ => t
       end)
    environ (os.Clearenv t).

(** [TestIsLambdaEnvironment]: the messages it gives to [t.Errorf], and the
    environment it leaves. *)
Definition TestIsLambdaEnvironment (t : os.table) : list string * os.table :=
  let originalEnv := os.Environ t in
  let t := os.Clearenv t in
  let errors :=
    if IsLambdaEnvironment (os.Environ t) then
      ["Expected false in local environment"]
    else [] in
  let t := snd (os.Setenv "AWS_LAMBDA_FUNCTION_NAME" "my-lambda" t) in
  let errors :=
    if negb (IsLambdaEnvironment (os.Environ t)) then
      (errors ++ ["Expected true in Lambda environment"])%list
    else errors in
  (errors, restoreEnv originalEnv t).

End env.

(** ** Package [exchange] *)

Module exchange.

Module Order.
Record t : Type := {
  ID : string;
  Symbol : string;
  Side : string;
  Type_ : string;
  Quantity : decimal.Decimal;
  Price : decimal.Decimal;
  Status : string
}.
End Order.

(** The interface [Exchange].  An implementation talks to an account, whose
    state [S] its two methods read and change; the context argument is left
    out. *)
Record Exchange (S : Type) : Type := {
  GetBalance : string -> S -> result decimal.Decimal * S;
  PlaceMarketBuyOrder : string -> decimal.Decimal -> S -> result Order.t * S
}.
Arguments GetBalance {S} _ _ _.
Arguments PlaceMarketBuyOrder {S} _ _ _ _.

Section Mock.

Context `{DecimalFloat}.

(** [MockExchange], a struct without fields: its account is [unit]. *)
Definition MockExchange : Exchange unit :=
  {| GetBalance := fun asset s => (ok (NewFromFloat float_10000), s);
     PlaceMarketBuyOrder := fun symbol quoteAmount s =>
       (ok {| Order.ID := "mock-order-12345";
              Order.Symbol := symbol;
              Order.Side := "buy";
              Order.Type_ := "market";
              Order.Quantity := Div quoteAmount (NewFromFloat float_50000);
              Order.Price := NewFromFloat float_50000;
              Order.Status := "filled" |}, s) |}.

Definition NewMockExchange : Exchange unit := MockExchange.

(** The two placeholders return a nil exchange and an error. *)
Definition NewBinanceExchange (cfg : DCAPayload) : result (Exchange unit) :=
  err (Errorf "Binance exchange not implemented yet" []).

Definition NewOKXExchange (cfg : DCAPayload) : result (Exchange unit) :=
  err (Errorf "OKX exchange not implemented yet" []).

(** [NewExchange].  The only exchange it ever returns is the mock. *)
Definition NewExchange (cfg : DCAPayload) : result (Exchange unit) :=
  if cfg.(DCAPayload.Flags).(RuntimeFlags.DryRun) then ok NewMockExchange
  else
    let name := cfg.(DCAPayload.Exchange).(ExchangeConfig.Name) in
    if name =? "binance" then NewBinanceExchange cfg
    else if name =? "okx" then NewOKXExchange cfg
    else err (Errorf "unsupported exchange: %s" [Str name]).

End Mock.

End exchange.

(** ** Package [main] *)

Module main.

(** An operand of [log.Printf]: a string, a bool, an error, or a decimal
    rendered by its [String] method. *)
Inductive logged : Type :=
| LStr (s : string)
| LBool (b : bool)
| LErr (e : error)
| LDec (d : decimal.Decimal).

(** A line written by [log.Printf(format, args...)]. *)
Inductive entry : Type := Line (format : string) (args : list logged).

(** What the handler acts on: the account behind the exchange and the log
    written so far. *)
Record world (S : Type) : Type := { account : S; journal : list entry }.
Arguments account {S} _.
Arguments journal {S} _.

(** A step that yields an [A] and changes the world. *)
Definition Run (S A : Type) : Type := world S -> A * world S.

Definition ret {S A : Type} (a : A) : Run S A := fun w => (a, w).

Definition bind {S A B : Type} (m : Run S A) (k : A -> Run S B) : Run S B :=
  fun w => let '(a, w') := m w in k a w'.

Notation "m ;;; k" := (bind m (fun _ => k))
  (at level 100, k at level 200, right associativity, only parsing).

(** [log.Printf]. *)
Definition Printf {S : Type} (format : string) (args : list logged)
  : Run S unit :=
  fun w => (tt, {| account := account w;
                   journal := (journal w ++ [Line format args])%list |}).

(** A method call on the exchange. *)
Definition call {S A : Type} (method : S -> A * S) : Run S A :=
  fun w => let '(a, s) := method (account w) in
           (a, {| account := s; journal := journal w |}).

(** The error a handler returns, [None] for nil. *)
Definition returned {S : Type} (r : option error * world S) : option error :=
  fst r.

(** [extractQuoteCurrency]. *)
Definition commonQuotes : list string :=
  ["USDT"; "USDC"; "BUSD"; "USD"; "BTC"; "ETH"; "FDUSD"].

Definition extractQuoteCurrency (symbol : string) : result string :=
  if strings.Contains symbol "-" then
    match strings.Split symbol "-" with
    | [_; quote] => ok quote
    | _ => err (Errorf "invalid symbol format: %s" [Str symbol])
    end
  else
    match find (fun quote => strings.HasSuffix symbol quote) commonQuotes with
    | Some quote => ok quote
    | None =>
        err (Errorf "unable to extract quote currency from symbol: %s"
               [Str symbol])
    end.

Section Strategy.

Context {S : Type}.

(** [sendLowBalanceNotification]: it only logs, and returns nil. *)
Definition sendLowBalanceNotification (payload : DCAPayload) (currency : string)
    (balance threshold : decimal.Decimal) : Run S (option error) :=
  Printf "📢 Would send low balance notification:" [] ;;;
  Printf "   Currency: %s" [LStr currency] ;;;
  Printf "   Current Balance: %s" [LDec balance] ;;;
  Printf "   Threshold: %s" [LDec threshold] ;;;
  Printf "   Symbol: %s"
    [LStr payload.(DCAPayload.Strategy).(DCAStrategy.Symbol)] ;;;
  match payload.(DCAPayload.Notifications).(NotificationConfig.Telegram) with
  | Some telegram =>
      Printf "   Telegram notification configured: %s"
        [LStr telegram.(TelegramConfig.Type_)]
  | None => ret tt
  end ;;;
  ret None.

(** [checkBalanceAndNotify]. *)
Definition checkBalanceAndNotify (payload : DCAPayload)
    (exc : exchange.Exchange S) : Run S (option error) :=
  let strategy := payload.(DCAPayload.Strategy) in
  match extractQuoteCurrency strategy.(DCAStrategy.Symbol) with
  | err e => ret (Some (Errorf "failed to extract quote currency: %w" [Err e]))
  | ok quoteCurrency =>
      bind (call (exchange.GetBalance exc quoteCurrency)) (fun got =>
      match got with
      | err e => ret (Some (Errorf "failed to get balance: %w" [Err e]))
      | ok balance =>
          Printf "💰 Current %s balance after order: %s"
            [LStr quoteCurrency; LDec balance] ;;;
          match decimal.NewFromString strategy.(DCAStrategy.BalanceThreshold) with
          | err e => ret (Some (Errorf "invalid balance threshold: %w" [Err e]))
          | ok threshold =>
              if decimal.LessThan balance threshold then
                Printf "⚠️ Balance is below threshold: %s < %s"
                  [LDec balance; LDec threshold] ;;;
                sendLowBalanceNotification payload quoteCurrency balance
                  threshold
              else
                Printf "✅ Balance is sufficient: %s >= %s (threshold)"
                  [LDec balance; LDec threshold] ;;;
                ret None
          end
      end)
  end.

(** [runDCAStrategy]. *)
Definition runDCAStrategy (payload : DCAPayload) (exc : exchange.Exchange S)
  : Run S (option error) :=
  let strategy := payload.(DCAPayload.Strategy) in
  let symbol := strategy.(DCAStrategy.Symbol) in
  Printf "🔍 Starting DCA strategy execution..." [] ;;;
  match decimal.NewFromString strategy.(DCAStrategy.QuoteAmount) with
  | err e => ret (Some (Errorf "invalid quote amount: %w" [Err e]))
  | ok quoteAmount =>
      (if payload.(DCAPayload.Flags).(RuntimeFlags.DryRun) then
         Printf "🧪 DRY RUN: Simulating market buy order for %s %s"
           [LDec quoteAmount; LStr symbol]
       else
         Printf "📈 Placing market buy order: %s %s"
           [LDec quoteAmount; LStr symbol]) ;;;
      bind (call (exchange.PlaceMarketBuyOrder exc symbol quoteAmount))
        (fun placed =>
      match placed with
      | err e => ret (Some (Errorf "failed to place order: %w" [Err e]))
      | ok order =>
          Printf "✅ Order executed successfully:" [] ;;;
          Printf "   Order ID: %s" [LStr order.(exchange.Order.ID)] ;;;
          Printf "   Symbol: %s" [LStr order.(exchange.Order.Symbol)] ;;;
          Printf "   Quantity: %s" [LDec order.(exchange.Order.Quantity)] ;;;
          Printf "   Price: %s" [LDec order.(exchange.Order.Price)] ;;;
          Printf "   Status: %s" [LStr order.(exchange.Order.Status)] ;;;
          (if negb (strategy.(DCAStrategy.BalanceThreshold) =? "") then
             bind (checkBalanceAndNotify payload exc) (fun failed =>
             match failed with
             | Some e => Printf "⚠️ Balance check failed: %v" [LErr e]
             | None => ret tt
             end)
           else ret tt) ;;;
          ret None
      end)
  end.

End Strategy.

Section Handler.

Context `{Unicode} `{JSON} `{DecimalFloat}.

(** [handleRequest]; the exchange it runs the strategy on comes from
    [NewExchange], so its account is that of the mock. *)
Definition handleRequest (event : list Byte.byte) : Run unit (option error) :=
  match ParseDCAPayload event with
  | err e => ret (Some (Errorf "failed to parse payload: %w" [Err e]))
  | ok payload =>
      let strategy := payload.(DCAPayload.Strategy) in
      let config := payload.(DCAPayload.Exchange) in
      Printf "📊 Parsed DCA configuration:" [] ;;;
      Printf "   Exchange: %s" [LStr config.(ExchangeConfig.Name)] ;;;
      Printf "   Symbol: %s" [LStr strategy.(DCAStrategy.Symbol)] ;;;
      Printf "   Quote Amount: %s" [LStr strategy.(DCAStrategy.QuoteAmount)] ;;;
      Printf "   Balance Threshold: %s"
        [LStr strategy.(DCAStrategy.BalanceThreshold)] ;;;
      Printf "   Order Type: %s" [LStr strategy.(DCAStrategy.OrderType)] ;;;
      Printf "   Dry Run: %v"
        [LBool payload.(DCAPayload.Flags).(RuntimeFlags.DryRun)] ;;;
      Printf "   Credential Type: %s"
        [LStr config.(ExchangeConfig.Credentials).(CredentialSource.Type_)] ;;;
      match payload.(DCAPayload.Notifications).(NotificationConfig.Telegram) with
      | Some telegram =>
          Printf "   Telegram Notification: %s"
            [LStr telegram.(TelegramConfig.Type_)]
      | None => ret tt
      end ;;;
      match ToUnified payload with
      | err e =>
          ret (Some (Errorf "failed to convert to unified format: %w" [Err e]))
      | ok unified =>
          Printf "🚀 DCA Bot processing %s on %s (DryRun: %v)"
            [LStr unified.(Unified.Symbol); LStr unified.(Unified.Exchange);
             LBool unified.(Unified.DryRun)] ;;;
          match exchange.NewExchange payload with
          | err e => ret (Some (Errorf "failed to create exchange: %w" [Err e]))
          | ok exc =>
              bind (runDCAStrategy payload exc) (fun failed =>
              match failed with
              | Some e => ret (Some (Errorf "DCA strategy failed: %w" [Err e]))
              | None => ret None
              end)
          end
      end
  end.

End Handler.

End main.

(** ** Predicates used to state the properties *)

(** Key [k] of bag [m] is missing or holds something that is not a string. *)
Definition unusable (m : gmap string JValue) (k : string) : Prop :=
  forall s : string, m !! k <> Some (JString s).

(** The two decimal-parse steps of the nested path go through. *)
Definition amounts_parse (s : DCAStrategy) : Prop :=
  succeeds (decimal.NewFromString s.(DCAStrategy.QuoteAmount)) = true /\
  (s.(DCAStrategy.BalanceThreshold) = "" \/
   succeeds (decimal.NewFromString s.(DCAStrategy.BalanceThreshold)) = true).

(** What [ParseDCAPayload] checks on a decoded payload. *)
Definition valid_payload `{Unicode} (p : DCAPayload) : Prop :=
  strings.ToLower p.(DCAPayload.Version) = "v2" /\
  p.(DCAPayload.Exchange).(ExchangeConfig.Name) <> "" /\
  p.(DCAPayload.Strategy).(DCAStrategy.Symbol) <> "" /\
  p.(DCAPayload.Strategy).(DCAStrategy.QuoteAmount) <> "" /\
  amounts_parse p.(DCAPayload.Strategy).

(** The payload [ParseDCAPayload] hands back: the order type defaulted. *)
Definition with_default_order_type (p : DCAPayload) : DCAPayload :=
  if p.(DCAPayload.Strategy).(DCAStrategy.OrderType) =? "" then
    DCAPayload.set_Strategy
      (DCAStrategy.set_OrderType "market" p.(DCAPayload.Strategy)) p
  else p.

(** The invariant of the data model as the specification words it: exactly
    one exchange's credential record is populated, the one named by the
    plan's exchange identifier.  (The inline record of OKX is counted with
    the OKX record.) *)
Definition exactly_one_matching (u : Unified) : Prop :=
  (u.(Unified.Exchange) = "binance" /\ is_Some u.(Unified.Binance) /\
   u.(Unified.OKX) = None /\ u.(Unified.OKXInline) = None) \/
  (u.(Unified.Exchange) = "okx" /\ is_Some u.(Unified.OKX) /\
   u.(Unified.Binance) = None).

(** A string made of ASCII white space only. *)
Definition ascii_blank (s : string) : Prop :=
  strings.all_bytes strings.asciiSpace s = true.

(** A legacy payload without the sub-records that [ParseUnifiedV2] never
    reads: [inline] and [env] of binance, [env] of okx, [inline] and [env]
    of telegram. *)
Definition without_unread (v2 : PayloadV2) : PayloadV2 :=
  let credentials := v2.(PayloadV2.Credentials) in
  {| PayloadV2.Version := v2.(PayloadV2.Version);
     PayloadV2.Exchange := v2.(PayloadV2.Exchange);
     PayloadV2.DCA := v2.(PayloadV2.DCA);
     PayloadV2.Credentials :=
       {| PayloadV2.Credentials.OKX :=
            (fun okx =>
               {| PayloadV2.OKX.APIKeyPath := okx.(PayloadV2.OKX.APIKeyPath);
                  PayloadV2.OKX.APISecretPath := okx.(PayloadV2.OKX.APISecretPath);
                  PayloadV2.OKX.PassphrasePath := okx.(PayloadV2.OKX.PassphrasePath);
                  PayloadV2.OKX.Inline := okx.(PayloadV2.OKX.Inline);
                  PayloadV2.OKX.Env := None |})
              <$> credentials.(PayloadV2.Credentials.OKX);
          PayloadV2.Credentials.Binance :=
            (fun binance =>
               {| PayloadV2.Binance.APIKeyPath :=
                    binance.(PayloadV2.Binance.APIKeyPath);
                  PayloadV2.Binance.APISecretPath :=
                    binance.(PayloadV2.Binance.APISecretPath);
                  PayloadV2.Binance.Inline := None;
                  PayloadV2.Binance.Env := None |})
              <$> credentials.(PayloadV2.Credentials.Binance) |};
     PayloadV2.Notifications :=
       {| PayloadV2.Notifications.Telegram :=
            (fun telegram =>
               {| PayloadV2.Telegram.BotTokenPath :=
                    telegram.(PayloadV2.Telegram.BotTokenPath);
                  PayloadV2.Telegram.ChatID := telegram.(PayloadV2.Telegram.ChatID);
                  PayloadV2.Telegram.Sink := telegram.(PayloadV2.Telegram.Sink);
                  PayloadV2.Telegram.Inline := None;
                  PayloadV2.Telegram.Env := None |})
              <$> v2.(PayloadV2.Notifications).(PayloadV2.Notifications.Telegram) |};
     PayloadV2.Flags := v2.(PayloadV2.Flags) |}.

(** ** Concrete inputs *)

(** An instance of [Unicode] for evaluating ASCII inputs, on which the slow
    paths are not reached (lemmas [ToLower_ascii], [ToUpper_ascii] and
    [TrimSpace_ascii] below); it leaves other text unchanged. *)
Definition ascii_text : Unicode :=
  {| Map_ToLower := fun s => s; Map_ToUpper := fun s => s;
     TrimFunc_IsSpace := fun s => s; TrimRightFunc_IsSpace := fun s => s |}.

(** A decoder whose answers are given: [nested] at [DCAPayload], [legacy]
    at [PayloadV2]. *)
Definition decoding (nested : result DCAPayload) (legacy : result PayloadV2)
  : JSON :=
  {| Unmarshal_DCAPayload := fun _ => nested;
     Unmarshal_PayloadV2 := fun _ => legacy |}.

Definition not_decoded {A : Type} : result A := err (Errorf "not this shape" []).

Definition nested_payload (name type : string) (config : gmap string JValue)
    (symbol quoteAmount balanceThreshold : string)
    (telegram : option TelegramConfig) : DCAPayload :=
  {| DCAPayload.Version := "v2";
     DCAPayload.Exchange :=
       {| ExchangeConfig.Name := name;
          ExchangeConfig.Credentials :=
            {| CredentialSource.Type_ := type;
               CredentialSource.Config := config |};
          ExchangeConfig.Region := "" |};
     DCAPayload.Strategy :=
       {| DCAStrategy.Symbol := symbol;
          DCAStrategy.QuoteAmount := quoteAmount;
          DCAStrategy.BalanceThreshold := balanceThreshold;
          DCAStrategy.OrderType := "" |};
     DCAPayload.Notifications := {| NotificationConfig.Telegram := telegram |};
     DCAPayload.Flags := {| RuntimeFlags.DryRun := true |} |}.

Definition legacy_payload (exchange symbol targetAsset orderCurrency
    quoteAmount : string) (okx : option PayloadV2.OKX.t)
    (binance : option PayloadV2.Binance.t)
    (telegram : option PayloadV2.Telegram.t) : PayloadV2 :=
  {| PayloadV2.Version := "v2";
     PayloadV2.Exchange := exchange;
     PayloadV2.DCA :=
       {| PayloadV2.DCA.Symbol := symbol;
          PayloadV2.DCA.TargetAsset := targetAsset;
          PayloadV2.DCA.OrderCurrency := orderCurrency;
          PayloadV2.DCA.QuoteAmount := quoteAmount;
          PayloadV2.DCA.BalanceThreshold := "" |};
     PayloadV2.Credentials :=
       {| PayloadV2.Credentials.OKX := okx;
          PayloadV2.Credentials.Binance := binance |};
     PayloadV2.Notifications := {| PayloadV2.Notifications.Telegram := telegram |};
     PayloadV2.Flags := {| PayloadV2.Flags.DryRun := false |} |}.

Definition binance_ssm_bag : gmap string JValue :=
  {[ "apiKeyPath" := JString "/a"; "apiSecretPath" := JString "/b" ]}.

Definition okx_inline_bag : gmap string JValue :=
  {[ "apiKey" := JString "k"; "apiSecret" := JString "s";
     "passphrase" := JString "p" ]}.

Definition telegram_bag : gmap string JValue :=
  {[ "botTokenPath" := JString "/t"; "chatId" := JString "42" ]}.

Definition legacy_okx_paths : PayloadV2.OKX.t :=
  {| PayloadV2.OKX.APIKeyPath := "/k"; PayloadV2.OKX.APISecretPath := "/s";
     PayloadV2.OKX.PassphrasePath := "/p";
     PayloadV2.OKX.Inline :=
       Some {| PayloadV2.OKXInline.APIKey := "k";
               PayloadV2.OKXInline.APISecret := "s";
               PayloadV2.OKXInline.Passphrase := "p" |};
     PayloadV2.OKX.Env :=
       Some {| PayloadV2.OKXEnv.APIKeyEnv := "K";
               PayloadV2.OKXEnv.APISecretEnv := "S";
               PayloadV2.OKXEnv.PassphraseEnv := "P" |} |}.

Definition legacy_telegram : PayloadV2.Telegram.t :=
  {| PayloadV2.Telegram.BotTokenPath := "/t";
     PayloadV2.Telegram.ChatID := "42";
     PayloadV2.Telegram.Sink := " StdOut ";
     PayloadV2.Telegram.Inline :=
       Some {| PayloadV2.TelegramInline.BotToken := "token" |};
     PayloadV2.Telegram.Env := None |}.

(** ** Further predicates and inputs *)

(** No byte of [s] is [c]. *)
Definition without_byte (c : ascii) (s : string) : Prop :=
  strings.any_byte (Ascii.eqb c) s = false.

(** The bytes of a number as [decimal.NewFromString] reads it: a digit, a
    sign, the decimal point, or the mark of the exponent. *)
Definition numeric_byte (c : ascii) : bool :=
  strconv.isDigit c || Ascii.eqb c "+" || Ascii.eqb c "-"
  || decimal.isDot c || decimal.isE c.

Definition numeric (s : string) : Prop :=
  strings.all_bytes numeric_byte s = true.

(** A variable [os.Setenv] accepts: the key is not empty and has no ['='],
    and neither the key nor the value has a NUL byte. *)
Definition settable (variable : string * string) : Prop :=
  variable.1 <> "" /\ without_byte "=" variable.1 /\
  without_byte Ascii.zero variable.1 /\ without_byte Ascii.zero variable.2.

(** The entry of a variable in the environment. *)
Definition entry (variable : string * string) : string :=
  variable.1 ++ "=" ++ variable.2.

(** The payload with another dry-run flag. *)
Definition with_dry_run (dryRun : bool) (p : DCAPayload) : DCAPayload :=
  {| DCAPayload.Version := p.(DCAPayload.Version);
     DCAPayload.Exchange := p.(DCAPayload.Exchange);
     DCAPayload.Strategy := p.(DCAPayload.Strategy);
     DCAPayload.Notifications := p.(DCAPayload.Notifications);
     DCAPayload.Flags := {| RuntimeFlags.DryRun := dryRun |} |}.

(** An instance of [DecimalFloat] for evaluating examples: the two
    constants of the mock as decimals, and a quotient that is not
    computed. *)
Definition sample_floats : DecimalFloat :=
  {| NewFromFloat := fun bits =>
       if (bits =? float_10000)%N then
         {| decimal.value := 1; decimal.exp := 4 |}
       else if (bits =? float_50000)%N then
         {| decimal.value := 5; decimal.exp := 4 |}
       else decimal.Zero;
     Div := fun d _ => d |}.

(** An exchange with a counter for an account: every call is counted, the
    balance is [balance], an order is refused for the symbol [refused]. *)
Definition counting_exchange (balance : decimal.Decimal) (refused : string)
  : exchange.Exchange nat :=
  {| exchange.GetBalance := fun asset calls => (ok balance, Datatypes.S calls);
     exchange.PlaceMarketBuyOrder := fun symbol quoteAmount calls =>
       (if symbol =? refused then err (Errorf "refused" [])
        else ok {| exchange.Order.ID := "1";
                   exchange.Order.Symbol := symbol;
                   exchange.Order.Side := "buy";
                   exchange.Order.Type_ := "market";
                   exchange.Order.Quantity := quoteAmount;
                   exchange.Order.Price := quoteAmount;
                   exchange.Order.Status := "filled" |},
        Datatypes.S calls) |}.

Definition empty_world {S : Type} (account : S) : main.world S :=
  {| main.account := account; main.journal := [] |}.

(** The payload with another version. *)
Definition with_version (version : string) (p : DCAPayload) : DCAPayload :=
  {| DCAPayload.Version := version;
     DCAPayload.Exchange := p.(DCAPayload.Exchange);
     DCAPayload.Strategy := p.(DCAPayload.Strategy);
     DCAPayload.Notifications := p.(DCAPayload.Notifications);
     DCAPayload.Flags := p.(DCAPayload.Flags) |}.

(** The legacy payload with another threshold. *)
Definition with_threshold (threshold : string) (v2 : PayloadV2) : PayloadV2 :=
  {| PayloadV2.Version := v2.(PayloadV2.Version);
     PayloadV2.Exchange := v2.(PayloadV2.Exchange);
     PayloadV2.DCA :=
       {| PayloadV2.DCA.Symbol := v2.(PayloadV2.DCA).(PayloadV2.DCA.Symbol);
          PayloadV2.DCA.TargetAsset :=
            v2.(PayloadV2.DCA).(PayloadV2.DCA.TargetAsset);
          PayloadV2.DCA.OrderCurrency :=
            v2.(PayloadV2.DCA).(PayloadV2.DCA.OrderCurrency);
          PayloadV2.DCA.QuoteAmount :=
            v2.(PayloadV2.DCA).(PayloadV2.DCA.QuoteAmount);
          PayloadV2.DCA.BalanceThreshold := threshold |};
     PayloadV2.Credentials := v2.(PayloadV2.Credentials);
     PayloadV2.Notifications := v2.(PayloadV2.Notifications);
     PayloadV2.Flags := v2.(PayloadV2.Flags) |}.

Definition okx_ssm_bag : gmap string JValue :=
  {[ "apiKeyPath" := JString "/k"; "apiSecretPath" := JString "/s";
     "passphrasePath" := JString "/p" ]}.

(** An environment with one variable. *)
Definition one_variable : os.table :=
  {| os.envs := ["LANG=C"]; os.env := {[ "LANG" := 0%nat ]} |}.

(** The payload without the two bags, of the credentials and of the
    telegram block. *)
Definition without_bags (p : DCAPayload) : DCAPayload :=
  let config := p.(DCAPayload.Exchange) in
  {| DCAPayload.Version := p.(DCAPayload.Version);
     DCAPayload.Exchange :=
       {| ExchangeConfig.Name := config.(ExchangeConfig.Name);
          ExchangeConfig.Credentials :=
            {| CredentialSource.Type_ :=
                 config.(ExchangeConfig.Credentials).(CredentialSource.Type_);
               CredentialSource.Config := ∅ |};
          ExchangeConfig.Region := config.(ExchangeConfig.Region) |};
     DCAPayload.Strategy := p.(DCAPayload.Strategy);
     DCAPayload.Notifications :=
       {| NotificationConfig.Telegram :=
            (fun telegram =>
               {| TelegramConfig.Type_ := telegram.(TelegramConfig.Type_);
                  TelegramConfig.Config := ∅ |})
              <$> p.(DCAPayload.Notifications).(NotificationConfig.Telegram) |};
     DCAPayload.Flags := p.(DCAPayload.Flags) |}.

(** A decoder of two events: the empty one gives [first], any other one
    [second]. *)
Definition decoding_two (first second : DCAPayload) : JSON :=
  {| Unmarshal_DCAPayload := fun raw =>
       match raw with [] => ok first | _ => ok second end;
     Unmarshal_PayloadV2 := fun _ => not_decoded |}.

(** ** Properties *)

(** *** The decimal parser on sample inputs *)

Example NewFromString_samples :
  decimal.NewFromString "10.00" = ok {| decimal.value := 1000; decimal.exp := -2 |} /\
  decimal.NewFromString "-5" = ok {| decimal.value := -5; decimal.exp := 0 |} /\
  decimal.NewFromString "0" = ok {| decimal.value := 0; decimal.exp := 0 |} /\
  decimal.NewFromString "1e3" = ok {| decimal.value := 1; decimal.exp := 3 |} /\
  decimal.NewFromString "12345678901234567890.5" =
    ok {| decimal.value := 123456789012345678905; decimal.exp := -1 |} /\
  succeeds (decimal.NewFromString "invalid") = false /\
  succeeds (decimal.NewFromString "") = false /\
  succeeds (decimal.NewFromString " 10") = false /\
  succeeds (decimal.NewFromString "1.2.3") = false.
Proof. vm_compute. repeat split. Qed.

(** *** The string functions on sample inputs *)

Example strings_samples :
  @strings.ToLower ascii_text "Binance" = "binance" /\
  @strings.ToUpper ascii_text "btc-usdt" = "BTC-USDT" /\
  @strings.TrimSpace ascii_text " StdOut " = "StdOut" /\
  @strings.TrimSpace ascii_text "  a b  " = "a b" /\
  @strings.TrimSpace ascii_text "   " = "".
Proof. vm_compute. repeat split. Qed.

(** *** Bags and type assertions *)

Lemma assert_string_Some (m : gmap string JValue) (k s : string) :
  assert_string (index m k) = Some s <-> m !! k = Some (JString s).
Proof.
  unfold index. destruct (m !! k) as [v|]; simpl.
  - destruct v; simpl; split; intros E; inversion E; reflexivity.
  - split; discriminate.
Qed.

Lemma assert_string_unusable (m : gmap string JValue) (k : string) :
  unusable m k <-> assert_string (index m k) = None.
Proof.
  split.
  - intros U. destruct (assert_string (index m k)) as [s|] eqn:E; [|reflexivity].
    apply assert_string_Some in E. destruct (U s E).
  - intros E s L. apply assert_string_Some in L. congruence.
Qed.

Lemma unusable_missing (m : gmap string JValue) (k : string) :
  m !! k = None -> unusable m k.
Proof. intros E s. rewrite E. discriminate. Qed.

Lemma unusable_wrong_type (m : gmap string JValue) (k : string) (v : JValue) :
  m !! k = Some v -> assert_string v = None -> unusable m k.
Proof.
  intros E A s L. rewrite E in L. inversion L; subst. discriminate.
Qed.

Lemma copy_string_unusable {R : Type} (m : gmap string JValue) (k : string)
    (set : string -> R -> R) (r : R) :
  unusable m k -> copy_string m k set r = r.
Proof.
  intros U. unfold copy_string.
  apply assert_string_unusable in U. rewrite U. reflexivity.
Qed.

Lemma copy_string_found {R : Type} (m : gmap string JValue) (k s : string)
    (set : string -> R -> R) (r : R) :
  m !! k = Some (JString s) -> copy_string m k set r = set s r.
Proof.
  intros L. unfold copy_string.
  apply assert_string_Some in L. rewrite L. reflexivity.
Qed.

(** *** Comparisons of strings *)

Ltac strings_eq :=
  repeat match goal with
    | E : (_ =? _) = true |- _ => apply String.eqb_eq in E
    | E : (_ =? _) = false |- _ => apply String.eqb_neq in E
    | E : negb _ = true |- _ => apply negb_true_iff in E
    | E : negb _ = false |- _ => apply negb_false_iff in E
    end.

(** Case analysis on every [match] and [if] of the goal. *)
Ltac branches :=
  repeat match goal with
    | |- context [match ?x with _ => _ end] => destruct x eqn:?
    end.

(** *** ASCII text *)

Lemma asciiSpace_byte (c : ascii) :
  strings.asciiSpace c = true ->
  (N_of_ascii c <? strings.RuneSelf)%N = true /\
  strings.isUpperByte c = false /\ strings.isLowerByte c = false.
Proof.
  destruct c as [[] [] [] [] [] [] [] []]; vm_compute; intros E;
    first [discriminate E | repeat split].
Qed.

Lemma ascii_blank_plain (s : string) :
  ascii_blank s ->
  strings.isASCII s = true /\
  strings.any_byte strings.isUpperByte s = false /\
  strings.any_byte strings.isLowerByte s = false.
Proof.
  unfold ascii_blank, strings.isASCII.
  induction s as [|c s IH]; simpl; [auto|].
  intros E. apply andb_true_iff in E as [Ec Es].
  destruct (asciiSpace_byte c Ec) as (-> & -> & ->).
  destruct (IH Es) as (-> & -> & ->). auto.
Qed.

Lemma trim_start_blank (s : string) :
  ascii_blank s -> strings.trim_start s = (false, "").
Proof.
  unfold ascii_blank. induction s as [|c s IH]; simpl; [reflexivity|].
  intros E. apply andb_true_iff in E as [Ec Es].
  destruct (asciiSpace_byte c Ec) as (L & _ & _).
  apply N.ltb_lt in L. apply N.leb_gt in L. rewrite L, Ec. auto.
Qed.

Section Text.

Context `{Unicode}.

Lemma ToLower_blank (s : string) : ascii_blank s -> strings.ToLower s = s.
Proof.
  intros B. destruct (ascii_blank_plain s B) as (A & U & _).
  unfold strings.ToLower. rewrite A, U. reflexivity.
Qed.

Lemma ToUpper_blank (s : string) : ascii_blank s -> strings.ToUpper s = s.
Proof.
  intros B. destruct (ascii_blank_plain s B) as (A & _ & L).
  unfold strings.ToUpper. rewrite A, L. reflexivity.
Qed.

Lemma TrimSpace_blank (s : string) : ascii_blank s -> strings.TrimSpace s = "".
Proof.
  intros B. unfold strings.TrimSpace. rewrite (trim_start_blank s B).
  reflexivity.
Qed.

End Text.

(** On ASCII text the functions of [strings] do not consult the Unicode
    tables. *)
Lemma ToLower_ascii (U1 U2 : Unicode) (s : string) :
  strings.isASCII s = true -> @strings.ToLower U1 s = @strings.ToLower U2 s.
Proof. intros A. unfold strings.ToLower. rewrite A. reflexivity. Qed.

Lemma ToUpper_ascii (U1 U2 : Unicode) (s : string) :
  strings.isASCII s = true -> @strings.ToUpper U1 s = @strings.ToUpper U2 s.
Proof. intros A. unfold strings.ToUpper. rewrite A. reflexivity. Qed.

Lemma trim_start_ascii (s : string) :
  strings.isASCII s = true ->
  fst (strings.trim_start s) = false /\
  strings.isASCII (snd (strings.trim_start s)) = true.
Proof.
  unfold strings.isASCII. induction s as [|c s IH]; simpl; [auto|].
  intros E. apply andb_true_iff in E as [Ec Es].
  pose proof Ec as L. apply N.ltb_lt in L. apply N.leb_gt in L. rewrite L.
  destruct (strings.asciiSpace c); [auto|]. simpl. rewrite Ec, Es. auto.
Qed.

Lemma all_bytes_list (p : ascii -> bool) (s : string) :
  strings.all_bytes p s = forallb p (list_ascii_of_string s).
Proof. induction s as [|c s IH]; simpl; congruence. Qed.

Lemma isASCII_reverse (s : string) :
  strings.isASCII s = true -> strings.isASCII (strings.reverse s) = true.
Proof.
  unfold strings.isASCII, strings.reverse. rewrite !all_bytes_list.
  rewrite list_ascii_of_string_of_list_ascii.
  rewrite !forallb_forall. intros A c I. apply A. apply in_rev. exact I.
Qed.

Lemma TrimSpace_ascii (U1 U2 : Unicode) (s : string) :
  strings.isASCII s = true -> @strings.TrimSpace U1 s = @strings.TrimSpace U2 s.
Proof.
  intros A. unfold strings.TrimSpace, strings.trim_stop.
  destruct (trim_start_ascii s A) as [F A1].
  destruct (strings.trim_start s) as [b s1]. simpl in F, A1. subst b.
  destruct (trim_start_ascii _ (isASCII_reverse s1 A1)) as [F2 _].
  destruct (strings.trim_start (strings.reverse s1)) as [b2 s2].
  simpl in F2. subst b2. reflexivity.
Qed.

Section Unifier.

Context `{Unicode}.

(** [populateUnifiedCredentials] is total: its error result is nil on
    every input. *)
Lemma populateUnifiedCredentials_succeeds (p : DCAPayload) (unified : Unified) :
  exists u, populateUnifiedCredentials p unified = ok u.
Proof.
  unfold populateUnifiedCredentials. branches; eexists; reflexivity.
Qed.

(** [ToUnified] succeeds exactly when the two amounts parse. *)
Lemma ToUnified_succeeds_iff (p : DCAPayload) :
  succeeds (ToUnified p) = true <-> amounts_parse p.(DCAPayload.Strategy).
Proof.
  unfold ToUnified, amounts_parse.
  destruct (decimal.NewFromString _) as [qa|e] eqn:Q; simpl.
  2:{ split; [discriminate | intros [? _]; discriminate]. }
  destruct (DCAStrategy.BalanceThreshold _ =? "") eqn:B; simpl; strings_eq.
  - destruct (populateUnifiedCredentials_succeeds p
      {| Unified.Exchange :=
           strings.ToLower p.(DCAPayload.Exchange).(ExchangeConfig.Name);
         Unified.Symbol :=
           strings.ToUpper p.(DCAPayload.Strategy).(DCAStrategy.Symbol);
         Unified.QuoteAmount := qa; Unified.BalanceThreshold := decimal.Zero;
         Unified.DryRun := p.(DCAPayload.Flags).(RuntimeFlags.DryRun);
         Unified.OKX := None; Unified.OKXInline := None;
         Unified.Binance := None; Unified.Telegram := None |}) as [u ->].
    split; [auto | intros _; branches; reflexivity].
  - destruct (decimal.NewFromString (DCAStrategy.BalanceThreshold _))
      as [bt|e] eqn:T; simpl.
    + destruct (populateUnifiedCredentials_succeeds p
        {| Unified.Exchange :=
             strings.ToLower p.(DCAPayload.Exchange).(ExchangeConfig.Name);
           Unified.Symbol :=
             strings.ToUpper p.(DCAPayload.Strategy).(DCAStrategy.Symbol);
           Unified.QuoteAmount := qa; Unified.BalanceThreshold := bt;
           Unified.DryRun := p.(DCAPayload.Flags).(RuntimeFlags.DryRun);
           Unified.OKX := None; Unified.OKXInline := None;
           Unified.Binance := None; Unified.Telegram := None |}) as [u ->].
      split; [auto | intros _; branches; reflexivity].
    + split; [discriminate | intros [_ [E | E]]; congruence].
Qed.

End Unifier.

Section UnifierClaims.

Context `{Unicode}.

Ltac unusable_fields :=
  repeat match goal with
    | U : unusable ?m ?k |- context [copy_string ?m ?k ?set ?r] =>
        rewrite (copy_string_unusable m k set r U)
    end;
  unfold copy_string; branches; reflexivity.

(** C4.  [ToUnified] can fail only at its two decimal-parse steps, each
    with its own [invalid ...] error; [populateUnifiedCredentials] never
    fails; and once the two amounts parse the call succeeds whatever the
    two configuration bags hold, a key that is missing or not a string
    leaving its output field empty. *)
Theorem ToUnified_fails_only_on_amounts (p : DCAPayload) :
  let strategy := p.(DCAPayload.Strategy) in
  let config :=
    p.(DCAPayload.Exchange).(ExchangeConfig.Credentials)
     .(CredentialSource.Config) in
  (forall unified, succeeds (populateUnifiedCredentials p unified) = true) /\
  (forall e, ToUnified p = err e ->
     (exists e', decimal.NewFromString strategy.(DCAStrategy.QuoteAmount) = err e' /\
                 e = Errorf "invalid quoteAmount: %w" [Err e']) \/
     (strategy.(DCAStrategy.BalanceThreshold) <> "" /\
      exists e', decimal.NewFromString strategy.(DCAStrategy.BalanceThreshold)
                 = err e' /\
                 e = Errorf "invalid balanceThreshold: %w" [Err e'])) /\
  (amounts_parse strategy ->
   exists u, ToUnified p = ok u /\
     (forall b, u.(Unified.Binance) = Some b ->
        (unusable config "apiKeyPath" -> b.(Unified.Binance.APIKeyPath) = "") /\
        (unusable config "apiSecretPath" ->
         b.(Unified.Binance.APISecretPath) = "")) /\
     (forall o, u.(Unified.OKX) = Some o ->
        (unusable config "apiKeyPath" -> o.(Unified.OKX.APIKeyPath) = "") /\
        (unusable config "apiSecretPath" -> o.(Unified.OKX.APISecretPath) = "") /\
        (unusable config "passphrasePath" ->
         o.(Unified.OKX.PassphrasePath) = "")) /\
     (forall i, u.(Unified.OKXInline) = Some i ->
        (unusable config "apiKey" -> i.(Unified.OKXInline.APIKey) = "") /\
        (unusable config "apiSecret" -> i.(Unified.OKXInline.APISecret) = "") /\
        (unusable config "passphrase" -> i.(Unified.OKXInline.Passphrase) = "")) /\
     (forall telegram t,
        p.(DCAPayload.Notifications).(NotificationConfig.Telegram)
          = Some telegram ->
        u.(Unified.Telegram) = Some t ->
        (unusable telegram.(TelegramConfig.Config) "chatId" ->
         t.(Unified.Telegram.ChatID) = "") /\
        (unusable telegram.(TelegramConfig.Config) "botTokenPath" ->
         t.(Unified.Telegram.BotTokenPath) = ""))).
Proof.
  intros strategy config. split; [|split].
  - intros unified.
    destruct (populateUnifiedCredentials_succeeds p unified) as [u ->].
    reflexivity.
  - intros e. unfold ToUnified. fold strategy.
    destruct (decimal.NewFromString strategy.(DCAStrategy.QuoteAmount))
      as [qa|e1] eqn:Q.
    2:{ intros [= <-]. left. eauto. }
    destruct (strategy.(DCAStrategy.BalanceThreshold) =? "") eqn:B; simpl.
    + match goal with
      | |- context [populateUnifiedCredentials p ?u0] =>
          destruct (populateUnifiedCredentials_succeeds p u0) as [u ->]
      end.
      branches; discriminate.
    + strings_eq.
      destruct (decimal.NewFromString strategy.(DCAStrategy.BalanceThreshold))
        as [bt|e2] eqn:T.
      * match goal with
        | |- context [populateUnifiedCredentials p ?u0] =>
            destruct (populateUnifiedCredentials_succeeds p u0) as [u ->]
        end.
        branches; discriminate.
      * intros [= <-]. right. eauto.
  - intros A. apply ToUnified_succeeds_iff in A.
    destruct (ToUnified p) as [u|] eqn:E; [clear A | discriminate].
    exists u. split; [reflexivity|].
    unfold ToUnified in E. fold strategy in E.
    destruct (decimal.NewFromString strategy.(DCAStrategy.QuoteAmount))
      as [qa|] ; [|discriminate].
    destruct (if negb (strategy.(DCAStrategy.BalanceThreshold) =? "")
              then _ else _) as [bt|]; [|discriminate].
    unfold populateUnifiedCredentials in E. fold config in E.
    repeat split; intros;
      repeat match type of E with
        | context [if ?c then _ else _] => destruct c
        | context [match ?c with _ => _ end] => destruct c
        end;
      simplify_eq; simpl in *; simplify_eq; simpl;
      try (unfold unifiedTelegram; simpl);
      unusable_fields.
Qed.

End UnifierClaims.

Section Parser.

Context `{Unicode} `{JSON}.

Lemma strategy_with_default (p : DCAPayload) :
  let s := p.(DCAPayload.Strategy) in
  let s' := (with_default_order_type p).(DCAPayload.Strategy) in
  s'.(DCAStrategy.Symbol) = s.(DCAStrategy.Symbol) /\
  s'.(DCAStrategy.QuoteAmount) = s.(DCAStrategy.QuoteAmount) /\
  s'.(DCAStrategy.BalanceThreshold) = s.(DCAStrategy.BalanceThreshold) /\
  (with_default_order_type p).(DCAPayload.Exchange) = p.(DCAPayload.Exchange) /\
  (with_default_order_type p).(DCAPayload.Notifications)
    = p.(DCAPayload.Notifications) /\
  (with_default_order_type p).(DCAPayload.Flags) = p.(DCAPayload.Flags).
Proof.
  unfold with_default_order_type.
  destruct (DCAStrategy.OrderType _ =? ""); simpl; repeat split.
Qed.

Lemma amounts_parse_with_default (p : DCAPayload) :
  amounts_parse p.(DCAPayload.Strategy) ->
  amounts_parse (with_default_order_type p).(DCAPayload.Strategy).
Proof.
  destruct (strategy_with_default p) as (_ & Q & B & _).
  unfold amounts_parse. rewrite Q, B. auto.
Qed.

(** [ParseDCAPayload] accepts exactly the decoded payloads that pass its
    checks, and returns them with the order type defaulted. *)
Lemma ParseDCAPayload_ok_iff (raw : list Byte.byte) (p' : DCAPayload) :
  ParseDCAPayload raw = ok p' <->
  exists p, Unmarshal_DCAPayload raw = ok p /\ valid_payload p /\
            p' = with_default_order_type p.
Proof.
  unfold ParseDCAPayload, valid_payload, amounts_parse, with_default_order_type.
  destruct (Unmarshal_DCAPayload raw) as [p|e].
  2:{ split; [discriminate | intros (? & ? & _); discriminate]. }
  destruct (strings.ToLower _ =? "v2") eqn:V; simpl; strings_eq;
    [| split; [discriminate | intros (? & [= <-] & (? & _) & _); congruence]].
  destruct (ExchangeConfig.Name _ =? "") eqn:N; strings_eq;
    [split; [discriminate | intros (? & [= <-] & (_ & ? & _) & _); congruence] |].
  destruct (DCAStrategy.Symbol _ =? "") eqn:S; strings_eq;
    [split; [discriminate
            | intros (? & [= <-] & (_ & _ & ? & _) & _); congruence] |].
  destruct (DCAStrategy.QuoteAmount _ =? "") eqn:Q; strings_eq;
    [split; [discriminate
            | intros (? & [= <-] & (_ & _ & _ & ? & _) & _); congruence] |].
  destruct (decimal.NewFromString (DCAStrategy.QuoteAmount _)) as [qa|e] eqn:A.
  2:{ split; [discriminate|].
      intros (? & [= <-] & (_ & _ & _ & _ & E & _) & _).
      rewrite A in E. discriminate. }
  destruct (DCAStrategy.BalanceThreshold _ =? "") eqn:B; simpl; strings_eq.
  - split.
    + intros E. exists p. rewrite A.
      split; [reflexivity|]. split; [repeat split; auto|].
      destruct (DCAStrategy.OrderType _ =? ""); congruence.
    + intros (? & [= <-] & _ & ->).
      destruct (DCAStrategy.OrderType _ =? ""); reflexivity.
  - destruct (decimal.NewFromString (DCAStrategy.BalanceThreshold _))
      as [bt|e] eqn:T.
    + split.
      * intros E. exists p. rewrite A, T.
        split; [reflexivity|]. split; [repeat split; auto|].
        destruct (DCAStrategy.OrderType _ =? ""); congruence.
      * intros (? & [= <-] & _ & ->).
        destruct (DCAStrategy.OrderType _ =? ""); reflexivity.
    + split; [discriminate|].
      intros (? & [= <-] & (_ & _ & _ & _ & _ & [E|E]) & _);
        [congruence | rewrite T in E; discriminate].
Qed.

Lemma ParseDCAPayload_valid (raw : list Byte.byte) (p : DCAPayload) :
  Unmarshal_DCAPayload raw = ok p -> valid_payload p ->
  ParseDCAPayload raw = ok (with_default_order_type p).
Proof. intros D V. apply ParseDCAPayload_ok_iff. eauto. Qed.

End Parser.

Section UnifierRecords.

Context `{Unicode}.

(** Case analysis of a successful [ToUnified p = ok u]: one case per path
    through [ToUnified] and [populateUnifiedCredentials], [u] replaced by
    the plan built on that path. *)
Ltac paths E :=
  unfold ToUnified, populateUnifiedCredentials in E;
  repeat match type of E with
    | context [if ?c then _ else _] => destruct c eqn:?
    | context [match ?c with _ => _ end] => destruct c eqn:?
    end;
  simplify_eq; simpl in *; strings_eq.

(** The credential slots of a plan built by [ToUnified]. *)
Lemma ToUnified_slots (p : DCAPayload) (u : Unified) :
  ToUnified p = ok u ->
  let name := strings.ToLower p.(DCAPayload.Exchange).(ExchangeConfig.Name) in
  let type :=
    p.(DCAPayload.Exchange).(ExchangeConfig.Credentials)
     .(CredentialSource.Type_) in
  u.(Unified.Exchange) = name /\
  (name = "binance" ->
   is_Some u.(Unified.Binance) /\ u.(Unified.OKX) = None /\
   u.(Unified.OKXInline) = None) /\
  (name = "okx" ->
   is_Some u.(Unified.OKX) /\ u.(Unified.Binance) = None /\
   (is_Some u.(Unified.OKXInline) <-> type = "inline")) /\
  (name <> "binance" -> name <> "okx" ->
   u.(Unified.Binance) = None /\ u.(Unified.OKX) = None /\
   u.(Unified.OKXInline) = None).
Proof.
  intros E name type. subst name type.
  paths E; repeat split; intros; simplify_eq; eauto;
    try congruence;
    try match goal with
      | I : is_Some None |- _ => destruct (is_Some_None I)
      end.
Qed.

(** The symbol of a plan built by [ToUnified]. *)
Lemma ToUnified_symbol (p : DCAPayload) (u : Unified) :
  ToUnified p = ok u ->
  u.(Unified.Symbol) =
    strings.ToUpper p.(DCAPayload.Strategy).(DCAStrategy.Symbol).
Proof. intros E. paths E; reflexivity. Qed.

(** The telegram record of a plan built by [ToUnified]. *)
Lemma ToUnified_telegram (p : DCAPayload) (u : Unified) :
  ToUnified p = ok u ->
  u.(Unified.Telegram) =
    unifiedTelegram <$> p.(DCAPayload.Notifications).(NotificationConfig.Telegram).
Proof. intros E. paths E; reflexivity. Qed.

(** A binance instruction with SSM credentials, once decoded. *)
Lemma ToUnified_binance_ssm (p : DCAPayload) (u : Unified) (a b : string) :
  let credentials := p.(DCAPayload.Exchange).(ExchangeConfig.Credentials) in
  strings.ToLower p.(DCAPayload.Exchange).(ExchangeConfig.Name) = "binance" ->
  credentials.(CredentialSource.Type_) = "ssm" ->
  credentials.(CredentialSource.Config) !! "apiKeyPath" = Some (JString a) ->
  credentials.(CredentialSource.Config) !! "apiSecretPath" = Some (JString b) ->
  ToUnified p = ok u ->
  u.(Unified.Binance) =
    Some {| Unified.Binance.APIKeyPath := a; Unified.Binance.APISecretPath := b |} /\
  u.(Unified.OKX) = None /\ u.(Unified.OKXInline) = None.
Proof.
  intros credentials N T A B E. subst credentials.
  paths E; try congruence;
    rewrite (copy_string_found _ _ a _ _ A), (copy_string_found _ _ b _ _ B);
    auto.
Qed.

(** C6.  For an instruction whose exchange name lower-cases to ["okx"],
    whose credential kind is ["inline"] and whose bag holds the strings
    [apiKey], [apiSecret] and [passphrase], [ToUnified] (which succeeds as
    soon as the two amounts parse) builds a plan with an allocated OKX
    record whose three paths are empty and an inline record carrying the
    three values; the binance slot stays nil. *)
Theorem ToUnified_okx_inline (p : DCAPayload) (key secret pass : string) :
  let credentials := p.(DCAPayload.Exchange).(ExchangeConfig.Credentials) in
  strings.ToLower p.(DCAPayload.Exchange).(ExchangeConfig.Name) = "okx" ->
  credentials.(CredentialSource.Type_) = "inline" ->
  credentials.(CredentialSource.Config) !! "apiKey" = Some (JString key) ->
  credentials.(CredentialSource.Config) !! "apiSecret" = Some (JString secret) ->
  credentials.(CredentialSource.Config) !! "passphrase" = Some (JString pass) ->
  amounts_parse p.(DCAPayload.Strategy) ->
  exists u,
    ToUnified p = ok u /\
    u.(Unified.OKX) =
      Some {| Unified.OKX.APIKeyPath := ""; Unified.OKX.APISecretPath := "";
              Unified.OKX.PassphrasePath := "" |} /\
    u.(Unified.OKXInline) =
      Some {| Unified.OKXInline.APIKey := key;
              Unified.OKXInline.APISecret := secret;
              Unified.OKXInline.Passphrase := pass |} /\
    u.(Unified.Binance) = None.
Proof.
  intros credentials N T K S P A. subst credentials.
  apply ToUnified_succeeds_iff in A.
  destruct (ToUnified p) as [u|] eqn:E; [clear A | discriminate].
  exists u. split; [reflexivity|].
  paths E; try congruence;
    rewrite (copy_string_found _ _ key _ _ K),
      (copy_string_found _ _ secret _ _ S), (copy_string_found _ _ pass _ _ P);
    auto.
Qed.

End UnifierRecords.

Section Legacy.

Context `{Unicode} `{JSON}.

(** The two ways [legacySymbol] can answer. *)
Lemma legacySymbol_cases (dca : PayloadV2.DCA.t) :
  let symbol := strings.ToUpper (strings.TrimSpace dca.(PayloadV2.DCA.Symbol)) in
  (symbol <> "" /\ legacySymbol dca = ok symbol) \/
  (symbol = "" /\
   dca.(PayloadV2.DCA.TargetAsset) <> "" /\
   dca.(PayloadV2.DCA.OrderCurrency) <> "" /\
   legacySymbol dca =
     ok (strings.ToUpper dca.(PayloadV2.DCA.TargetAsset) ++ "-"
         ++ strings.ToUpper dca.(PayloadV2.DCA.OrderCurrency))) \/
  (symbol = "" /\
   (dca.(PayloadV2.DCA.TargetAsset) = "" \/
    dca.(PayloadV2.DCA.OrderCurrency) = "") /\
   legacySymbol dca =
     err (Errorf "dca.symbol or (dca.targetAsset+orderCurrency) required" [])).
Proof.
  intros symbol. unfold legacySymbol. fold symbol.
  destruct (symbol =? "") eqn:S; strings_eq; [|auto].
  destruct (PayloadV2.DCA.TargetAsset dca =? "") eqn:T; strings_eq; simpl;
    [auto 6|].
  destruct (PayloadV2.DCA.OrderCurrency dca =? "") eqn:O; strings_eq; simpl;
    auto 8.
Qed.

(** What a successful run of [ParseUnifiedV2] went through, and the plan
    it built. *)
Lemma ParseUnifiedV2_ok_inv (raw : list Byte.byte) (u : Unified) :
  ParseUnifiedV2 raw = ok u ->
  exists v2,
    Unmarshal_PayloadV2 raw = ok v2 /\
    strings.ToLower v2.(PayloadV2.Version) = "v2" /\
    u.(Unified.Exchange) =
      strings.ToLower (strings.TrimSpace v2.(PayloadV2.Exchange)) /\
    u.(Unified.Exchange) <> "" /\
    legacySymbol v2.(PayloadV2.DCA) = ok u.(Unified.Symbol) /\
    decimal.NewFromString v2.(PayloadV2.DCA).(PayloadV2.DCA.QuoteAmount)
      = ok u.(Unified.QuoteAmount) /\
    decimal.IsPositive u.(Unified.QuoteAmount) = true /\
    u.(Unified.OKX) =
      (fun okx =>
         {| Unified.OKX.APIKeyPath := okx.(PayloadV2.OKX.APIKeyPath);
            Unified.OKX.APISecretPath := okx.(PayloadV2.OKX.APISecretPath);
            Unified.OKX.PassphrasePath := okx.(PayloadV2.OKX.PassphrasePath) |})
        <$> v2.(PayloadV2.Credentials).(PayloadV2.Credentials.OKX) /\
    u.(Unified.OKXInline) =
      (fun inline =>
         {| Unified.OKXInline.APIKey := inline.(PayloadV2.OKXInline.APIKey);
            Unified.OKXInline.APISecret := inline.(PayloadV2.OKXInline.APISecret);
            Unified.OKXInline.Passphrase :=
              inline.(PayloadV2.OKXInline.Passphrase) |})
        <$> (v2.(PayloadV2.Credentials).(PayloadV2.Credentials.OKX)
               ≫= PayloadV2.OKX.Inline) /\
    u.(Unified.Binance) =
      (fun binance =>
         {| Unified.Binance.APIKeyPath := binance.(PayloadV2.Binance.APIKeyPath);
            Unified.Binance.APISecretPath :=
              binance.(PayloadV2.Binance.APISecretPath) |})
        <$> v2.(PayloadV2.Credentials).(PayloadV2.Credentials.Binance) /\
    u.(Unified.Telegram) =
      (fun telegram =>
         {| Unified.Telegram.BotTokenPath :=
              telegram.(PayloadV2.Telegram.BotTokenPath);
            Unified.Telegram.ChatID := telegram.(PayloadV2.Telegram.ChatID);
            Unified.Telegram.Sink :=
              strings.ToLower
                (strings.TrimSpace telegram.(PayloadV2.Telegram.Sink)) |})
        <$> v2.(PayloadV2.Notifications).(PayloadV2.Notifications.Telegram).
Proof.
  unfold ParseUnifiedV2. intros E.
  destruct (Unmarshal_PayloadV2 raw) as [v2|]; [|discriminate].
  exists v2. split; [reflexivity|].
  destruct (strings.ToLower (PayloadV2.Version v2) =? "v2") eqn:V;
    simpl in E; [|discriminate].
  destruct (strings.ToLower (strings.TrimSpace _) =? "") eqn:X;
    [discriminate|].
  destruct (legacySymbol _) as [symbol|]; [|discriminate].
  destruct (decimal.NewFromString _) as [qa|]; [|discriminate].
  destruct (decimal.IsPositive qa) eqn:P; simpl in E; [|discriminate].
  destruct (if negb _ then _ else _) as [bt|]; [|discriminate].
  strings_eq. injection E as <-.
  unfold legacyTelegram, legacyCredentials.
  split_and!; branches; simpl; auto;
    repeat match goal with
      | E : ?x = _ |- context [?x] => rewrite E
      end; reflexivity.
Qed.

(** The credential and telegram blocks leave the other fields alone. *)
Lemma legacy_blocks_keep (notifications : PayloadV2.Notifications.t)
    (credentials : PayloadV2.Credentials.t) (u : Unified) :
  let plan := legacyTelegram notifications (legacyCredentials credentials u) in
  plan.(Unified.Exchange) = u.(Unified.Exchange) /\
  plan.(Unified.Symbol) = u.(Unified.Symbol) /\
  plan.(Unified.QuoteAmount) = u.(Unified.QuoteAmount).
Proof.
  unfold legacyTelegram, legacyCredentials. branches; simpl; auto.
Qed.

(** When [ParseUnifiedV2] succeeds. *)
Lemma ParseUnifiedV2_succeeds (raw : list Byte.byte) (v2 : PayloadV2)
    (symbol : string) (qa : decimal.Decimal) :
  let dca := v2.(PayloadV2.DCA) in
  let threshold := strings.TrimSpace dca.(PayloadV2.DCA.BalanceThreshold) in
  Unmarshal_PayloadV2 raw = ok v2 ->
  strings.ToLower v2.(PayloadV2.Version) = "v2" ->
  strings.ToLower (strings.TrimSpace v2.(PayloadV2.Exchange)) <> "" ->
  legacySymbol dca = ok symbol ->
  decimal.NewFromString dca.(PayloadV2.DCA.QuoteAmount) = ok qa ->
  decimal.IsPositive qa = true ->
  threshold = "" \/ succeeds (decimal.NewFromString threshold) = true ->
  exists u, ParseUnifiedV2 raw = ok u /\ u.(Unified.Symbol) = symbol /\
            u.(Unified.QuoteAmount) = qa.
Proof.
  intros dca threshold D V X S Q P T. unfold ParseUnifiedV2.
  rewrite D, V. simpl. apply String.eqb_neq in X. rewrite X.
  fold dca. rewrite S, Q, P. simpl. fold threshold.
  assert (K : forall bt, exists u,
             ok (legacyTelegram v2.(PayloadV2.Notifications)
                   (legacyCredentials v2.(PayloadV2.Credentials)
                      {| Unified.Exchange :=
                           strings.ToLower
                             (strings.TrimSpace v2.(PayloadV2.Exchange));
                         Unified.Symbol := symbol;
                         Unified.QuoteAmount := qa;
                         Unified.BalanceThreshold := bt;
                         Unified.DryRun :=
                           v2.(PayloadV2.Flags).(PayloadV2.Flags.DryRun);
                         Unified.OKX := None; Unified.OKXInline := None;
                         Unified.Binance := None; Unified.Telegram := None |}))
             = ok u /\
             u.(Unified.Symbol) = symbol /\ u.(Unified.QuoteAmount) = qa).
  { intros bt. eexists. split; [reflexivity|].
    match goal with
    | |- context [legacyTelegram ?n (legacyCredentials ?c ?u)] =>
        destruct (legacy_blocks_keep n c u) as (_ & -> & ->)
    end. auto. }
  destruct (threshold =? "") eqn:B; simpl; [apply K|].
  strings_eq. destruct T as [T|T]; [congruence|].
  destruct (decimal.NewFromString threshold); [apply K | discriminate].
Qed.

End Legacy.

Section Claims.

Context `{Unicode} `{JSON}.

(** C1, as amended.  In a plan built by [ToUnified] the credential slots
    follow the lower-cased exchange name, which is the plan's exchange
    identifier: for ["binance"] the binance record alone, for ["okx"] the
    OKX record (and the OKX inline record exactly when the credential kind
    is ["inline"]), for any other name no record at all; every other slot
    is nil.  In a plan built by [ParseUnifiedV2] a slot is populated
    exactly when the payload carries the corresponding credentials block,
    whatever the exchange identifier; a slot without its block is nil. *)
Theorem credential_slots_follow_their_source :
  (forall (p : DCAPayload) (u : Unified),
     ToUnified p = ok u ->
     let name := strings.ToLower p.(DCAPayload.Exchange).(ExchangeConfig.Name) in
     let type :=
       p.(DCAPayload.Exchange).(ExchangeConfig.Credentials)
        .(CredentialSource.Type_) in
     u.(Unified.Exchange) = name /\
     (name = "binance" ->
      is_Some u.(Unified.Binance) /\ u.(Unified.OKX) = None /\
      u.(Unified.OKXInline) = None) /\
     (name = "okx" ->
      is_Some u.(Unified.OKX) /\ u.(Unified.Binance) = None /\
      (is_Some u.(Unified.OKXInline) <-> type = "inline")) /\
     (name <> "binance" -> name <> "okx" ->
      u.(Unified.Binance) = None /\ u.(Unified.OKX) = None /\
      u.(Unified.OKXInline) = None)) /\
  (forall (raw : list Byte.byte) (v2 : PayloadV2) (u : Unified),
     Unmarshal_PayloadV2 raw = ok v2 ->
     ParseUnifiedV2 raw = ok u ->
     let credentials := v2.(PayloadV2.Credentials) in
     (is_Some u.(Unified.OKX) <->
      is_Some credentials.(PayloadV2.Credentials.OKX)) /\
     (is_Some u.(Unified.Binance) <->
      is_Some credentials.(PayloadV2.Credentials.Binance)) /\
     (is_Some u.(Unified.OKXInline) <->
      exists okx, credentials.(PayloadV2.Credentials.OKX) = Some okx /\
                  is_Some okx.(PayloadV2.OKX.Inline))).
Proof.
  split.
  - intros p u E. exact (ToUnified_slots p u E).
  - intros raw v2 u D E credentials. subst credentials.
    destruct (ParseUnifiedV2_ok_inv raw u E)
      as (v2' & D' & _ & _ & _ & _ & _ & _ & O & I & B & _).
    rewrite D in D'. injection D' as <-.
    rewrite O, I, B. rewrite !fmap_is_Some. repeat split; auto.
    + destruct (PayloadV2.Credentials.OKX _) as [okx|]; simpl;
        [eauto | intros []; discriminate].
    + intros (okx & -> & S). exact S.
Qed.

(** C2.  The two paths treat the quote amount differently.  The legacy
    adapter fails whenever the quote amount does not parse or parses to a
    decimal that is not strictly positive, and, once the version, the
    exchange and the symbol are accepted, with the error that quotes the
    field as it was given.  The nested parser accepts a payload with any
    quote amount that parses, whatever its sign.  ["0"] and ["-5"] parse
    and are not strictly positive. *)
Theorem quote_amount_positive_only_in_legacy :
  (forall (raw : list Byte.byte) (v2 : PayloadV2),
     let dca := v2.(PayloadV2.DCA) in
     Unmarshal_PayloadV2 raw = ok v2 ->
     (forall d, decimal.NewFromString dca.(PayloadV2.DCA.QuoteAmount) = ok d ->
                decimal.IsPositive d = false) ->
     succeeds (ParseUnifiedV2 raw) = false /\
     (strings.ToLower v2.(PayloadV2.Version) = "v2" ->
      strings.ToLower (strings.TrimSpace v2.(PayloadV2.Exchange)) <> "" ->
      succeeds (legacySymbol dca) = true ->
      ParseUnifiedV2 raw =
        err (Errorf "dca.quoteAmount invalid: %q"
               [Str dca.(PayloadV2.DCA.QuoteAmount)]))) /\
  (forall (raw : list Byte.byte) (p : DCAPayload) (d : decimal.Decimal),
     let strategy := p.(DCAPayload.Strategy) in
     Unmarshal_DCAPayload raw = ok p ->
     strings.ToLower p.(DCAPayload.Version) = "v2" ->
     p.(DCAPayload.Exchange).(ExchangeConfig.Name) <> "" ->
     strategy.(DCAStrategy.Symbol) <> "" ->
     strategy.(DCAStrategy.QuoteAmount) <> "" ->
     decimal.NewFromString strategy.(DCAStrategy.QuoteAmount) = ok d ->
     strategy.(DCAStrategy.BalanceThreshold) = "" \/
     succeeds (decimal.NewFromString strategy.(DCAStrategy.BalanceThreshold))
       = true ->
     ParseDCAPayload raw = ok (with_default_order_type p)) /\
  (exists d, decimal.NewFromString "0" = ok d /\ decimal.IsPositive d = false) /\
  (exists d, decimal.NewFromString "-5" = ok d /\ decimal.IsPositive d = false).
Proof.
  split; [|split; [|split]].
  - intros raw v2 dca D N.
    assert (F : strings.ToLower v2.(PayloadV2.Version) = "v2" ->
                strings.ToLower (strings.TrimSpace v2.(PayloadV2.Exchange)) <> "" ->
                succeeds (legacySymbol dca) = true ->
                ParseUnifiedV2 raw =
                  err (Errorf "dca.quoteAmount invalid: %q"
                         [Str dca.(PayloadV2.DCA.QuoteAmount)])).
    { intros V X S. unfold ParseUnifiedV2. rewrite D, V. simpl.
      apply String.eqb_neq in X. rewrite X. fold dca.
      destruct (legacySymbol dca); [|discriminate].
      destruct (decimal.NewFromString _) as [d|] eqn:Q; [|reflexivity].
      rewrite (N d eq_refl). reflexivity. }
    split; [|exact F].
    destruct (ParseUnifiedV2 raw) as [u|] eqn:E; [|reflexivity].
    destruct (ParseUnifiedV2_ok_inv raw u E)
      as (v2' & D' & _ & _ & _ & _ & Q & P & _).
    rewrite D in D'. injection D' as <-.
    rewrite (N _ Q) in P. discriminate.
  - intros raw p d strategy D V N S Q A T.
    apply ParseDCAPayload_valid; [exact D|].
    unfold valid_payload, amounts_parse. fold strategy. rewrite A. auto 7.
  - eexists. split; vm_compute; reflexivity.
  - eexists. split; vm_compute; reflexivity.
Qed.

(** C3, as amended.  A payload accepted by [ParseDCAPayload] has a
    non-empty quote amount that parses as a decimal and a balance threshold
    that is empty or parses as a decimal; nothing is asked of their sign:
    every decoded payload that passes the checks of [valid_payload], which
    do not look at the sign, is accepted. *)
Theorem accepted_amounts_are_decimals :
  (forall (raw : list Byte.byte) (p' : DCAPayload),
     ParseDCAPayload raw = ok p' ->
     p'.(DCAPayload.Strategy).(DCAStrategy.QuoteAmount) <> "" /\
     amounts_parse p'.(DCAPayload.Strategy)) /\
  (forall (raw : list Byte.byte) (p : DCAPayload),
     Unmarshal_DCAPayload raw = ok p -> valid_payload p ->
     ParseDCAPayload raw = ok (with_default_order_type p)).
Proof.
  split.
  - intros raw p' E. apply ParseDCAPayload_ok_iff in E.
    destruct E as (p & _ & (_ & _ & _ & Q & A) & ->).
    destruct (strategy_with_default p) as (_ & Q' & _).
    rewrite Q'. split; [exact Q|]. apply amounts_parse_with_default, A.
  - intros raw p D V. apply ParseDCAPayload_valid; assumption.
Qed.

(** C5.  Round trip through the nested path: a valid payload for exchange
    ["binance"] with credential kind ["ssm"] whose bag holds the strings
    [a] under [apiKeyPath] and [b] under [apiSecretPath] is accepted by
    [ParseDCAPayload], and [ToUnified] on the result yields a plan whose
    binance record holds [a] and [b] and whose okx record is nil. *)
Theorem parse_then_unify_binance_ssm (raw : list Byte.byte) (p : DCAPayload)
    (a b : string) :
  let credentials := p.(DCAPayload.Exchange).(ExchangeConfig.Credentials) in
  Unmarshal_DCAPayload raw = ok p ->
  valid_payload p ->
  p.(DCAPayload.Exchange).(ExchangeConfig.Name) = "binance" ->
  credentials.(CredentialSource.Type_) = "ssm" ->
  credentials.(CredentialSource.Config) !! "apiKeyPath" = Some (JString a) ->
  credentials.(CredentialSource.Config) !! "apiSecretPath" = Some (JString b) ->
  exists p' u,
    ParseDCAPayload raw = ok p' /\ ToUnified p' = ok u /\
    u.(Unified.Binance) =
      Some {| Unified.Binance.APIKeyPath := a;
              Unified.Binance.APISecretPath := b |} /\
    u.(Unified.OKX) = None.
Proof.
  intros credentials D V N T A B. subst credentials.
  exists (with_default_order_type p).
  pose proof V as (_ & _ & _ & _ & M).
  apply amounts_parse_with_default, ToUnified_succeeds_iff in M.
  destruct (ToUnified (with_default_order_type p)) as [u|] eqn:E;
    [clear M | discriminate].
  exists u. split; [apply ParseDCAPayload_valid; assumption|].
  split; [reflexivity|].
  destruct (strategy_with_default p) as (_ & _ & _ & X & _).
  destruct (ToUnified_binance_ssm (with_default_order_type p) u a b)
    as (R & O & _); try rewrite X; auto.
  rewrite N. reflexivity.
Qed.

End Claims.

Section MoreClaims.

Context `{Unicode} `{JSON}.

(** C7, as amended.  [ParseUnifiedV2] takes the plan symbol from
    [dca.symbol] trimmed of white space and upper-cased when that is
    non-empty; otherwise both [dca.targetAsset] and [dca.orderCurrency]
    must be non-empty (as given, untrimmed) and the symbol is
    [upper(targetAsset) + "-" + upper(orderCurrency)]; when neither path
    yields a symbol the call fails, with the symbol error once the version
    and the exchange are accepted.  With a resolved symbol and the rest of
    the payload valid the call succeeds with that symbol. *)
Theorem legacy_symbol_resolution (raw : list Byte.byte) (v2 : PayloadV2) :
  let dca := v2.(PayloadV2.DCA) in
  let symbol := strings.ToUpper (strings.TrimSpace dca.(PayloadV2.DCA.Symbol)) in
  let pair :=
    strings.ToUpper dca.(PayloadV2.DCA.TargetAsset) ++ "-"
    ++ strings.ToUpper dca.(PayloadV2.DCA.OrderCurrency) in
  let threshold := strings.TrimSpace dca.(PayloadV2.DCA.BalanceThreshold) in
  Unmarshal_PayloadV2 raw = ok v2 ->
  (forall u, ParseUnifiedV2 raw = ok u ->
     (symbol <> "" /\ u.(Unified.Symbol) = symbol) \/
     (symbol = "" /\ dca.(PayloadV2.DCA.TargetAsset) <> "" /\
      dca.(PayloadV2.DCA.OrderCurrency) <> "" /\ u.(Unified.Symbol) = pair)) /\
  (symbol = "" ->
   dca.(PayloadV2.DCA.TargetAsset) = "" \/
   dca.(PayloadV2.DCA.OrderCurrency) = "" ->
   succeeds (ParseUnifiedV2 raw) = false /\
   (strings.ToLower v2.(PayloadV2.Version) = "v2" ->
    strings.ToLower (strings.TrimSpace v2.(PayloadV2.Exchange)) <> "" ->
    ParseUnifiedV2 raw =
      err (Errorf "dca.symbol or (dca.targetAsset+orderCurrency) required" []))) /\
  (forall qa,
     strings.ToLower v2.(PayloadV2.Version) = "v2" ->
     strings.ToLower (strings.TrimSpace v2.(PayloadV2.Exchange)) <> "" ->
     symbol <> "" \/
     (dca.(PayloadV2.DCA.TargetAsset) <> "" /\
      dca.(PayloadV2.DCA.OrderCurrency) <> "") ->
     decimal.NewFromString dca.(PayloadV2.DCA.QuoteAmount) = ok qa ->
     decimal.IsPositive qa = true ->
     threshold = "" \/ succeeds (decimal.NewFromString threshold) = true ->
     exists u, ParseUnifiedV2 raw = ok u /\
               u.(Unified.Symbol) = if symbol =? "" then pair else symbol).
Proof.
  intros dca symbol pair threshold D.
  pose proof (legacySymbol_cases dca) as C. cbv zeta in C.
  fold symbol pair in C.
  split; [|split].
  - intros u E.
    destruct (ParseUnifiedV2_ok_inv raw u E)
      as (v2' & D' & _ & _ & _ & S & _).
    rewrite D in D'. injection D' as <-. fold dca in S.
    destruct C as [(N & L) | [(N & T & O & L) | (N & _ & L)]];
      rewrite L in S; [| |discriminate]; injection S as <-; auto 6.
  - intros N M.
    assert (L : legacySymbol dca =
                err (Errorf
                       "dca.symbol or (dca.targetAsset+orderCurrency) required"
                       [])).
    { destruct C as [(N' & _) | [(_ & T & O & _) | (_ & _ & L)]];
        [congruence | destruct M; congruence | exact L]. }
    split.
    + destruct (ParseUnifiedV2 raw) as [u|] eqn:E; [|reflexivity].
      destruct (ParseUnifiedV2_ok_inv raw u E)
        as (v2' & D' & _ & _ & _ & S & _).
      rewrite D in D'. injection D' as <-. fold dca in S. congruence.
    + intros V X. unfold ParseUnifiedV2. rewrite D, V. simpl.
      apply String.eqb_neq in X. rewrite X. fold dca. rewrite L. reflexivity.
  - intros qa V X R Q P T.
    assert (L : legacySymbol dca = ok (if symbol =? "" then pair else symbol)).
    { destruct C as [(N & L) | [(N & _ & _ & L) | (N & M & _)]].
      - apply String.eqb_neq in N. rewrite N. exact L.
      - rewrite N. exact L.
      - destruct R as [R | [R1 R2]]; [congruence | destruct M; congruence]. }
    destruct (ParseUnifiedV2_succeeds raw v2 _ qa D V X L Q P T)
      as (u & E & S & _).
    eauto.
Qed.

(** C8.  The nested path does not trim.  A decoded payload with the right
    version, an amount that parses and a non-empty exchange name and
    symbol is accepted by [ParseDCAPayload] also when the name or the
    symbol is white space only, and [ToUnified] then puts the lower-cased
    name and the upper-cased symbol into the plan, which for ASCII white
    space is the string itself.  The two missing-field errors are raised
    for the empty string only.  The legacy adapter rejects an exchange
    that is empty after trimming and lower-casing, in particular one made
    of ASCII white space. *)
Theorem nested_path_keeps_white_space :
  (forall (raw : list Byte.byte) (p : DCAPayload),
     let name := p.(DCAPayload.Exchange).(ExchangeConfig.Name) in
     let symbol := p.(DCAPayload.Strategy).(DCAStrategy.Symbol) in
     Unmarshal_DCAPayload raw = ok p ->
     strings.ToLower p.(DCAPayload.Version) = "v2" ->
     p.(DCAPayload.Strategy).(DCAStrategy.QuoteAmount) <> "" ->
     amounts_parse p.(DCAPayload.Strategy) ->
     name <> "" -> symbol <> "" ->
     exists p' u,
       ParseDCAPayload raw = ok p' /\ ToUnified p' = ok u /\
       u.(Unified.Exchange) = strings.ToLower name /\
       u.(Unified.Symbol) = strings.ToUpper symbol /\
       (ascii_blank name -> u.(Unified.Exchange) = name) /\
       (ascii_blank symbol -> u.(Unified.Symbol) = symbol)) /\
  (forall (raw : list Byte.byte) (p : DCAPayload),
     Unmarshal_DCAPayload raw = ok p ->
     (ParseDCAPayload raw = err (Errorf "exchange name is required" []) ->
      p.(DCAPayload.Exchange).(ExchangeConfig.Name) = "") /\
     (ParseDCAPayload raw = err (Errorf "strategy symbol is required" []) ->
      p.(DCAPayload.Strategy).(DCAStrategy.Symbol) = "")) /\
  (forall (raw : list Byte.byte) (v2 : PayloadV2),
     Unmarshal_PayloadV2 raw = ok v2 ->
     strings.ToLower v2.(PayloadV2.Version) = "v2" ->
     strings.ToLower (strings.TrimSpace v2.(PayloadV2.Exchange)) = "" \/
     ascii_blank v2.(PayloadV2.Exchange) ->
     ParseUnifiedV2 raw = err (Errorf "exchange is required" [])).
Proof.
  split; [|split].
  - intros raw p name symbol D V Q A N S.
    assert (W : valid_payload p) by (unfold valid_payload; auto).
    exists (with_default_order_type p).
    pose proof A as M.
    apply amounts_parse_with_default, ToUnified_succeeds_iff in M.
    destruct (ToUnified (with_default_order_type p)) as [u|] eqn:E;
      [clear M | discriminate].
    exists u. split; [apply ParseDCAPayload_valid; assumption|].
    split; [reflexivity|].
    destruct (strategy_with_default p) as (Y & _ & _ & X & _).
    assert (EX : u.(Unified.Exchange) = strings.ToLower name).
    { destruct (ToUnified_slots _ _ E) as (-> & _). rewrite X. reflexivity. }
    assert (SY : u.(Unified.Symbol) = strings.ToUpper symbol).
    { rewrite (ToUnified_symbol _ _ E), Y. reflexivity. }
    repeat split; auto.
    + intros B. rewrite EX. apply ToLower_blank, B.
    + intros B. rewrite SY. apply ToUpper_blank, B.
  - intros raw p D. unfold ParseDCAPayload. rewrite D.
    destruct (negb _); [split; discriminate|].
    destruct (ExchangeConfig.Name _ =? "") eqn:N; strings_eq;
      [split; [auto | discriminate]|].
    destruct (DCAStrategy.Symbol _ =? "") eqn:S; strings_eq;
      [split; [discriminate | auto]|].
    destruct (DCAStrategy.QuoteAmount _ =? ""); [split; discriminate|].
    destruct (decimal.NewFromString _); [|split; discriminate].
    destruct (negb _); [destruct (decimal.NewFromString _)|];
      cbv zeta; branches; split; discriminate.
  - intros raw v2 D V B.
    assert (X : strings.ToLower (strings.TrimSpace v2.(PayloadV2.Exchange)) = "").
    { destruct B as [B|B]; [exact B|].
      rewrite (TrimSpace_blank _ B). reflexivity. }
    unfold ParseUnifiedV2. rewrite D, V, X. reflexivity.
Qed.

(** C9.  [ParseUnifiedV2] does not read the [inline] and [env] sub-records
    of the binance block, the [env] sub-record of the okx block, nor the
    [inline] and [env] sub-records of the telegram block: two payloads
    that agree once these are removed give the same result.  The okx
    [inline] sub-record is the one that is carried into the plan. *)
Theorem legacy_carries_paths_only (raw raw' : list Byte.byte)
    (v2 v2' : PayloadV2) :
  Unmarshal_PayloadV2 raw = ok v2 ->
  Unmarshal_PayloadV2 raw' = ok v2' ->
  (without_unread v2 = without_unread v2' ->
   ParseUnifiedV2 raw = ParseUnifiedV2 raw') /\
  (forall u okx inline,
     ParseUnifiedV2 raw = ok u ->
     v2.(PayloadV2.Credentials).(PayloadV2.Credentials.OKX) = Some okx ->
     okx.(PayloadV2.OKX.Inline) = Some inline ->
     u.(Unified.OKXInline) =
       Some {| Unified.OKXInline.APIKey := inline.(PayloadV2.OKXInline.APIKey);
               Unified.OKXInline.APISecret :=
                 inline.(PayloadV2.OKXInline.APISecret);
               Unified.OKXInline.Passphrase :=
                 inline.(PayloadV2.OKXInline.Passphrase) |}).
Proof.
  intros D D'. split.
  - intros W. unfold ParseUnifiedV2. rewrite D, D'.
    destruct v2 as [ver ex dca [okx bin] [tel] flags].
    destruct v2' as [ver' ex' dca' [okx' bin'] [tel'] flags'].
    unfold without_unread in W. simpl in W.
    injection W as -> -> -> O B T ->.
    destruct okx as [[]|], okx' as [[]|]; simpl in O; try discriminate;
      destruct bin as [[]|], bin' as [[]|]; simpl in B; try discriminate;
      destruct tel as [[]|], tel' as [[]|]; simpl in T; try discriminate;
      simplify_eq; reflexivity.
  - intros u okx inline E O I.
    destruct (ParseUnifiedV2_ok_inv raw u E)
      as (w & Dw & _ & _ & _ & _ & _ & _ & _ & R & _).
    rewrite D in Dw. injection Dw as <-.
    rewrite R, O. simpl. rewrite I. reflexivity.
Qed.

(** C10.  When the telegram block is present and the two amounts parse,
    [ToUnified] succeeds with a Telegram record: its chat id is the string
    under [chatId] whatever the block's kind tag, its bot-token path is the
    string under [botTokenPath] when the tag is ["ssm"] and empty for any
    other tag, and its sink is empty.  [ParseUnifiedV2] is the path that
    sets the sink, to the trimmed and lower-cased sink of the payload. *)
Theorem telegram_record (p : DCAPayload) (telegram : TelegramConfig) :
  let type := telegram.(TelegramConfig.Type_) in
  let config := telegram.(TelegramConfig.Config) in
  p.(DCAPayload.Notifications).(NotificationConfig.Telegram) = Some telegram ->
  (amounts_parse p.(DCAPayload.Strategy) ->
   exists u t,
     ToUnified p = ok u /\ u.(Unified.Telegram) = Some t /\
     (forall chat, config !! "chatId" = Some (JString chat) ->
                   t.(Unified.Telegram.ChatID) = chat) /\
     (unusable config "chatId" -> t.(Unified.Telegram.ChatID) = "") /\
     (type = "ssm" ->
      forall path, config !! "botTokenPath" = Some (JString path) ->
                   t.(Unified.Telegram.BotTokenPath) = path) /\
     (type <> "ssm" -> t.(Unified.Telegram.BotTokenPath) = "") /\
     t.(Unified.Telegram.Sink) = "") /\
  (forall (raw : list Byte.byte) (v2 : PayloadV2) (legacy : PayloadV2.Telegram.t)
          (u : Unified),
     Unmarshal_PayloadV2 raw = ok v2 ->
     v2.(PayloadV2.Notifications).(PayloadV2.Notifications.Telegram)
       = Some legacy ->
     ParseUnifiedV2 raw = ok u ->
     u.(Unified.Telegram) =
       Some {| Unified.Telegram.BotTokenPath :=
                 legacy.(PayloadV2.Telegram.BotTokenPath);
               Unified.Telegram.ChatID := legacy.(PayloadV2.Telegram.ChatID);
               Unified.Telegram.Sink :=
                 strings.ToLower
                   (strings.TrimSpace legacy.(PayloadV2.Telegram.Sink)) |}).
Proof.
  intros type config T. split.
  - intros A. apply ToUnified_succeeds_iff in A.
    destruct (ToUnified p) as [u|] eqn:E; [clear A | discriminate].
    exists u, (unifiedTelegram telegram).
    split; [reflexivity|].
    split; [rewrite (ToUnified_telegram p u E), T; reflexivity|].
    unfold unifiedTelegram. fold type config.
    repeat split.
    + intros chat C. rewrite (copy_string_found _ _ chat _ _ C).
      unfold copy_string; branches; reflexivity.
    + intros U. rewrite (copy_string_unusable _ _ _ _ U).
      unfold copy_string; branches; reflexivity.
    + intros -> path P. simpl. rewrite (copy_string_found _ _ path _ _ P).
      unfold copy_string; branches; reflexivity.
    + intros N. apply String.eqb_neq in N. rewrite N.
      unfold copy_string; branches; reflexivity.
    + unfold copy_string; branches; reflexivity.
  - intros raw v2 legacy u D L E.
    destruct (ParseUnifiedV2_ok_inv raw u E)
      as (w & Dw & _ & _ & _ & _ & _ & _ & _ & _ & _ & R).
    rewrite D in Dw. injection Dw as <-.
    rewrite R, L. reflexivity.
Qed.

End MoreClaims.

(** *** The claims at concrete inputs *)

(** C1, witness of the amended claim: an OKX instruction with inline
    credentials. *)
Lemma credential_slots_follow_their_source_witness :
  exists u : Unified,
    @ToUnified ascii_text
      (nested_payload "OKX" "inline" okx_inline_bag "btc-usdt" "10" "" None)
      = ok u /\
    u.(Unified.Exchange) = "okx" /\ is_Some u.(Unified.OKX) /\
    u.(Unified.Binance) = None /\ is_Some u.(Unified.OKXInline).
Proof.
  set (p := nested_payload "OKX" "inline" okx_inline_bag "btc-usdt" "10" "" None).
  destruct (@ToUnified ascii_text p) as [u|] eqn:E;
    [|vm_compute in E; discriminate E].
  exists u. split; [reflexivity|].
  destruct (proj1 (@credential_slots_follow_their_source ascii_text
                     (decoding not_decoded not_decoded)) p u E)
    as (X & _ & O & _).
  destruct (O eq_refl) as (S & B & I).
  split; [exact X|]. split; [exact S|]. split; [exact B|].
  apply I. reflexivity.
Defined.

(** C1, counterexample to the claim as stated.  For the exchange ["kraken"]
    [ToUnified] succeeds and populates no credential record; for the legacy
    exchange ["binance"] with only an okx credentials block [ParseUnifiedV2]
    succeeds and populates the OKX records, not the binance one. *)
Lemma exactly_one_matching_counterexample :
  (exists u : Unified,
     @ToUnified ascii_text
       (nested_payload "kraken" "ssm" binance_ssm_bag "btc-usdt" "10" "" None)
       = ok u /\
     u.(Unified.Binance) = None /\ u.(Unified.OKX) = None /\
     u.(Unified.OKXInline) = None /\ ~ exactly_one_matching u) /\
  (exists u : Unified,
     @ParseUnifiedV2 ascii_text
       (decoding not_decoded
          (ok (legacy_payload "binance" "btc-usdt" "" "" "10"
                 (Some legacy_okx_paths) None None))) []
       = ok u /\
     u.(Unified.Exchange) = "binance" /\ is_Some u.(Unified.OKX) /\
     u.(Unified.Binance) = None /\ ~ exactly_one_matching u).
Proof.
  split; eexists; (split; [vm_compute; reflexivity|]); simpl;
    repeat split; eauto;
    intros [(X & B & _) | (X & _)];
    first [discriminate X | destruct (is_Some_None B)].
Qed.

(** C2, witness: the quote amount ["-5"] on both paths. *)
Lemma quote_amount_positive_only_in_legacy_witness :
  let nested := nested_payload "binance" "ssm" binance_ssm_bag "btc-usdt" "-5" "" None in
  let legacy := legacy_payload "binance" "btc-usdt" "" "" "-5" None None None in
  let decoder := decoding (ok nested) (ok legacy) in
  @ParseUnifiedV2 ascii_text decoder []
    = err (Errorf "dca.quoteAmount invalid: %q" [Str "-5"]) /\
  @ParseDCAPayload ascii_text decoder [] = ok (with_default_order_type nested).
Proof.
  intros nested legacy decoder.
  pose proof (@quote_amount_positive_only_in_legacy ascii_text decoder)
    as (L & N & _).
  split.
  - refine (proj2 (L [] legacy eq_refl _) eq_refl _ eq_refl).
    + intros d E. vm_compute in E. injection E as <-. reflexivity.
    + intros E. vm_compute in E. discriminate E.
  - refine (N [] nested {| decimal.value := -5; decimal.exp := 0 |}
              eq_refl eq_refl _ _ _ _ _).
    + intros E. discriminate E.
    + intros E. discriminate E.
    + intros E. discriminate E.
    + vm_compute. reflexivity.
    + left. reflexivity.
Defined.

(** C3, witness of the amended claim: an accepted payload with negative
    amounts. *)
Lemma accepted_amounts_are_decimals_witness :
  let nested :=
    nested_payload "binance" "ssm" binance_ssm_bag "btc-usdt" "-5" "-0.5" None in
  exists p' : DCAPayload,
    @ParseDCAPayload ascii_text (decoding (ok nested) not_decoded) [] = ok p' /\
    p'.(DCAPayload.Strategy).(DCAStrategy.QuoteAmount) = "-5" /\
    amounts_parse p'.(DCAPayload.Strategy).
Proof.
  intros nested.
  pose proof (@accepted_amounts_are_decimals ascii_text
                (decoding (ok nested) not_decoded)) as (A & V).
  exists (with_default_order_type nested).
  assert (E : @ParseDCAPayload ascii_text (decoding (ok nested) not_decoded) []
              = ok (with_default_order_type nested)).
  { apply V; [reflexivity|].
    repeat split; try (intros X; discriminate X).
    right. vm_compute. reflexivity. }
  split; [exact E|]. split; [reflexivity|]. exact (proj2 (A _ _ E)).
Defined.

(** C3, counterexample to the claim as stated: [ParseDCAPayload] accepts the
    quote amount ["-5"] and the balance threshold ["-0.5"], both negative
    decimals. *)
Lemma negative_amounts_accepted_counterexample :
  exists (p' : DCAPayload) (qa bt : decimal.Decimal),
    @ParseDCAPayload ascii_text
      (decoding
         (ok (nested_payload "binance" "ssm" binance_ssm_bag "btc-usdt" "-5"
                "-0.5" None))
         not_decoded) [] = ok p' /\
    decimal.NewFromString p'.(DCAPayload.Strategy).(DCAStrategy.QuoteAmount)
      = ok qa /\
    decimal.IsNegative qa = true /\
    decimal.NewFromString p'.(DCAPayload.Strategy).(DCAStrategy.BalanceThreshold)
      = ok bt /\
    decimal.IsNegative bt = true.
Proof.
  do 3 eexists. split; [vm_compute; reflexivity|]. simpl.
  split; [vm_compute; reflexivity|]. split; [reflexivity|].
  split; [vm_compute; reflexivity|]. reflexivity.
Qed.

(** C4, witness: a binance bag whose [apiKeyPath] is a number and whose
    [apiSecretPath] is missing. *)
Lemma ToUnified_fails_only_on_amounts_witness :
  let p :=
    nested_payload "binance" "ssm" {[ "apiKeyPath" := JFloat64 0 ]} "btc-usdt"
      "10" "" None in
  amounts_parse p.(DCAPayload.Strategy) /\
  exists u : Unified,
    @ToUnified ascii_text p = ok u /\
    forall b, u.(Unified.Binance) = Some b ->
              b.(Unified.Binance.APIKeyPath) = "" /\
              b.(Unified.Binance.APISecretPath) = "".
Proof.
  intros p.
  assert (A : amounts_parse p.(DCAPayload.Strategy)).
  { split; [vm_compute; reflexivity | left; reflexivity]. }
  split; [exact A|].
  destruct (proj2 (proj2 (@ToUnified_fails_only_on_amounts ascii_text p)) A)
    as (u & E & B & _).
  exists u. split; [exact E|].
  intros b Eb. destruct (B b Eb) as [K S].
  split.
  - apply K, (unusable_wrong_type _ _ (JFloat64 0)); reflexivity.
  - apply S, unusable_missing. reflexivity.
Defined.

(** C5, witness: the round trip of the specification. *)
Lemma parse_then_unify_binance_ssm_witness :
  let p := nested_payload "binance" "ssm" binance_ssm_bag "btc-usdt" "10" "" None in
  exists (p' : DCAPayload) (u : Unified),
    @ParseDCAPayload ascii_text (decoding (ok p) not_decoded) [] = ok p' /\
    @ToUnified ascii_text p' = ok u /\
    u.(Unified.Binance) =
      Some {| Unified.Binance.APIKeyPath := "/a";
              Unified.Binance.APISecretPath := "/b" |} /\
    u.(Unified.OKX) = None.
Proof.
  intros p.
  apply (@parse_then_unify_binance_ssm ascii_text (decoding (ok p) not_decoded)
           [] p "/a" "/b"); try reflexivity.
  repeat split; try (intros X; discriminate X).
  left. reflexivity.
Defined.

(** C6, witness: the exchange name ["OKX"]. *)
Lemma ToUnified_okx_inline_witness :
  exists u : Unified,
    @ToUnified ascii_text
      (nested_payload "OKX" "inline" okx_inline_bag "eth-usdt" "20.50" "" None)
      = ok u /\
    u.(Unified.OKX) =
      Some {| Unified.OKX.APIKeyPath := ""; Unified.OKX.APISecretPath := "";
              Unified.OKX.PassphrasePath := "" |} /\
    u.(Unified.OKXInline) =
      Some {| Unified.OKXInline.APIKey := "k"; Unified.OKXInline.APISecret := "s";
              Unified.OKXInline.Passphrase := "p" |} /\
    u.(Unified.Binance) = None.
Proof.
  apply (@ToUnified_okx_inline ascii_text
           (nested_payload "OKX" "inline" okx_inline_bag "eth-usdt" "20.50" ""
              None) "k" "s" "p"); try reflexivity.
  split; [vm_compute; reflexivity | left; reflexivity].
Defined.

(** C7, witness of the amended claim: a blank [dca.symbol] with the pair
    [btc] and [usdt]. *)
Lemma legacy_symbol_resolution_witness :
  let v2 := legacy_payload "Binance" " " "btc" "usdt" "10" None None None in
  exists u : Unified,
    @ParseUnifiedV2 ascii_text (decoding not_decoded (ok v2)) [] = ok u /\
    u.(Unified.Symbol) = "BTC-USDT".
Proof.
  intros v2.
  destruct (@legacy_symbol_resolution ascii_text (decoding not_decoded (ok v2))
              [] v2 eq_refl) as (_ & _ & S).
  refine (S {| decimal.value := 10; decimal.exp := 0 |} eq_refl _ _ _ eq_refl _).
  - intros E. vm_compute in E. discriminate E.
  - right. split; intros E; discriminate E.
  - vm_compute. reflexivity.
  - left. reflexivity.
Defined.

(** C7, counterexample to the claim as stated.  A non-empty [dca.symbol]
    with surrounding blanks does not come out upper-cased as it is, but
    trimmed; and a non-empty [dca.symbol] made of a blank, without the
    pair, makes the call fail. *)
Lemma legacy_symbol_is_trimmed_counterexample :
  (exists u : Unified,
     @ParseUnifiedV2 ascii_text
       (decoding not_decoded
          (ok (legacy_payload "binance" " btc-usdt " "" "" "10" None None None)))
       [] = ok u /\
     u.(Unified.Symbol) = "BTC-USDT" /\
     u.(Unified.Symbol) <> @strings.ToUpper ascii_text " btc-usdt ") /\
  @ParseUnifiedV2 ascii_text
    (decoding not_decoded
       (ok (legacy_payload "binance" " " "" "" "10" None None None))) []
    = err (Errorf "dca.symbol or (dca.targetAsset+orderCurrency) required" []).
Proof.
  split; [|vm_compute; reflexivity].
  eexists. split; [vm_compute; reflexivity|]. simpl.
  split; [reflexivity|]. intros E. vm_compute in E. discriminate E.
Qed.

(** C8, witness: a blank exchange name and a blank symbol on the nested
    path, a blank exchange on the legacy path. *)
Lemma nested_path_keeps_white_space_witness :
  let p := nested_payload " " "ssm" binance_ssm_bag "  " "10" "" None in
  let v2 := legacy_payload " " "btc-usdt" "" "" "10" None None None in
  let decoder := decoding (ok p) (ok v2) in
  (exists (p' : DCAPayload) (u : Unified),
     @ParseDCAPayload ascii_text decoder [] = ok p' /\
     @ToUnified ascii_text p' = ok u /\
     u.(Unified.Exchange) = " " /\ u.(Unified.Symbol) = "  ") /\
  @ParseUnifiedV2 ascii_text decoder [] = err (Errorf "exchange is required" []).
Proof.
  intros p v2 decoder.
  pose proof (@nested_path_keeps_white_space ascii_text decoder) as (N & _ & L).
  split.
  - destruct (N [] p eq_refl eq_refl) as (p' & u & E1 & E2 & _ & _ & X & S).
    + intros E. discriminate E.
    + split; [vm_compute; reflexivity | left; reflexivity].
    + intros E. discriminate E.
    + intros E. discriminate E.
    + exists p', u. split; [exact E1|]. split; [exact E2|].
      split; [apply X | apply S]; reflexivity.
  - apply (L [] v2 eq_refl eq_refl). right. reflexivity.
Defined.

(** C9, witness: a payload with an okx [env], an okx [inline] and a telegram
    [inline] sub-record gives the result of the payload without the [env]
    and the telegram [inline]. *)
Lemma legacy_carries_paths_only_witness :
  let v2 :=
    legacy_payload "okx" "btc-usdt" "" "" "10" (Some legacy_okx_paths) None
      (Some legacy_telegram) in
  @ParseUnifiedV2 ascii_text (decoding not_decoded (ok v2)) []
    = @ParseUnifiedV2 ascii_text (decoding not_decoded (ok (without_unread v2))) []
  /\
  exists u : Unified,
    @ParseUnifiedV2 ascii_text (decoding not_decoded (ok v2)) [] = ok u /\
    u.(Unified.OKXInline) =
      Some {| Unified.OKXInline.APIKey := "k"; Unified.OKXInline.APISecret := "s";
              Unified.OKXInline.Passphrase := "p" |}.
Proof.
  intros v2.
  destruct (@legacy_carries_paths_only ascii_text (decoding not_decoded (ok v2))
              [] [] v2 v2 eq_refl eq_refl) as (_ & I).
  split; [vm_compute; reflexivity|].
  destruct (@ParseUnifiedV2 ascii_text (decoding not_decoded (ok v2)) [])
    as [u|] eqn:E; [|vm_compute in E; discriminate E].
  exists u. split; [reflexivity|].
  exact (I u legacy_okx_paths _ eq_refl eq_refl eq_refl).
Defined.

(** C10, witness: a telegram block with an unrecognised kind tag. *)
Lemma telegram_record_witness :
  let telegram :=
    {| TelegramConfig.Type_ := "webhook"; TelegramConfig.Config := telegram_bag |} in
  let p :=
    nested_payload "binance" "ssm" binance_ssm_bag "btc-usdt" "10" ""
      (Some telegram) in
  exists (u : Unified) (t : Unified.Telegram.t),
    @ToUnified ascii_text p = ok u /\ u.(Unified.Telegram) = Some t /\
    t.(Unified.Telegram.ChatID) = "42" /\
    t.(Unified.Telegram.BotTokenPath) = "" /\
    t.(Unified.Telegram.Sink) = "".
Proof.
  intros telegram p.
  destruct (proj1 (@telegram_record ascii_text (decoding not_decoded not_decoded)
                     p telegram eq_refl))
    as (u & t & E & T & C & _ & _ & B & S).
  - split; [vm_compute; reflexivity | left; reflexivity].
  - exists u, t. split; [exact E|]. split; [exact T|].
    split; [apply C; vm_compute; reflexivity|].
    split; [apply B; intros X; discriminate X | exact S].
Defined.

(** ** Further properties of the code *)

(** *** Prefixes, suffixes and pieces of strings *)

Lemma append_empty (t : string) : "" ++ t = t.
Proof. reflexivity. Qed.

Lemma append_String (c : ascii) (s t : string) :
  String c s ++ t = String c (s ++ t).
Proof. reflexivity. Qed.

Ltac appended :=
  simpl in *; rewrite ?append_empty, ?append_String in *; simpl in *.

Lemma substring_whole (s : string) : substring 0 (String.length s) s = s.
Proof. induction s as [|c s IH]; simpl; congruence. Qed.

Lemma substring_after (before s : string) :
  substring (String.length before) (String.length s) (before ++ s) = s.
Proof.
  induction before as [|c before IH]; appended; auto using substring_whole.
Qed.

Lemma string_length_app (s t : string) :
  String.length (s ++ t) = (String.length s + String.length t)%nat.
Proof. induction s as [|c s IH]; appended; congruence. Qed.

Lemma substring_cut (n : nat) (s : string) :
  (n <= String.length s)%nat ->
  s = substring 0 n s ++ substring n (String.length s - n) s.
Proof.
  revert n. induction s as [|c s IH]; intros [|n] L; appended;
    try reflexivity; try lia.
  - rewrite substring_whole. reflexivity.
  - rewrite <- IH by lia. reflexivity.
Qed.

Lemma append_assoc (s t u : string) : (s ++ t) ++ u = s ++ (t ++ u).
Proof. induction s as [|c s IH]; appended; congruence. Qed.

(** [HasSuffix s suffix] holds exactly when [s] ends with [suffix]. *)
Lemma HasSuffix_iff (s suffix : string) :
  strings.HasSuffix s suffix = true <-> exists before, s = before ++ suffix.
Proof.
  unfold strings.HasSuffix. rewrite andb_true_iff, Nat.leb_le, String.eqb_eq.
  split.
  - intros [L E].
    exists (substring 0 (String.length s - String.length suffix) s).
    pose proof (substring_cut (String.length s - String.length suffix) s) as C.
    replace (String.length s - (String.length s - String.length suffix))%nat
      with (String.length suffix) in C by lia.
    rewrite E in C. apply C. lia.
  - intros [before ->]. rewrite string_length_app. split; [lia|].
    replace (String.length before + String.length suffix
             - String.length suffix)%nat with (String.length before) by lia.
    apply substring_after.
Qed.

Lemma HasPrefix_iff (s prefix : string) :
  strings.HasPrefix s prefix = true <-> exists rest, s = prefix ++ rest.
Proof.
  revert s. induction prefix as [|p prefix IH]; intros [|c s]; simpl.
  - split; [exists ""; reflexivity | reflexivity].
  - split; [exists (String c s); reflexivity | reflexivity].
  - split; [discriminate | intros [? [=]]].
  - rewrite andb_true_iff, IH. split.
    + intros [E [rest ->]]. apply Ascii.eqb_eq in E as ->.
      exists rest. reflexivity.
    + intros [rest E]. rewrite append_String in E. injection E as -> ->.
      split; [apply Ascii.eqb_refl | eauto].
Qed.

Lemma HasPrefix_empty (s : string) : strings.HasPrefix s "" = true.
Proof. destruct s; reflexivity. Qed.

(** [Contains s "-"] looks for the byte. *)
Lemma Contains_byte (c : ascii) (s : string) :
  strings.Contains s (String c EmptyString) = strings.any_byte (Ascii.eqb c) s.
Proof.
  induction s as [|d s IH]; simpl; [reflexivity|].
  rewrite IH, HasPrefix_empty, andb_true_r, (Ascii.eqb_sym d c). reflexivity.
Qed.

Lemma Split_without (c : ascii) (s : string) :
  without_byte c s -> strings.Split s c = [s].
Proof.
  unfold without_byte. induction s as [|d s IH]; simpl; [reflexivity|].
  intros E. apply orb_false_iff in E as [E1 E2].
  rewrite (Ascii.eqb_sym d c), E1, (IH E2). reflexivity.
Qed.

Lemma Split_at_first (c : ascii) (before after : string) :
  without_byte c before ->
  strings.Split (before ++ String c after) c = before :: strings.Split after c.
Proof.
  unfold without_byte. induction before as [|d before IH]; appended.
  - intros _. rewrite Ascii.eqb_refl. reflexivity.
  - intros E. apply orb_false_iff in E as [E1 E2].
    rewrite (Ascii.eqb_sym d c), E1, (IH E2). reflexivity.
Qed.

Lemma Split_length (c : ascii) (s : string) :
  length (strings.Split s c)
  = Datatypes.S (strings.count (fun d => Ascii.eqb d c) s).
Proof.
  induction s as [|d s IH]; simpl; [reflexivity|].
  destruct (Ascii.eqb d c); simpl; [congruence|].
  destruct (strings.Split s c); simpl in *; congruence.
Qed.

Lemma any_byte_app (p : ascii -> bool) (s t : string) :
  strings.any_byte p (s ++ t) = strings.any_byte p s || strings.any_byte p t.
Proof.
  induction s as [|c s IH]; appended; [reflexivity|].
  rewrite IH, orb_assoc. reflexivity.
Qed.

Lemma append_tail_inj (s t a b : string) :
  String.length a = String.length b -> s ++ a = t ++ b -> s = t /\ a = b.
Proof.
  intros L. revert t. induction s as [|c s IH]; intros [|d t] E; appended.
  - auto.
  - apply (f_equal String.length) in E. simpl in E. rewrite string_length_app in E. lia.
  - apply (f_equal String.length) in E. simpl in E. rewrite string_length_app in E. lia.
  - injection E as -> E. destruct (IH _ E) as [-> ->]. auto.
Qed.

(** A string that ends with [tail] has none of the suffixes of the same
    length that differ from [tail]. *)
Lemma HasSuffix_other (s tail suffix : string) :
  String.length tail = String.length suffix -> tail <> suffix ->
  strings.HasSuffix (s ++ tail) suffix = false.
Proof.
  intros L D. apply not_true_iff_false. rewrite HasSuffix_iff.
  intros [before E]. apply append_tail_inj in E as [_ E]; auto.
Qed.

Lemma HasSuffix_tail (s head tail : string) :
  strings.HasSuffix s (head ++ tail) = true -> strings.HasSuffix s tail = true.
Proof.
  rewrite !HasSuffix_iff. intros [before ->]. exists (before ++ head).
  apply eq_sym, append_assoc.
Qed.

Lemma count_any_byte (c : ascii) (s : string) :
  (0 < strings.count (fun d => Ascii.eqb d c) s)%nat ->
  strings.any_byte (Ascii.eqb c) s = true.
Proof.
  induction s as [|d s IH]; simpl; [lia|].
  rewrite (Ascii.eqb_sym c d). destruct (Ascii.eqb d c); simpl; auto.
Qed.

(** Without a hyphen, the first of the common quotes that ends the symbol
    is chosen. *)
Lemma extractQuoteCurrency_plain (symbol : string) :
  without_byte "-" symbol ->
  main.extractQuoteCurrency symbol
  = match find (fun quote => strings.HasSuffix symbol quote) main.commonQuotes with
    | Some quote => ok quote
    | None => err (Errorf "unable to extract quote currency from symbol: %s"
                     [Str symbol])
    end.
Proof.
  intros N. unfold main.extractQuoteCurrency. rewrite Contains_byte, N.
  reflexivity.
Qed.

Lemma find_commonQuotes (symbol quote : string) :
  find (fun quote => strings.HasSuffix symbol quote) main.commonQuotes
  = Some quote ->
  In quote ["USDT"; "USDC"; "BUSD"; "USD"; "BTC"; "ETH"]
  /\ exists base, symbol = base ++ quote.
Proof.
  intros F. assert (S := F). apply find_some in S as [_ S].
  apply HasSuffix_iff in S. split; [|exact S].
  unfold main.commonQuotes in F. simpl in F.
  repeat match type of F with
    | context [if ?c then _ else _] => destruct c eqn:?
    end; simplify_eq; simpl; auto 10.
  assert (strings.HasSuffix symbol "USD" = true)
    by (apply (HasSuffix_tail symbol "FD" "USD"); assumption).
  congruence.
Qed.

(** X1.  A symbol written with one hyphen resolves to what follows the
    hyphen, whatever it is: the part after the hyphen is not compared with
    the list of common quote currencies, and may be empty. *)
Theorem extractQuoteCurrency_pair (base quote : string) :
  without_byte "-" base -> without_byte "-" quote ->
  main.extractQuoteCurrency (base ++ String "-" quote) = ok quote.
Proof.
  intros B Q. unfold main.extractQuoteCurrency.
  rewrite Contains_byte, any_byte_app. simpl. rewrite orb_true_r.
  rewrite Split_at_first, Split_without by assumption. reflexivity.
Qed.

(** X2.  A symbol with two hyphens or more is refused with the error
    "invalid symbol format". *)
Theorem extractQuoteCurrency_hyphens (symbol : string) :
  (2 <= strings.count (fun c => Ascii.eqb c "-") symbol)%nat ->
  main.extractQuoteCurrency symbol
  = err (Errorf "invalid symbol format: %s" [Str symbol]).
Proof.
  intros C. unfold main.extractQuoteCurrency.
  rewrite Contains_byte, count_any_byte by lia.
  pose proof (Split_length "-" symbol) as L.
  destruct (strings.Split symbol "-") as [|? [|? [|? ?]]]; simpl in L;
    try reflexivity; lia.
Qed.

(** X3.  For a symbol without hyphen the result is one of USDT, USDC, BUSD,
    USD, BTC and ETH, and the symbol ends with it.  FDUSD, the last entry
    of the list in the code, is never the result: a symbol that ends with
    FDUSD ends with USD, which comes first. *)
Theorem extractQuoteCurrency_suffix (symbol quote : string) :
  without_byte "-" symbol ->
  main.extractQuoteCurrency symbol = ok quote ->
  In quote ["USDT"; "USDC"; "BUSD"; "USD"; "BTC"; "ETH"]
  /\ exists base, symbol = base ++ quote.
Proof.
  intros N E. rewrite extractQuoteCurrency_plain in E by assumption.
  destruct (find _ _) as [q|] eqn:F; [|discriminate].
  injection E as ->. apply find_commonQuotes. assumption.
Qed.

(** X4.  A pair quoted in FDUSD and written without hyphen resolves to the
    quote currency USD. *)
Theorem extractQuoteCurrency_fdusd (base : string) :
  without_byte "-" base ->
  main.extractQuoteCurrency (base ++ "FDUSD") = ok "USD".
Proof.
  intros N. rewrite extractQuoteCurrency_plain
    by (unfold without_byte in *; rewrite any_byte_app, N; reflexivity).
  unfold main.commonQuotes. simpl.
  change "FDUSD" with ("F" ++ "DUSD").
  rewrite <- append_assoc.
  rewrite !HasSuffix_other by (simpl; congruence).
  change "DUSD" with ("D" ++ "USD"). rewrite <- append_assoc.
  replace (strings.HasSuffix (((base ++ "F") ++ "D") ++ "USD") "USD")
    with true by (symmetry; apply HasSuffix_iff; eauto).
  reflexivity.
Qed.

(** X5.  The list of quote currencies is compared byte by byte: a symbol
    without hyphen and without an upper-case ASCII letter has no quote
    currency. *)
Theorem extractQuoteCurrency_lower_case (symbol : string) :
  without_byte "-" symbol ->
  strings.any_byte strings.isUpperByte symbol = false ->
  main.extractQuoteCurrency symbol
  = err (Errorf "unable to extract quote currency from symbol: %s"
           [Str symbol]).
Proof.
  intros N U. rewrite extractQuoteCurrency_plain by assumption.
  destruct (find _ _) as [q|] eqn:F; [|reflexivity].
  apply find_commonQuotes in F as [I [base ->]].
  rewrite any_byte_app in U. apply orb_false_iff in U as [_ U].
  simpl in I. repeat destruct I as [<-|I]; try discriminate U. destruct I.
Qed.

(** *** The strategy *)

Ltac run_steps :=
  unfold main.returned, main.runDCAStrategy, main.checkBalanceAndNotify,
    main.sendLowBalanceNotification, main.bind, main.ret, main.Printf,
    main.call;
  simpl.

(** X6.  [runDCAStrategy] fails in two cases only: the quote amount is not
    a decimal, or the exchange refuses the order.  Whatever goes wrong in
    the balance check (no quote currency for the symbol, no balance from
    the exchange, a threshold that is not a decimal) is logged and the
    strategy still returns nil. *)
Theorem runDCAStrategy_result {S : Type} (payload : DCAPayload)
    (exc : exchange.Exchange S) (w : main.world S) :
  let strategy := payload.(DCAPayload.Strategy) in
  main.returned (main.runDCAStrategy payload exc w)
  = match decimal.NewFromString strategy.(DCAStrategy.QuoteAmount) with
    | err e => Some (Errorf "invalid quote amount: %w" [Err e])
    | ok quoteAmount =>
        match fst (exchange.PlaceMarketBuyOrder exc
                     strategy.(DCAStrategy.Symbol) quoteAmount
                     (main.account w)) with
        | err e => Some (Errorf "failed to place order: %w" [Err e])
        | ok _ => None
        end
    end.
Proof.
  run_steps.
  destruct (decimal.NewFromString _) as [quoteAmount|e]; [|reflexivity].
  destruct (RuntimeFlags.DryRun _); simpl;
    destruct (exchange.PlaceMarketBuyOrder _ _ _ _) as [[order|e] s]; simpl;
    try reflexivity;
    destruct (negb _); simpl; try reflexivity;
    destruct (main.extractQuoteCurrency _); simpl; try reflexivity;
    destruct (exchange.GetBalance _ _ _) as [[balance|e] s']; simpl;
    try reflexivity;
    destruct (decimal.NewFromString _); simpl; try reflexivity;
    destruct (decimal.LessThan _ _); simpl; try reflexivity;
    destruct (NotificationConfig.Telegram _); reflexivity.
Qed.

(** X7.  What [runDCAStrategy] does to the account behind the exchange: an
    amount that is not a decimal leaves it untouched; otherwise one order is
    placed, and after a placed order the balance is asked for once, when
    the threshold is not empty and the symbol has a quote currency.  The
    threshold is read after the balance query, so the query is made for an
    unreadable threshold too. *)
Theorem runDCAStrategy_account {S : Type} (payload : DCAPayload)
    (exc : exchange.Exchange S) (w : main.world S) :
  let strategy := payload.(DCAPayload.Strategy) in
  let symbol := strategy.(DCAStrategy.Symbol) in
  main.account (snd (main.runDCAStrategy payload exc w))
  = match decimal.NewFromString strategy.(DCAStrategy.QuoteAmount) with
    | err _ => main.account w
    | ok quoteAmount =>
        let '(placed, s) :=
          exchange.PlaceMarketBuyOrder exc symbol quoteAmount (main.account w) in
        match placed, main.extractQuoteCurrency symbol with
        | ok _, ok quoteCurrency =>
            if strategy.(DCAStrategy.BalanceThreshold) =? "" then s
            else snd (exchange.GetBalance exc quoteCurrency s)
        | _, _ => s
        end
    end.
Proof.
  run_steps.
  destruct (decimal.NewFromString _) as [quoteAmount|e]; [|reflexivity].
  destruct (RuntimeFlags.DryRun _); simpl;
    destruct (exchange.PlaceMarketBuyOrder _ _ _ _) as [[order|e] s]; simpl;
    try reflexivity;
    destruct (_ =? ""); simpl;
    destruct (main.extractQuoteCurrency _); simpl; try reflexivity;
    destruct (exchange.GetBalance _ _ _) as [[balance|e] s']; simpl;
    try reflexivity;
    destruct (decimal.NewFromString _); simpl; try reflexivity;
    destruct (decimal.LessThan _ _); simpl; try reflexivity;
    destruct (NotificationConfig.Telegram _); reflexivity.
Qed.

(** X8.  The dry-run flag changes nothing in [runDCAStrategy] but one line
    of the log: with the flag set or not, the same calls reach the exchange
    and the same error is returned.  A dry run is harmless only because of
    the exchange [NewExchange] hands over. *)
Theorem runDCAStrategy_dry_run {S : Type} (payload : DCAPayload)
    (exc : exchange.Exchange S) (w : main.world S) (dryRun : bool) :
  let r := main.runDCAStrategy payload exc w in
  let r' := main.runDCAStrategy (with_dry_run dryRun payload) exc w in
  main.returned r' = main.returned r /\
  main.account (snd r') = main.account (snd r) /\
  length (main.journal (snd r')) = length (main.journal (snd r)).
Proof.
  run_steps.
  destruct (decimal.NewFromString _) as [quoteAmount|e]; [|auto].
  destruct dryRun, (RuntimeFlags.DryRun _); simpl;
    destruct (exchange.PlaceMarketBuyOrder _ _ _ _) as [[order|e] s]; simpl;
    try (destruct (negb _); simpl);
    try (destruct (main.extractQuoteCurrency _); simpl);
    try (destruct (exchange.GetBalance _ _ _) as [[balance|e'] s']; simpl);
    try (destruct (decimal.NewFromString _); simpl);
    try (destruct (decimal.LessThan _ _); simpl);
    try (destruct (NotificationConfig.Telegram _); simpl);
    repeat split; rewrite ?List.length_app; reflexivity.
Qed.

(** X9.  When the symbol has a quote currency, the exchange gives a balance
    and the threshold is a decimal, [checkBalanceAndNotify] returns nil,
    has asked the exchange for the balance of the quote currency and nothing
    else, and has written the low-balance notification exactly when the
    balance is less than the threshold. *)
Theorem checkBalanceAndNotify_notifies {S : Type} (payload : DCAPayload)
    (exc : exchange.Exchange S) (w : main.world S) (quoteCurrency : string)
    (balance threshold : decimal.Decimal) (s : S) :
  let strategy := payload.(DCAPayload.Strategy) in
  let r := main.checkBalanceAndNotify payload exc w in
  main.extractQuoteCurrency strategy.(DCAStrategy.Symbol) = ok quoteCurrency ->
  exchange.GetBalance exc quoteCurrency (main.account w) = (ok balance, s) ->
  decimal.NewFromString strategy.(DCAStrategy.BalanceThreshold) = ok threshold ->
  main.returned r = None /\
  main.account (snd r) = s /\
  exists lines,
    main.journal (snd r) = (main.journal w ++ lines)%list /\
    (In (main.Line "📢 Would send low balance notification:" []) lines
     <-> decimal.LessThan balance threshold = true).
Proof.
  intros strategy r Q B T. subst strategy r. run_steps.
  rewrite Q. simpl. rewrite B. simpl. rewrite T.
  destruct (decimal.LessThan balance threshold); simpl;
    [destruct (NotificationConfig.Telegram _); simpl|];
    (split; [reflexivity|]); (split; [reflexivity|]);
    eexists; (split; [rewrite <- !app_assoc; simpl; reflexivity|]);
    simpl; intuition discriminate.
Qed.

(** *** The handler *)

Section HandlerProperties.

Context `{Unicode} `{JSON} `{DecimalFloat}.

(** A payload accepted by [ParseDCAPayload] is one [ToUnified] converts. *)
Lemma ParseDCAPayload_ToUnified (raw : list Byte.byte) (p' : DCAPayload) :
  ParseDCAPayload raw = ok p' -> exists u, ToUnified p' = ok u.
Proof.
  intros E. apply ParseDCAPayload_ok_iff in E as (p & _ & V & ->).
  destruct V as (_ & _ & _ & _ & A).
  apply amounts_parse_with_default, ToUnified_succeeds_iff in A.
  destruct (ToUnified _) as [u|e]; [eauto | discriminate].
Qed.




End HandlerProperties.

(** X11.  The exchange name is compared without regard to case by
    [ToUnified] and as written by [NewExchange]: a payload whose name
    lower-cases to ["binance"] without being ["binance"], as ["Binance"]
    does, gets the binance record in its plan, and, when it is no dry run,
    the error "unsupported exchange" from [NewExchange]. *)
Theorem exchange_name_case `{Unicode} `{DecimalFloat} (p : DCAPayload)
    (u : Unified) :
  let name := p.(DCAPayload.Exchange).(ExchangeConfig.Name) in
  strings.ToLower name = "binance" -> name <> "binance" ->
  p.(DCAPayload.Flags).(RuntimeFlags.DryRun) = false ->
  ToUnified p = ok u ->
  u.(Unified.Exchange) = "binance" /\ is_Some u.(Unified.Binance) /\
  exchange.NewExchange p = err (Errorf "unsupported exchange: %s" [Str name]).
Proof.
  intros name L N D U. subst name.
  destruct (ToUnified_slots p u U) as (E & B & _).
  split; [congruence|]. split; [apply B, L|].
  unfold exchange.NewExchange. rewrite D.
  apply String.eqb_neq in N. rewrite N.
  destruct (_ =? "okx") eqn:O; [|reflexivity].
  apply String.eqb_eq in O. rewrite O in L. discriminate L.
Qed.

(** *** The environment *)

(** X12.  [IsLambdaEnvironment] holds exactly when an entry of the
    environment starts with ["AWS_LAMBDA_"] and goes on for one byte at
    least; the entry ["AWS_LAMBDA_"] alone does not count. *)
Theorem IsLambdaEnvironment_iff (environ : list string) :
  env.IsLambdaEnvironment environ = true
  <-> exists c rest, In ("AWS_LAMBDA_" ++ String c rest) environ.
Proof.
  unfold env.IsLambdaEnvironment. rewrite existsb_exists. split.
  - intros (e & I & E). apply andb_true_iff in E as [L E].
    apply Nat.ltb_lt in L. apply String.eqb_eq in E.
    pose proof (substring_cut 11 e ltac:(lia)) as C. rewrite E in C.
    destruct (substring 11 (String.length e - 11) e) as [|c rest].
    + rewrite C in L. simpl in L. lia.
    + exists c, rest. rewrite <- C. exact I.
  - intros (c & rest & I). eexists. split; [exact I|]. reflexivity.
Qed.

(** X13.  [splitOnce] cuts at the first separator and nowhere else: a
    string without separator comes back alone, and any other string comes
    back as what precedes its first separator and what follows it, further
    separators included. *)
Theorem splitOnce_first (s : string) (sep : ascii) :
  (without_byte sep s /\ env.splitOnce s sep = [s]) \/
  (exists before after,
     s = before ++ String sep after /\ without_byte sep before /\
     env.splitOnce s sep = [before; after]).
Proof.
  unfold without_byte. induction s as [|c s IH]; simpl; [auto|].
  destruct (Ascii.eqb c sep) eqn:E.
  - right. apply Ascii.eqb_eq in E as ->. exists "", s. auto.
  - rewrite (Ascii.eqb_sym sep c), E. simpl.
    destruct IH as [[N ->]|(before & after & -> & N & ->)]; [auto|].
    right. exists (String c before), after.
    split; [reflexivity|]. split; [|reflexivity].
    simpl. rewrite (Ascii.eqb_sym sep c), E, N. reflexivity.
Qed.

Lemma splitOnce_at (sep : ascii) (before after : string) :
  without_byte sep before ->
  env.splitOnce (before ++ String sep after) sep = [before; after].
Proof.
  unfold without_byte. induction before as [|c before IH]; appended.
  - intros _. rewrite Ascii.eqb_refl. reflexivity.
  - intros N. apply orb_false_iff in N as [E N].
    rewrite (Ascii.eqb_sym c sep), E, (IH N). reflexivity.
Qed.

Lemma any_byte_either (p q : ascii -> bool) (s : string) :
  strings.any_byte (fun c => p c || q c) s
  = strings.any_byte p s || strings.any_byte q s.
Proof.
  induction s as [|c s IH]; simpl; [reflexivity|]. rewrite IH.
  destruct (p c), (q c), (strings.any_byte p s); reflexivity.
Qed.

Lemma any_byte_eqb (c : ascii) (s : string) :
  strings.any_byte (fun d => Ascii.eqb d c) s = strings.any_byte (Ascii.eqb c) s.
Proof.
  induction s as [|d s IH]; simpl; [reflexivity|].
  rewrite IH, (Ascii.eqb_sym d c). reflexivity.
Qed.

(** [os.Setenv] of a variable that is not set yet. *)
Lemma Setenv_new (variable : string * string) (t : os.table) :
  settable variable -> t.(os.env) !! variable.1 = None ->
  os.Setenv variable.1 variable.2 t
  = (None, {| os.envs := (t.(os.envs) ++ [entry variable])%list;
              os.env := <[variable.1 := length t.(os.envs)]> t.(os.env) |}).
Proof.
  intros (K & E & Z & V) L. unfold os.Setenv, without_byte in *.
  apply String.eqb_neq in K.
  rewrite K, any_byte_either, !any_byte_eqb, E, Z, V, L. reflexivity.
Qed.

Lemma restoreEnv_appends (variables : list (string * string)) (t : os.table) :
  Forall settable variables -> NoDup (map fst variables) ->
  (forall key, In key (map fst variables) -> t.(os.env) !! key = None) ->
  os.envs
    (fold_left
       (fun t kv =>
          match env.splitOnce kv "=" with
          | [key; value] => snd (os.Setenv key value t)
          | _ => t
          end)
       (map entry variables) t)
  = (t.(os.envs) ++ map entry variables)%list.
Proof.
  revert t. induction variables as [|variable variables IH]; intros t F D U;
    simpl.
  - rewrite app_nil_r. reflexivity.
  - apply Forall_cons in F as [S F]. apply NoDup_cons in D as [I D].
    change (entry variable) with (variable.1 ++ String "=" variable.2) at 1.
    rewrite splitOnce_at by apply S.
    rewrite Setenv_new by (auto; apply U; simpl; auto). simpl.
    rewrite IH; simpl; auto.
    + rewrite <- app_assoc. reflexivity.
    + intros key K. rewrite lookup_insert_ne.
      * apply U. simpl. auto.
      * intros <-. apply I. apply list_elem_of_In. exact K.
Qed.

(** No entry of a variable that can be set is empty. *)
Lemma Environ_settable (variables : list (string * string)) :
  Forall settable variables ->
  List.filter (fun entry => negb (entry =? "")) (map entry variables)
  = map entry variables.
Proof.
  induction 1 as [|variable variables (K & _) F IH]; simpl; [reflexivity|].
  rewrite IH. destruct variable as [[|c key] value]; [destruct K|]; reflexivity.
Qed.

(** X14.  [restoreEnv] puts back an environment it is given, whatever the
    environment was in between, when the entries are variables [os.Setenv]
    accepts and no key comes twice. *)
Theorem restoreEnv_round_trip (variables : list (string * string))
    (t : os.table) :
  Forall settable variables -> NoDup (map fst variables) ->
  os.Environ (env.restoreEnv (map entry variables) t) = map entry variables.
Proof.
  intros F D. unfold os.Environ, env.restoreEnv.
  rewrite restoreEnv_appends by (auto; intros; apply lookup_empty). simpl.
  apply Environ_settable, F.
Qed.

(** *** What a decimal is written with *)

Lemma all_bytes_app (p : ascii -> bool) (s t : string) :
  strings.all_bytes p (s ++ t) = strings.all_bytes p s && strings.all_bytes p t.
Proof.
  induction s as [|c s IH]; appended; [reflexivity|].
  rewrite IH, andb_assoc. reflexivity.
Qed.

Lemma all_bytes_weaken (p q : ascii -> bool) (s : string) :
  (forall c, p c = true -> q c = true) ->
  strings.all_bytes p s = true -> strings.all_bytes q s = true.
Proof.
  intros W. induction s as [|c s IH]; simpl; [reflexivity|].
  intros E. apply andb_true_iff in E as [E1 E2].
  rewrite (W _ E1), (IH E2). reflexivity.
Qed.

Lemma cut_Some (p : ascii -> bool) (s before after : string) :
  strings.cut p s = Some (before, after) ->
  exists c, p c = true /\ s = before ++ String c after.
Proof.
  revert before. induction s as [|c s IH]; intros before; simpl; [discriminate|].
  destruct (p c) eqn:P.
  - intros [= <- <-]. exists c. auto.
  - destruct (strings.cut p s) as [[b a]|]; [|discriminate].
    intros [= <- <-]. destruct (IH b eq_refl) as (d & D & ->).
    exists d. auto.
Qed.

Lemma ParseUint_loop_digits (maxVal : Z) (s : string) (n v : Z) :
  strconv.ParseUint_loop maxVal s n = (v, None) ->
  strings.all_bytes strconv.isDigit s = true.
Proof.
  revert n. induction s as [|c s IH]; intros n; simpl; [reflexivity|].
  destruct (strconv.isDigit c); simpl; [|discriminate].
  repeat match goal with
    | |- context [if ?b then _ else _] => destruct b; [discriminate|]
    end.
  apply IH.
Qed.

Lemma ParseUint_loop_range (maxVal : Z) (s : string) (n v : Z) :
  strconv.ParseUint_loop maxVal s n = (v, Some strconv.ErrRange) -> v = maxVal.
Proof.
  revert n. induction s as [|c s IH]; intros n; simpl; [discriminate|].
  destruct (negb _); [discriminate|].
  repeat match goal with
    | |- context [if ?b then _ else _] => destruct b; [congruence|]
    end.
  apply IH.
Qed.

Lemma ParseUint_digits (s : string) (bitSize v : Z) :
  strconv.ParseUint s bitSize = (v, None) ->
  strings.all_bytes strconv.isDigit s = true.
Proof.
  destruct s; [discriminate|]. apply ParseUint_loop_digits.
Qed.

Lemma ParseUint_range (s : string) (bitSize v : Z) :
  strconv.ParseUint s bitSize = (v, Some strconv.ErrRange) ->
  v = (2 ^ bitSize - 1)%Z.
Proof.
  destruct s; [discriminate|]. apply ParseUint_loop_range.
Qed.

Lemma digit_numeric (c : ascii) :
  strconv.isDigit c = true -> numeric_byte c = true.
Proof. unfold numeric_byte. intros ->. reflexivity. Qed.

(** An integer [strconv.ParseInt] reads, in 32 or 64 bits, is a sign and
    digits. *)
Lemma ParseInt_numeric (s : string) (bitSize n : Z) :
  bitSize = 32%Z \/ bitSize = 64%Z ->
  strconv.ParseInt s bitSize = inl n -> numeric s.
Proof.
  intros B. unfold numeric. destruct s as [|c s]; [discriminate|].
  unfold strconv.ParseInt.
  assert (R : forall digits neg,
    match strconv.ParseUint digits bitSize with
    | (_, Some strconv.ErrSyntax) => inr strconv.ErrSyntax
    | (un, _) =>
        let cutoff := (2 ^ (bitSize - 1))%Z in
        if negb neg && (un >=? cutoff)%Z then inr strconv.ErrRange
        else if neg && (un >? cutoff)%Z then inr strconv.ErrRange
        else inl (if neg then - un else un)%Z
    end = inl n ->
    strings.all_bytes numeric_byte digits = true).
  { intros digits neg.
    destruct (strconv.ParseUint digits bitSize) as [un [[]|]] eqn:P;
      [discriminate | | intros _].
    - apply ParseUint_range in P as ->.
      destruct B as [-> | ->], neg; vm_compute; discriminate.
    - apply ParseUint_digits in P.
      revert P. apply all_bytes_weaken, digit_numeric. }
  destruct (Ascii.eqb c "+") eqn:P; [|destruct (Ascii.eqb c "-") eqn:M].
  - intros E. apply R in E. simpl. rewrite E.
    unfold numeric_byte. rewrite P, orb_true_r. reflexivity.
  - intros E. apply R in E. simpl. rewrite E.
    unfold numeric_byte. rewrite M, !orb_true_r. reflexivity.
  - apply R.
Qed.

Lemma digits_value_digits (s : string) (n v : Z) :
  big.digits_value s n = Some v -> strings.all_bytes strconv.isDigit s = true.
Proof.
  revert n. induction s as [|c s IH]; intros n; simpl; [reflexivity|].
  destruct (strconv.isDigit c); [apply IH | discriminate].
Qed.

Lemma SetString_numeric (s : string) (n : Z) :
  big.SetString s = Some n -> numeric s.
Proof.
  unfold numeric, big.SetString. destruct s as [|c s]; [discriminate|].
  assert (R : forall digits (neg : bool),
    match digits with
    | EmptyString => None
    | _ => (fun n => if neg then - n else n)%Z <$> big.digits_value digits 0%Z
    end = Some n ->
    strings.all_bytes numeric_byte digits = true).
  { intros [|d digits] neg; [discriminate|].
    destruct (big.digits_value _ _) as [v|] eqn:D; [intros _ | discriminate].
    apply digits_value_digits in D.
    revert D. apply all_bytes_weaken, digit_numeric. }
  destruct (Ascii.eqb c "+") eqn:P; [|destruct (Ascii.eqb c "-") eqn:M].
  - intros E. apply (R s false) in E. simpl. rewrite E.
    unfold numeric_byte. rewrite P, orb_true_r. reflexivity.
  - intros E. apply (R s true) in E. simpl. rewrite E.
    unfold numeric_byte. rewrite M, !orb_true_r. reflexivity.
  - apply (R (String c s) false).
Qed.

Lemma numeric_mark (p : ascii -> bool) (c : ascii) :
  p = decimal.isDot \/ p = decimal.isE -> p c = true -> numeric_byte c = true.
Proof.
  unfold numeric_byte. intros [-> | ->] ->; rewrite ?orb_true_r; reflexivity.
Qed.

(** A string [decimal.NewFromString] reads is made of digits, signs, the
    decimal point and the mark of the exponent. *)
Lemma NewFromString_numeric (s : string) (d : decimal.Decimal) :
  decimal.NewFromString s = ok d -> numeric s.
Proof.
  unfold decimal.NewFromString.
  assert (M : forall value exp,
    (if (2 <=? strings.count decimal.isDot value)%nat then
       err (Errorf "can't convert %s to decimal: too many .s" [Str value])
     else
       let '(intString, exp) :=
         match strings.cut decimal.isDot value with
         | None => (value, exp)
         | Some (before, after) =>
             (before ++ after, (exp + - Z.of_nat (String.length after))%Z)
         end in
       let dValue :=
         if (String.length intString <=? 18)%nat then
           match strconv.ParseInt intString 64 with
           | inl parsed64 => Some parsed64
           | inr _ => None
           end
         else big.SetString intString in
       match dValue with
       | None => err (Errorf "can't convert %s to decimal" [Str value])
       | Some dValue =>
           if ((exp <? - 2 ^ 31) || (exp >? 2 ^ 31 - 1))%Z then
             err (Errorf
                    "can't convert %s to decimal: fractional part too long"
                    [Str s])
           else ok {| decimal.value := dValue; decimal.exp := exp |}
       end) = ok d ->
    numeric value).
  { intros value exp. destruct (2 <=? _)%nat; [discriminate|].
    assert (I : forall intString exp',
      match
        (if (String.length intString <=? 18)%nat then
           match strconv.ParseInt intString 64 with
           | inl parsed64 => Some parsed64
           | inr _ => None
           end
         else big.SetString intString)
      with
      | None => err (Errorf "can't convert %s to decimal" [Str value])
      | Some dValue =>
          if ((exp' <? - 2 ^ 31) || (exp' >? 2 ^ 31 - 1))%Z then
            err (Errorf
                   "can't convert %s to decimal: fractional part too long"
                   [Str s])
          else ok {| decimal.value := dValue; decimal.exp := exp' |}
      end = ok d -> numeric intString).
    { intros intString exp'. destruct (_ <=? 18)%nat.
      - destruct (strconv.ParseInt intString 64) as [n|e] eqn:P;
          [intros _ | discriminate].
        apply (ParseInt_numeric _ _ _ (or_intror eq_refl) P).
      - destruct (big.SetString intString) as [n|] eqn:P;
          [intros _ | discriminate].
        apply (SetString_numeric _ _ P). }
    destruct (strings.cut decimal.isDot value) as [[before after]|] eqn:C;
      [|apply I].
    intros E. apply I in E. apply cut_Some in C as (c & D & ->).
    unfold numeric in *. rewrite all_bytes_app in *. simpl.
    apply andb_true_iff in E as [-> ->].
    rewrite (numeric_mark _ c (or_introl eq_refl) D). reflexivity. }
  destruct (strings.cut decimal.isE s) as [[mantissa exponent]|] eqn:C;
    [|apply M].
  destruct (strconv.ParseInt exponent 32) as [expInt|[]] eqn:P;
    [|discriminate..].
  intros E. apply M in E. apply cut_Some in C as (c & D & ->).
  apply (ParseInt_numeric _ _ _ (or_introl eq_refl)) in P.
  unfold numeric in *. rewrite all_bytes_app. simpl.
  rewrite E, P, (numeric_mark _ c (or_intror eq_refl) D). reflexivity.
Qed.

Lemma asciiSpace_not_numeric (c : ascii) :
  strings.asciiSpace c = true -> numeric_byte c = false.
Proof.
  destruct c as [[] [] [] [] [] [] [] []]; vm_compute; intros E;
    first [discriminate E | reflexivity].
Qed.

(** White space and no more is not a decimal. *)
Lemma NewFromString_blank (s : string) :
  ascii_blank s -> s <> "" -> succeeds (decimal.NewFromString s) = false.
Proof.
  intros B N. destruct (decimal.NewFromString s) as [d|e] eqn:E; [|reflexivity].
  apply NewFromString_numeric in E. destruct s as [|c s]; [destruct N; auto|].
  unfold ascii_blank, numeric in *. simpl in *.
  apply andb_true_iff in B as [B _]. apply andb_true_iff in E as [E _].
  rewrite (asciiSpace_not_numeric c B) in E. discriminate.
Qed.

(** *** The payloads *)

Section PayloadProperties.

Context `{Unicode} `{JSON}.

Ltac converted E :=
  unfold ToUnified, populateUnifiedCredentials in E;
  repeat match type of E with
    | context [if ?c then _ else _] => destruct c eqn:?
    | context [match ?c with _ => _ end] => destruct c eqn:?
    end;
  simplify_eq; simpl in *; strings_eq.

Lemma ToUnified_dry_run (p : DCAPayload) (u : Unified) :
  ToUnified p = ok u ->
  u.(Unified.DryRun) = p.(DCAPayload.Flags).(RuntimeFlags.DryRun).
Proof. intros E. converted E; reflexivity. Qed.

Lemma with_default_order_type_set (p : DCAPayload) :
  (with_default_order_type p).(DCAPayload.Version) = p.(DCAPayload.Version) /\
  (with_default_order_type p).(DCAPayload.Strategy).(DCAStrategy.OrderType)
  <> "".
Proof.
  unfold with_default_order_type.
  destruct (DCAStrategy.OrderType _ =? "") eqn:O; strings_eq; simpl;
    (split; [reflexivity | first [discriminate | assumption]]).
Qed.

(** X15.  A payload [ParseDCAPayload] returns has an exchange name, a
    symbol and an order type that are not empty, and [ToUnified] converts
    it without error, into a plan with the name in lower case, the symbol
    in upper case and the same dry-run flag. *)
Theorem parsed_payload_is_converted (raw : list Byte.byte) (p' : DCAPayload) :
  ParseDCAPayload raw = ok p' ->
  let name := p'.(DCAPayload.Exchange).(ExchangeConfig.Name) in
  let strategy := p'.(DCAPayload.Strategy) in
  name <> "" /\ strategy.(DCAStrategy.Symbol) <> "" /\
  strategy.(DCAStrategy.OrderType) <> "" /\
  exists u,
    ToUnified p' = ok u /\
    u.(Unified.Exchange) = strings.ToLower name /\
    u.(Unified.Symbol) = strings.ToUpper strategy.(DCAStrategy.Symbol) /\
    u.(Unified.DryRun) = p'.(DCAPayload.Flags).(RuntimeFlags.DryRun).
Proof.
  intros E name strategy. subst name strategy.
  destruct (ParseDCAPayload_ToUnified raw p' E) as [u U].
  apply ParseDCAPayload_ok_iff in E as (p & _ & V & ->).
  destruct V as (_ & N & S & _).
  destruct (strategy_with_default p) as (S' & _ & _ & X' & _).
  destruct (with_default_order_type_set p) as [_ O].
  simpl in S', X'. rewrite S', X'. split_and!; auto.
  exists u. split; [exact U|].
  destruct (ToUnified_slots _ _ U) as (N' & _).
  rewrite X' in N'. rewrite <- S'.
  split_and!; auto using ToUnified_symbol, ToUnified_dry_run.
Qed.

Lemma lowerByte_v (c : ascii) :
  strings.lowerByte c = "v"%char -> c = "v"%char \/ c = "V"%char.
Proof.
  destruct c as [[] [] [] [] [] [] [] []]; vm_compute; intros E;
    first [discriminate E | auto].
Qed.

Lemma lowerByte_2 (c : ascii) : strings.lowerByte c = "2"%char -> c = "2"%char.
Proof.
  destruct c as [[] [] [] [] [] [] [] []]; vm_compute; intros E;
    first [discriminate E | auto].
Qed.

Lemma ToLower_v2 (s : string) :
  strings.isASCII s = true -> strings.ToLower s = "v2" ->
  s = "v2" \/ s = "V2".
Proof.
  intros A. unfold strings.ToLower. rewrite A.
  destruct (negb _); [auto|].
  destruct s as [|c1 [|c2 [|c3 s]]]; simpl; try discriminate.
  intros [= E1 E2]. apply lowerByte_v in E1. apply lowerByte_2 in E2.
  destruct E1; subst; auto.
Qed.

(** X16.  The version is compared without regard to case: of the versions
    written in ASCII, both parsers accept ["v2"] and ["V2"] and no other. *)
Theorem version_accepted :
  strings.ToLower "V2" = "v2" /\
  (forall (raw : list Byte.byte) (p' : DCAPayload),
     ParseDCAPayload raw = ok p' ->
     strings.isASCII p'.(DCAPayload.Version) = true ->
     p'.(DCAPayload.Version) = "v2" \/ p'.(DCAPayload.Version) = "V2") /\
  (forall (raw : list Byte.byte) (v2 : PayloadV2) (u : Unified),
     Unmarshal_PayloadV2 raw = ok v2 -> ParseUnifiedV2 raw = ok u ->
     strings.isASCII v2.(PayloadV2.Version) = true ->
     v2.(PayloadV2.Version) = "v2" \/ v2.(PayloadV2.Version) = "V2").
Proof.
  split; [reflexivity|]. split.
  - intros raw p' E. apply ParseDCAPayload_ok_iff in E as (p & _ & V & ->).
    destruct (with_default_order_type_set p) as [-> _].
    destruct V as [V _]. auto using ToLower_v2.
  - intros raw v2 u D E.
    apply ParseUnifiedV2_ok_inv in E as (v2' & D' & V & _).
    rewrite D in D'. injection D' as <-. auto using ToLower_v2.
Qed.

(** X17.  An amount that is accepted is written with digits, signs, the
    decimal point and the mark of the exponent only: no white space, no
    separator of thousands, no currency.  This holds for the quote amount
    and the threshold of a payload [ParseDCAPayload] returns, and for the
    quote amount and the trimmed threshold of a legacy payload
    [ParseUnifiedV2] converts. *)
Theorem accepted_amounts_are_numeric :
  (forall (raw : list Byte.byte) (p' : DCAPayload),
     ParseDCAPayload raw = ok p' ->
     numeric p'.(DCAPayload.Strategy).(DCAStrategy.QuoteAmount) /\
     numeric p'.(DCAPayload.Strategy).(DCAStrategy.BalanceThreshold)) /\
  (forall (raw : list Byte.byte) (v2 : PayloadV2) (u : Unified),
     Unmarshal_PayloadV2 raw = ok v2 -> ParseUnifiedV2 raw = ok u ->
     numeric v2.(PayloadV2.DCA).(PayloadV2.DCA.QuoteAmount) /\
     numeric
       (strings.TrimSpace v2.(PayloadV2.DCA).(PayloadV2.DCA.BalanceThreshold))).
Proof.
  split.
  - intros raw p' E. apply ParseDCAPayload_ok_iff in E as (p & _ & V & ->).
    destruct V as (_ & _ & _ & _ & A).
    apply amounts_parse_with_default in A as [Q T]. split.
    + clear T.
      destruct (decimal.NewFromString _) as [d|] eqn:E; [|discriminate].
      apply (NewFromString_numeric _ _ E).
    + clear Q. destruct T as [-> | T]; [reflexivity|].
      destruct (decimal.NewFromString _) as [d|] eqn:E; [|discriminate].
      apply (NewFromString_numeric _ _ E).
  - intros raw v2 u D E. unfold ParseUnifiedV2 in E. rewrite D in E.
    destruct (negb _); [discriminate|].
    destruct (_ =? ""); [discriminate|].
    destruct (legacySymbol _); [|discriminate].
    destruct (decimal.NewFromString _) as [qa|] eqn:Q; [|discriminate].
    destruct (negb (decimal.IsPositive qa)); [discriminate|].
    split; [apply (NewFromString_numeric _ _ Q)|].
    destruct (strings.TrimSpace _ =? "") eqn:B; strings_eq;
      [rewrite B; reflexivity|].
    simpl in E.
    destruct (decimal.NewFromString (strings.TrimSpace _)) as [bt|] eqn:T;
      [|discriminate].
    apply (NewFromString_numeric _ _ T).
Qed.

(** X18.  A threshold of white space only is read differently by the two
    parsers.  [ParseDCAPayload] refuses it when it is not empty, as does
    [ToUnified]; [ParseUnifiedV2] trims it and takes the threshold for
    absent: the plan has [decimal.Zero]. *)
Theorem blank_threshold :
  (forall (raw : list Byte.byte) (p : DCAPayload),
     let threshold := p.(DCAPayload.Strategy).(DCAStrategy.BalanceThreshold) in
     Unmarshal_DCAPayload raw = ok p ->
     ascii_blank threshold -> threshold <> "" ->
     succeeds (ParseDCAPayload raw) = false /\ succeeds (ToUnified p) = false) /\
  (forall (raw : list Byte.byte) (v2 : PayloadV2) (u : Unified),
     Unmarshal_PayloadV2 raw = ok v2 -> ParseUnifiedV2 raw = ok u ->
     ascii_blank v2.(PayloadV2.DCA).(PayloadV2.DCA.BalanceThreshold) ->
     u.(Unified.BalanceThreshold) = decimal.Zero).
Proof.
  split.
  - intros raw p threshold D B N. subst threshold.
    pose proof (NewFromString_blank _ B N) as F.
    assert (A : ~ amounts_parse p.(DCAPayload.Strategy)).
    { intros [_ [E|E]]; [auto | congruence]. }
    split.
    + destruct (ParseDCAPayload raw) as [p'|] eqn:E; [|reflexivity].
      apply ParseDCAPayload_ok_iff in E as (p0 & D0 & V & _).
      rewrite D in D0. injection D0 as <-.
      destruct V as (_ & _ & _ & _ & V). destruct (A V).
    + apply not_true_iff_false. rewrite ToUnified_succeeds_iff. exact A.
  - intros raw v2 u D B E'. unfold ParseUnifiedV2 in B. rewrite D in B.
    destruct (negb _); [discriminate|].
    destruct (_ =? ""); [discriminate|].
    destruct (legacySymbol _); [|discriminate].
    destruct (decimal.NewFromString _) as [qa|]; [|discriminate].
    destruct (negb (decimal.IsPositive qa)); [discriminate|].
    rewrite (TrimSpace_blank _ E') in B. simpl in B. injection B as <-.
    unfold legacyTelegram, legacyCredentials. branches; reflexivity.
Qed.

(** X19.  A credential kind that is not ["ssm"] leaves the paths of the
    record of the exchange empty, whatever the bag holds: for binance the
    record is allocated and empty, so credentials given inline are dropped
    without an error; for okx the same holds of the record of paths. *)
Theorem credential_kind_not_ssm (p : DCAPayload) (u : Unified) :
  let name := strings.ToLower p.(DCAPayload.Exchange).(ExchangeConfig.Name) in
  let type :=
    p.(DCAPayload.Exchange).(ExchangeConfig.Credentials)
     .(CredentialSource.Type_) in
  ToUnified p = ok u -> type <> "ssm" ->
  (name = "binance" ->
   u.(Unified.Binance) =
     Some {| Unified.Binance.APIKeyPath := "";
             Unified.Binance.APISecretPath := "" |}) /\
  (name = "okx" ->
   u.(Unified.OKX) =
     Some {| Unified.OKX.APIKeyPath := ""; Unified.OKX.APISecretPath := "";
             Unified.OKX.PassphrasePath := "" |}).
Proof.
  intros name type E T. subst name type.
  converted E; split; intros; try congruence; reflexivity.
Qed.

(** X20.  For okx with credentials of kind ["ssm"] the three paths are
    copied from the bag, each one when the bag holds a string for it, and
    no inline record is made. *)
Theorem ToUnified_okx_ssm (p : DCAPayload) (u : Unified) (a b c : string) :
  let credentials := p.(DCAPayload.Exchange).(ExchangeConfig.Credentials) in
  strings.ToLower p.(DCAPayload.Exchange).(ExchangeConfig.Name) = "okx" ->
  credentials.(CredentialSource.Type_) = "ssm" ->
  credentials.(CredentialSource.Config) !! "apiKeyPath" = Some (JString a) ->
  credentials.(CredentialSource.Config) !! "apiSecretPath" = Some (JString b) ->
  credentials.(CredentialSource.Config) !! "passphrasePath" = Some (JString c) ->
  ToUnified p = ok u ->
  u.(Unified.OKX) =
    Some {| Unified.OKX.APIKeyPath := a; Unified.OKX.APISecretPath := b;
            Unified.OKX.PassphrasePath := c |} /\
  u.(Unified.OKXInline) = None /\ u.(Unified.Binance) = None.
Proof.
  intros credentials N T A B C E. subst credentials.
  converted E; try congruence;
    rewrite (copy_string_found _ _ a _ _ A), (copy_string_found _ _ b _ _ B),
      (copy_string_found _ _ c _ _ C); auto.
Qed.

(** X21.  A plan [ParseUnifiedV2] returns has an exchange and a symbol
    that are not empty, a quote amount above zero, and the dry-run flag of
    the payload. *)
Theorem legacy_plan_invariants (raw : list Byte.byte) (v2 : PayloadV2)
    (u : Unified) :
  Unmarshal_PayloadV2 raw = ok v2 -> ParseUnifiedV2 raw = ok u ->
  u.(Unified.Exchange) <> "" /\ u.(Unified.Symbol) <> "" /\
  (0 < decimal.value u.(Unified.QuoteAmount))%Z /\
  u.(Unified.DryRun) = v2.(PayloadV2.Flags).(PayloadV2.Flags.DryRun).
Proof.
  intros D E. assert (E' := E).
  apply ParseUnifiedV2_ok_inv in E' as (v2' & D' & _ & _ & X & S & _ & P & _).
  rewrite D in D'. injection D' as <-.
  split; [exact X|]. split; [|split].
  - destruct (legacySymbol_cases v2.(PayloadV2.DCA)) as
      [[N S'] | [(_ & _ & _ & S') | (_ & _ & S')]]; rewrite S' in S;
      [congruence | | discriminate].
    injection S as <-.
    destruct (strings.ToUpper _); discriminate.
  - unfold decimal.IsPositive, decimal.Sign in P.
    apply Z.eqb_eq in P. apply Z.sgn_pos_iff. exact P.
  - unfold ParseUnifiedV2 in E. rewrite D in E.
    destruct (negb _); [discriminate|].
    destruct (_ =? ""); [discriminate|].
    destruct (legacySymbol _); [|discriminate].
    destruct (decimal.NewFromString _) as [qa|]; [|discriminate].
    destruct (negb (decimal.IsPositive qa)); [discriminate|].
    destruct (if negb _ then _ else _); [|discriminate].
    injection E as <-.
    unfold legacyTelegram, legacyCredentials. branches; reflexivity.
Qed.

End PayloadProperties.

(** *** The test of the environment *)

(** X22.  [TestIsLambdaEnvironment] reports no error in whatever
    environment it starts, and leaves the environment as it found it when
    the entries are variables [os.Setenv] accepts and no key comes twice. *)
Theorem TestIsLambdaEnvironment_passes (t : os.table) :
  fst (env.TestIsLambdaEnvironment t) = [] /\
  forall variables : list (string * string),
    Forall settable variables -> NoDup (map fst variables) ->
    os.Environ t = map entry variables ->
    os.Environ (snd (env.TestIsLambdaEnvironment t)) = os.Environ t.
Proof.
  split; [reflexivity|].
  intros variables F D E. unfold env.TestIsLambdaEnvironment. simpl.
  rewrite E. unfold os.Environ at 1. unfold env.restoreEnv.
  rewrite restoreEnv_appends by (auto; intros; apply lookup_empty). simpl.
  apply Environ_settable, F.
Qed.

(** *** What the handler keeps out of the log *)

Section HandlerBags.

Context `{Unicode} `{JSON} `{DecimalFloat}.

Lemma ToUnified_logged (p : DCAPayload) (u : Unified) :
  ToUnified p = ok u ->
  u.(Unified.Symbol)
  = strings.ToUpper p.(DCAPayload.Strategy).(DCAStrategy.Symbol) /\
  u.(Unified.Exchange)
  = strings.ToLower p.(DCAPayload.Exchange).(ExchangeConfig.Name) /\
  u.(Unified.DryRun) = p.(DCAPayload.Flags).(RuntimeFlags.DryRun).
Proof.
  intros U. destruct (ToUnified_slots p u U) as (X & _).
  split; [apply ToUnified_symbol, U|].
  split; [exact X | apply ToUnified_dry_run, U].
Qed.

(** X23.  Nothing of the two bags, where the credentials given inline are,
    reaches the log or the exchange: two events whose payloads are accepted
    and differ in the bags only make [handleRequest] write the same lines,
    do the same to the account, and return the same error. *)
Theorem handleRequest_keeps_bags_out (event event' : list Byte.byte)
    (p p' : DCAPayload) (w : main.world unit) :
  ParseDCAPayload event = ok p -> ParseDCAPayload event' = ok p' ->
  without_bags p = without_bags p' ->
  main.handleRequest event w = main.handleRequest event' w.
Proof.
  intros P P' B. unfold main.handleRequest. rewrite P, P'.
  destruct (ParseDCAPayload_ToUnified _ _ P) as [u U].
  destruct (ParseDCAPayload_ToUnified _ _ P') as [u' U'].
  rewrite U, U'.
  destruct (ToUnified_logged _ _ U) as (-> & -> & ->).
  destruct (ToUnified_logged _ _ U') as (-> & -> & ->).
  clear U U' P P' u u'.
  destruct p as [version [name [type config] region] strategy [telegram] flags].
  destruct p' as
    [version' [name' [type' config'] region'] strategy' [telegram'] flags'].
  unfold without_bags in B. simpl in B.
  injection B as -> -> -> -> -> T ->.
  unfold exchange.NewExchange, main.runDCAStrategy, main.checkBalanceAndNotify,
    main.sendLowBalanceNotification. simpl.
  destruct telegram as [[kind bag]|], telegram' as [[kind' bag']|];
    simpl in T; try discriminate T; [injection T as ->|]; reflexivity.
Qed.

End HandlerBags.

(** ** Instances of the further properties *)

(** X1, witness: the symbol ["BTC-USDT"]. *)
Lemma extractQuoteCurrency_pair_witness :
  main.extractQuoteCurrency "BTC-USDT" = ok "USDT".
Proof. apply (extractQuoteCurrency_pair "BTC" "USDT"); reflexivity. Defined.

(** X2, witness: the symbol ["BTC-USDT-SWAP"]. *)
Lemma extractQuoteCurrency_hyphens_witness :
  main.extractQuoteCurrency "BTC-USDT-SWAP"
  = err (Errorf "invalid symbol format: %s" [Str "BTC-USDT-SWAP"]).
Proof. apply (extractQuoteCurrency_hyphens "BTC-USDT-SWAP"). simpl. lia. Defined.

(** X3, witness: the symbol ["BTCUSDT"]. *)
Lemma extractQuoteCurrency_suffix_witness :
  In "USDT" ["USDT"; "USDC"; "BUSD"; "USD"; "BTC"; "ETH"]
  /\ exists base, "BTCUSDT" = base ++ "USDT".
Proof. apply (extractQuoteCurrency_suffix "BTCUSDT" "USDT"); reflexivity. Defined.

(** X4, witness: the symbol ["BTCFDUSD"]. *)
Lemma extractQuoteCurrency_fdusd_witness :
  main.extractQuoteCurrency "BTCFDUSD" = ok "USD".
Proof. apply (extractQuoteCurrency_fdusd "BTC"). reflexivity. Defined.

(** X5, witness: the symbol ["btcusdt"]. *)
Lemma extractQuoteCurrency_lower_case_witness :
  main.extractQuoteCurrency "btcusdt"
  = err (Errorf "unable to extract quote currency from symbol: %s"
           [Str "btcusdt"]).
Proof. apply (extractQuoteCurrency_lower_case "btcusdt"); reflexivity. Defined.

(** X9, witness: a balance of 100 against a threshold of 500. *)
Lemma checkBalanceAndNotify_notifies_witness :
  let payload :=
    nested_payload "binance" "ssm" binance_ssm_bag "BTC-USDT" "10" "500" None in
  let balance := {| decimal.value := 100; decimal.exp := 0 |} in
  let threshold := {| decimal.value := 500; decimal.exp := 0 |} in
  let r :=
    main.checkBalanceAndNotify payload (counting_exchange balance "")
      (empty_world 0%nat) in
  main.returned r = None /\
  main.account (snd r) = 1%nat /\
  exists lines,
    main.journal (snd r) = ([] ++ lines)%list /\
    (In (main.Line "📢 Would send low balance notification:" []) lines
     <-> decimal.LessThan balance threshold = true).
Proof.
  intros payload balance threshold.
  apply (checkBalanceAndNotify_notifies payload (counting_exchange balance "")
           (empty_world 0%nat) "USDT" balance threshold 1%nat);
    reflexivity.
Defined.

(** X11, witness: the exchange name ["Binance"]. *)
Lemma exchange_name_case_witness :
  let p :=
    with_dry_run false
      (nested_payload "Binance" "ssm" binance_ssm_bag "BTC-USDT" "10" "" None) in
  exists u : Unified,
    @ToUnified ascii_text p = ok u /\
    u.(Unified.Exchange) = "binance" /\ is_Some u.(Unified.Binance) /\
    @exchange.NewExchange sample_floats p
    = err (Errorf "unsupported exchange: %s" [Str "Binance"]).
Proof.
  intros p.
  destruct (@ToUnified ascii_text p) as [u|e] eqn:U;
    [|vm_compute in U; discriminate U].
  exists u. split; [reflexivity|].
  apply (@exchange_name_case ascii_text sample_floats p u);
    [reflexivity | discriminate | reflexivity | exact U].
Defined.

(** X14, witness: two variables, restored over an environment that holds
    another one. *)
Lemma restoreEnv_round_trip_witness :
  os.Environ
    (env.restoreEnv ["HOME=/root"; "AWS_LAMBDA_FUNCTION_NAME=my-lambda"]
       one_variable)
  = ["HOME=/root"; "AWS_LAMBDA_FUNCTION_NAME=my-lambda"].
Proof.
  apply (restoreEnv_round_trip
           [("HOME", "/root"); ("AWS_LAMBDA_FUNCTION_NAME", "my-lambda")]
           one_variable).
  - repeat constructor; intros E; discriminate E.
  - apply NoDup_cons_2; [|apply NoDup_cons_2; [|apply NoDup_nil_2]];
      rewrite list_elem_of_In; simpl; intuition discriminate.
Defined.

(** X15, witness: a payload for ["Binance"]. *)
Lemma parsed_payload_is_converted_witness :
  let p :=
    nested_payload "Binance" "ssm" binance_ssm_bag "btc-usdt" "10" "" None in
  exists u : Unified,
    @ToUnified ascii_text (with_default_order_type p) = ok u /\
    u.(Unified.Exchange) = "binance" /\ u.(Unified.Symbol) = "BTC-USDT" /\
    u.(Unified.DryRun) = true.
Proof.
  intros p.
  destruct (@parsed_payload_is_converted ascii_text
              (decoding (ok p) not_decoded) [] (with_default_order_type p))
    as (_ & _ & _ & u & U & X & S & D); [vm_compute; reflexivity|].
  exists u. split; [exact U|]. split; [exact X|]. split; [exact S | exact D].
Defined.

(** X16, witness: the version ["V2"]. *)
Lemma version_accepted_witness :
  let p :=
    with_version "V2"
      (nested_payload "binance" "ssm" binance_ssm_bag "btc-usdt" "10" "" None) in
  @ParseDCAPayload ascii_text (decoding (ok p) not_decoded) []
  = ok (with_default_order_type p) /\
  ("V2" = "v2" \/ "V2" = "V2").
Proof.
  intros p.
  assert (E : @ParseDCAPayload ascii_text (decoding (ok p) not_decoded) []
              = ok (with_default_order_type p)) by (vm_compute; reflexivity).
  split; [exact E|].
  apply (proj1 (proj2 (@version_accepted ascii_text
                         (decoding (ok p) not_decoded)))
           [] (with_default_order_type p) E).
  reflexivity.
Defined.

(** X17, witness: the amounts ["10.5"] and ["1e2"]. *)
Lemma accepted_amounts_are_numeric_witness :
  numeric "10.5" /\ numeric "1e2".
Proof.
  pose (p := nested_payload "binance" "ssm" binance_ssm_bag "btc-usdt" "10.5"
               "1e2" None).
  apply (proj1 (@accepted_amounts_are_numeric ascii_text
                  (decoding (ok p) not_decoded))
           [] (with_default_order_type p)).
  vm_compute. reflexivity.
Defined.

(** X18, witness: a threshold of two spaces, on both paths. *)
Lemma blank_threshold_witness :
  let nested :=
    nested_payload "binance" "ssm" binance_ssm_bag "btc-usdt" "10" "  " None in
  let legacy :=
    with_threshold "  "
      (legacy_payload "binance" "btc-usdt" "" "" "10" None None None) in
  let decoder := decoding (ok nested) (ok legacy) in
  (succeeds (@ParseDCAPayload ascii_text decoder []) = false /\
   succeeds (@ToUnified ascii_text nested) = false) /\
  exists u : Unified,
    @ParseUnifiedV2 ascii_text decoder [] = ok u /\
    u.(Unified.BalanceThreshold) = decimal.Zero.
Proof.
  intros nested legacy decoder.
  pose proof (@blank_threshold ascii_text decoder) as [N L].
  split.
  - apply (N [] nested); [reflexivity | reflexivity | discriminate].
  - destruct (@ParseUnifiedV2 ascii_text decoder []) as [u|e] eqn:U;
      [|vm_compute in U; discriminate U].
    exists u. split; [reflexivity|].
    apply (L [] legacy u); [reflexivity | exact U | reflexivity].
Defined.

(** X19, witness: binance with credentials given inline. *)
Lemma credential_kind_not_ssm_witness :
  let p :=
    nested_payload "binance" "inline" okx_inline_bag "btc-usdt" "10" "" None in
  exists u : Unified,
    @ToUnified ascii_text p = ok u /\
    u.(Unified.Binance) =
      Some {| Unified.Binance.APIKeyPath := "";
              Unified.Binance.APISecretPath := "" |}.
Proof.
  intros p.
  destruct (@ToUnified ascii_text p) as [u|e] eqn:U;
    [|vm_compute in U; discriminate U].
  exists u. split; [reflexivity|].
  apply (proj1 (@credential_kind_not_ssm ascii_text p u U
                  ltac:(discriminate))).
  reflexivity.
Defined.

(** X20, witness: the exchange name ["OKX"] with three paths. *)
Lemma ToUnified_okx_ssm_witness :
  let p := nested_payload "OKX" "ssm" okx_ssm_bag "eth-usdt" "20.50" "" None in
  exists u : Unified,
    @ToUnified ascii_text p = ok u /\
    u.(Unified.OKX) =
      Some {| Unified.OKX.APIKeyPath := "/k"; Unified.OKX.APISecretPath := "/s";
              Unified.OKX.PassphrasePath := "/p" |} /\
    u.(Unified.OKXInline) = None /\ u.(Unified.Binance) = None.
Proof.
  intros p.
  destruct (@ToUnified ascii_text p) as [u|e] eqn:U;
    [|vm_compute in U; discriminate U].
  exists u. split; [reflexivity|].
  apply (@ToUnified_okx_ssm ascii_text p u "/k" "/s" "/p");
    first [reflexivity | exact U].
Defined.

(** X21, witness: a legacy payload that names the two assets. *)
Lemma legacy_plan_invariants_witness :
  let legacy := legacy_payload " OKX " "" "btc" "usdt" "10" None None None in
  exists u : Unified,
    @ParseUnifiedV2 ascii_text (decoding not_decoded (ok legacy)) [] = ok u /\
    u.(Unified.Exchange) <> "" /\ u.(Unified.Symbol) <> "" /\
    (0 < decimal.value u.(Unified.QuoteAmount))%Z /\
    u.(Unified.DryRun) = false.
Proof.
  intros legacy.
  destruct (@ParseUnifiedV2 ascii_text (decoding not_decoded (ok legacy)) [])
    as [u|e] eqn:U; [|vm_compute in U; discriminate U].
  exists u. split; [reflexivity|].
  apply (@legacy_plan_invariants ascii_text (decoding not_decoded (ok legacy))
           [] legacy u eq_refl U).
Defined.

(** X23, witness: two payloads for okx with different secrets given
    inline. *)
Lemma handleRequest_keeps_bags_out_witness :
  let first :=
    nested_payload "okx" "inline" okx_inline_bag "BTC-USDT" "10" "500" None in
  let second :=
    nested_payload "okx" "inline" {[ "apiKey" := JString "another" ]}
      "BTC-USDT" "10" "500" None in
  let decoder := decoding_two first second in
  @main.handleRequest ascii_text decoder sample_floats [] (empty_world tt)
  = @main.handleRequest ascii_text decoder sample_floats [Byte.x00]
      (empty_world tt).
Proof.
  intros first second decoder.
  apply (@handleRequest_keeps_bags_out ascii_text decoder sample_floats
           [] [Byte.x00] (with_default_order_type first)
           (with_default_order_type second) (empty_world tt));
    vm_compute; reflexivity.
Defined.

(** X22, witness: the test run in an environment with one variable. *)
Lemma TestIsLambdaEnvironment_passes_witness :
  fst (env.TestIsLambdaEnvironment one_variable) = [] /\
  os.Environ (snd (env.TestIsLambdaEnvironment one_variable)) = ["LANG=C"].
Proof.
  destruct (TestIsLambdaEnvironment_passes one_variable) as [P R].
  split; [exact P|].
  apply (R [("LANG", "C")]).
  - repeat constructor; intros E; discriminate E.
  - apply NoDup_cons_2; [|apply NoDup_nil_2].
    rewrite list_elem_of_In. simpl. intuition.
  - reflexivity.
Defined.
